(** * Warehouse insights SQL builders

    A shallow embedding of the warehouse part of the insights query engine:
    the long-table builder [WarehouseInsightsSqlBuilder] (warehouse.ts), the
    wide-table builder [WarehouseWideTableInsightsSqlBuilder]
    (warehouse/wideTable.ts) and the events dispatcher [queryWarehouseEvents]
    (warehouse/index.ts).

    Builder methods read the process-wide application cache and may throw, so
    they are written in a small state-and-exception monad.  SQL statements are
    the pair a [Prisma.Sql] object exposes to the driver: the statement text
    with [?] placeholders and the list of bound values. *)

From Stdlib Require Import ZArith List String Ascii Bool Lia.
From Stdlib Require Import Numbers.DecimalString.
Import ListNotations.

Local Open Scope string_scope.
Local Open Scope Z_scope.

(* ===================================================================== *)
(** * JavaScript values and exceptions *)
(* ===================================================================== *)

Module Js.

(** What a [throw] carries.  [Error] is [new Error(message)]; [TypeError] is
    raised by [Prisma.join]; [ParseError] stands for [JSON.parse] or the zod
    schema refusing a configuration text. *)
Inductive exn : Type :=
| Error (message : string)
| TypeError (message : string)
| ParseError (input : string).

(** A JavaScript number, through the integers Number::toString reads off it
    (ECMA-262, 6.1.6.1.20): a finite number other than zero is
    [s * 10^(n - k)], where the [k] decimal digits of [s] are the shortest
    that denote the number.  Both zeros print alike and are one value. *)
Inductive number : Type :=
| NaN
| Infinity (negative : bool)
| Zero
| Decimal (negative : bool) (s : positive) (n : Z).

Fixpoint zeros (count : nat) : string :=
  match count with
  | O => ""
  | S count' => "0" ++ zeros count'
  end.

(** The decimal digits of a positive integer. *)
Definition digits (s : positive) : string :=
  NilZero.string_of_uint (Pos.to_uint s).

(** [Number::toString(x, 10)], which is [String(x)] and what a template
    literal makes of a number. *)
Definition Number_toString (x : number) : string :=
  match x with
  | NaN => "NaN"
  | Zero => "0"
  | Infinity negative => (if negative then "-" else "") ++ "Infinity"
  | Decimal negative s n =>
      let ds := digits s in
      let k := Z.of_nat (String.length ds) in
      (if negative then "-" else "") ++
      (if (-6 <? n) && (n <=? 21) then
         if k <=? n then ds ++ zeros (Z.to_nat (n - k))
         else if 0 <? n then
           substring 0 (Z.to_nat n) ds ++ "."
             ++ substring (Z.to_nat n) (Z.to_nat (k - n)) ds
         else "0." ++ zeros (Z.to_nat (- n)) ++ ds
       else
         let exponentSign := if n <? 0 then "-" else "+" in
         let exponent := digits (Z.to_pos (Z.abs (n - 1))) in
         if k =? 1 then ds ++ "e" ++ exponentSign ++ exponent
         else substring 0 1 ds ++ "." ++ substring 1 (Z.to_nat (k - 1)) ds
                ++ "e" ++ exponentSign ++ exponent)
  end.

(** The number an integer is, for an integer the number format holds, as
    every one up to 2^53 is: its digits without the zeros they end in, and
    the count of all its digits. *)
Definition integer (z : Z) : number :=
  match z with
  | Z0 => Zero
  | Zpos p | Zneg p =>
      let all := Pos.to_uint p in
      match N.of_uint (Decimal.rev (Decimal.nzhead (Decimal.rev all))) with
      | Npos s => Decimal (z <? 0) s (Z.of_nat (Decimal.nb_digits all))
      | N0 => Zero
      end
  end.

(** Modelled from the spec: the operand of a filter ([FilterInfoValue] of the
    shared package, which is not among the sources), also the type of the
    values bound to a statement: a string, a number or a list of either. *)
Inductive value : Type :=
| Str (s : string)
| Num (n : number)
| Strs (l : list string)
| Nums (l : list number).

(** [String(n)] for an integral number. *)
Definition String_of_Z (n : Z) : string :=
  Number_toString (integer n).

(** [Array.prototype.join(sep)] on strings. *)
Fixpoint join (sep : string) (l : list string) : string :=
  match l with
  | [] => ""
  | [x] => x
  | x :: rest => x ++ sep ++ join sep rest
  end.

(** The string a template literal makes of a value: [`${v}`]. *)
Definition String_of_value (v : value) : string :=
  match v with
  | Str s => s
  | Num n => Number_toString n
  | Strs l => join "," l
  | Nums l => join "," (map Number_toString l)
  end.

(** Truthiness of a [string | undefined] value: [undefined] and the empty
    string are falsy. *)
Definition truthy (v : option string) : bool :=
  match v with
  | Some s => negb (s =? "")%string
  | None => false
  end.

(** [a ?? b] on [string | undefined]. *)
Definition nullish (v : option string) (d : string) : string :=
  match v with
  | Some s => s
  | None => d
  end.

(** [a || b] on [string | undefined]. *)
Definition or_else (v : option string) (d : string) : string :=
  if truthy v then nullish v d else d.

(** The property names every plain object inherits from
    [Object.prototype]; the [in] operator answers [true] on them. *)
Definition Object_prototype_keys : list string :=
  [ "constructor"; "__defineGetter__"; "__defineSetter__"; "hasOwnProperty";
    "__lookupGetter__"; "__lookupSetter__"; "isPrototypeOf";
    "propertyIsEnumerable"; "toString"; "valueOf"; "__proto__";
    "toLocaleString" ].

Definition mem (k : string) (l : list string) : bool :=
  existsb (String.eqb k) l.

(** The result of reading [obj[key]] on an object literal of strings. *)
Inductive prop : Type :=
| Own (value : string)
| Inherited (key : string)
| Undefined.

Fixpoint own (key : string) (obj : list (string * string)) : option string :=
  match obj with
  | [] => None
  | (k, v) :: rest => if (k =? key)%string then Some v else own key rest
  end.

(** [key in obj]. *)
Definition has (key : string) (obj : list (string * string)) : bool :=
  match own key obj with
  | Some _ => true
  | None => mem key Object_prototype_keys
  end.

(** [obj[key]]. *)
Definition get (key : string) (obj : list (string * string)) : prop :=
  match own key obj with
  | Some v => Own v
  | None => if mem key Object_prototype_keys then Inherited key else Undefined
  end.

(** String conversion of a property value, as string concatenation performs
    it: [undefined] prints as ["undefined"], an inherited method as its
    native-code source text, the prototype object as ["[object Object]"]. *)
Definition String_of_prop (p : prop) : string :=
  match p with
  | Own v => v
  | Undefined => "undefined"
  | Inherited k =>
      if (k =? "__proto__")%string then "[object Object]"
      else if (k =? "constructor")%string
           then "function Object() { [native code] }"
           else "function " ++ k ++ "() { [native code] }"
  end.

End Js.

(* ===================================================================== *)
(** * The state-and-exception monad of the server process *)
(* ===================================================================== *)

Module Proc.

(** A computation over a mutable store [S] that returns or throws; the
    store survives a throw, as module-level state does. *)
Definition M (S A : Type) : Type := S -> (Js.exn + A) * S.

Definition ret {S A} (a : A) : M S A := fun s => (inr a, s).

Definition throw {S A} (e : Js.exn) : M S A := fun s => (inl e, s).

Definition bind {S A B} (m : M S A) (k : A -> M S B) : M S B :=
  fun s =>
    match m s with
    | (inr a, s') => k a s'
    | (inl e, s') => (inl e, s')
    end.

(** Lift a pure computation that may throw. *)
Definition lift {S A} (r : Js.exn + A) : M S A := fun s => (r, s).

(** [xs.map(f)] with a callback that may throw, left to right. *)
Fixpoint mapM {S A B} (f : A -> M S B) (xs : list A) : M S (list B) :=
  match xs with
  | [] => ret []
  | x :: rest =>
      bind (f x) (fun y => bind (mapM f rest) (fun ys => ret (y :: ys)))
  end.

(** [for (const x of xs) acc = body(acc, x)], with a body that may throw. *)
Fixpoint forOf {S A B} (body : B -> A -> M S B) (xs : list A) (acc : B)
  : M S B :=
  match xs with
  | [] => ret acc
  | x :: rest => bind (body acc x) (forOf body rest)
  end.

End Proc.

Declare Scope proc_scope.
Delimit Scope proc_scope with proc.
Notation "x <- m ;; k" := (Proc.bind m (fun x => k))
  (at level 61, m at next level, right associativity) : proc_scope.

(* ===================================================================== *)
(** * Prisma.Sql *)
(* ===================================================================== *)

Module Prisma.

Section Sql.
(** The type of bound values. *)
Context {V : Type}.

(** A statement as the driver sees it: [sql.sql] and [sql.values]. *)
Record Sql : Type := mkSql { sql : string; values : list V }.

(** [Prisma.raw(s)]: text spliced in verbatim. *)
Definition raw (s : string) : Sql := mkSql s [].

(** A non-Sql value in a template hole: a placeholder and a bound value. *)
Definition param (v : V) : Sql := mkSql "?" [v].

(** Juxtaposition inside a [Prisma.sql] template. *)
Definition app (a b : Sql) : Sql :=
  mkSql (sql a ++ sql b) (values a ++ values b).

Definition empty : Sql := mkSql "" [].

(** The body of [Prisma.join] on a non-empty array. *)
Fixpoint join_tail (separator : string) (rest : list Sql) : Sql :=
  match rest with
  | [] => empty
  | x :: rest' => app (raw separator) (app x (join_tail separator rest'))
  end.

(** [Prisma.join(values, separator, prefix, suffix)]; an empty array is a
    [TypeError]. *)
Definition join (xs : list Sql) (separator prefix suffix : string)
  : Js.exn + Sql :=
  match xs with
  | [] => inl (Js.TypeError
            "Expected `join([])` to be called with an array of multiple elements, but got an empty array")
  | x :: rest =>
      inr (app (raw prefix)
             (app x (app (join_tail separator rest) (raw suffix))))
  end.
End Sql.

Arguments Sql V : clear implicits.

End Prisma.

Declare Scope sql_scope.
Delimit Scope sql_scope with sql.
Infix "+++" := Prisma.app (at level 60, right associativity) : sql_scope.
Local Open Scope sql_scope.

(* ===================================================================== *)
(** * dayjs *)
(* ===================================================================== *)

Module Dayjs.

Definition MILLISECONDS_A_MINUTE : Z := 60000.
Definition MILLISECONDS_A_HOUR : Z := 3600000.
Definition MILLISECONDS_A_DAY : Z := 86400000.

(** The time values a [Date] holds are the integers within 8.64e15 ms of the
    epoch (ECMA-262, 21.4.1.1).  [dayjs(ms)] of any other number wraps an
    invalid date, whose readings are all [NaN]. *)
Definition MAX_TIME_VALUE : Z := 8640000000000000.

Definition isValid (ms : Z) : bool :=
  (- MAX_TIME_VALUE <=? ms) && (ms <=? MAX_TIME_VALUE).

(** An instant two days or more inside that range: the start and the end of
    its calendar day, on whatever clock, are valid dates as well. *)
Definition withinRange (ms : Z) : bool :=
  isValid (ms - 2 * MILLISECONDS_A_DAY) && isValid (ms + 2 * MILLISECONDS_A_DAY).

(** A valid dayjs object: the instant it wraps (milliseconds since the
    epoch, within the range of a [Date]) and the offset from UTC, in minutes,
    of the clock its fields are read on.  The operations below are those of
    valid objects. *)
Record t : Type := mk { valueOf : Z; utcOffset : Z }.

(** The wall-clock reading of the object, in milliseconds since
    1970-01-01 00:00 on its own clock. *)
Definition wall (d : t) : Z := valueOf d + utcOffset d * MILLISECONDS_A_MINUTE.

Section Zone.
(** The offset of the server's local zone at a given instant. *)
Variable localOffset : Z -> Z.

(** [dayjs(ms)], for a time value [ms] a [Date] holds. *)
Definition dayjs (ms : Z) : t := mk ms (localOffset ms).

(** [this.diff(input, 'day')]: whole days between the two wall clocks,
    truncated toward zero. *)
Definition diff_day (this : t) (input : Z) : Z :=
  let that := dayjs input in
  let zoneDelta := (utcOffset that - utcOffset this) * MILLISECONDS_A_MINUTE in
  let diff := valueOf this - valueOf that in
  Z.quot (diff - zoneDelta) MILLISECONDS_A_DAY.
End Zone.

(** [.utc()]: the same instant read on the UTC clock. *)
Definition utc (d : t) : t := mk (valueOf d) 0.

(** [.unix()]. *)
Definition unix (d : t) : Z := valueOf d / 1000.

(** [.startOf('day')] and [.endOf('day')]: the wall clock is moved to
    00:00:00.000 and to 23:59:59.999 of its own day. *)
Definition startOf_day (d : t) : t :=
  mk (valueOf d - wall d mod MILLISECONDS_A_DAY) (utcOffset d).

Definition endOf_day (d : t) : t :=
  mk (valueOf d - wall d mod MILLISECONDS_A_DAY + (MILLISECONDS_A_DAY - 1))
     (utcOffset d).

(** Year, month (1-12) and day of month of a day number counted from
    1970-01-01, in the proleptic Gregorian calendar. *)
Definition civil (days : Z) : Z * Z * Z :=
  let z := days + 719468 in
  let era := z / 146097 in
  let doe := z - era * 146097 in
  let yoe := (doe - doe / 1460 + doe / 36524 - doe / 146096) / 365 in
  let doy := doe - (365 * yoe + yoe / 4 - yoe / 100) in
  let mp := (5 * doy + 2) / 153 in
  let d := doy - (153 * mp + 2) / 5 + 1 in
  let m := if mp <? 10 then mp + 3 else mp - 9 in
  let y := yoe + era * 400 + (if m <=? 2 then 1 else 0) in
  (y, m, d).

Definition year (d : t) : Z := fst (fst (civil (wall d / MILLISECONDS_A_DAY))).
Definition month (d : t) : Z := snd (fst (civil (wall d / MILLISECONDS_A_DAY))).
Definition date (d : t) : Z := snd (civil (wall d / MILLISECONDS_A_DAY)).
Definition hour (d : t) : Z := (wall d mod MILLISECONDS_A_DAY) / MILLISECONDS_A_HOUR.
Definition minute (d : t) : Z := (wall d mod MILLISECONDS_A_HOUR) / MILLISECONDS_A_MINUTE.
Definition second (d : t) : Z := (wall d mod MILLISECONDS_A_MINUTE) / 1000.

Fixpoint repeat_string (pad : string) (n : nat) : string :=
  match n with
  | O => ""
  | S n' => pad ++ repeat_string pad n'
  end.

(** [padStart(string, length, pad)] of dayjs's utilities. *)
Definition padStart (s : string) (len : nat) (pad : string) : string :=
  if (len <=? String.length s)%nat then s
  else repeat_string pad (len - String.length s) ++ s.

Definition pad_number (n : Z) (len : nat) : string :=
  padStart (Js.String_of_Z n) len "0".

(** [.format('YYYY-MM-DD')]. *)
Definition format_YYYY_MM_DD (d : t) : string :=
  pad_number (year d) 4 ++ "-" ++ pad_number (month d) 2 ++ "-"
    ++ pad_number (date d) 2.

(** [.format('YYYY-MM-DD HH:mm:ss')]. *)
Definition format_YYYY_MM_DD_HH_mm_ss (d : t) : string :=
  format_YYYY_MM_DD d ++ " " ++ pad_number (hour d) 2 ++ ":"
    ++ pad_number (minute d) 2 ++ ":" ++ pad_number (second d) 2.

End Dayjs.

(* ===================================================================== *)
(** * The query model (utils/schema.ts) *)
(* ===================================================================== *)

Module Schema.

(** Modelled from the spec: utils/schema.ts is not among the sources.  The
    query model has the shape the specification gives it, with the fields the
    builders read; instants are milliseconds since the epoch, and the
    enumerations the builders compare with string literals ([math], [unit],
    the value types) are strings. *)
Definition FilterInfoValue : Type := Js.value.
Definition FilterInfoType : Type := string.

Record Metric : Type := mkMetric { metric_name : string; math : string }.

Record Filter : Type := mkFilter {
  filter_name : string;
  filter_type : FilterInfoType;
  operator : string;
  filter_value : option FilterInfoValue }.

Record CustomGroup : Type := mkCustomGroup {
  filterOperator : string;
  filterValue : FilterInfoValue }.

Record Group : Type := mkGroup {
  value : string;
  group_type : FilterInfoType;
  customGroups : option (list CustomGroup) }.

Record Time : Type := mkTime {
  startAt : Z;
  endAt : Z;
  unit : string;
  timezone : option string }.

Record Query : Type := mkQuery {
  insightId : string;
  workspaceId : string;
  metrics : list Metric;
  filters : list Filter;
  time : Time;
  groups : list Group;
  cursor : option string }.

Record Context : Type := mkContext { context_timezone : string }.

End Schema.

Definition Sql : Type := Prisma.Sql Js.value.

(** [arr.push(x)]. *)
Definition push {A} (arr : list A) (x : A) : list A := (arr ++ [x])%list.

(** The double-quote character, which delimits identifiers in the templates. *)
Definition DQ : string := String "034"%char EmptyString.

(** The sub-type tag of a configured application. *)
Inductive ApplicationType : Type := longTable | wideTable.

Definition ApplicationType_eqb (a b : ApplicationType) : bool :=
  match a, b with
  | longTable, longTable | wideTable, wideTable => true
  | _, _ => false
  end.

(* ===================================================================== *)
(** * The application registry *)
(* ===================================================================== *)

(** [let applications = null; export function getWarehouseApplications()] of
    warehouse.ts.  The wide-table builder imports a function of the same name
    from warehouse/utils.ts over its own application type, so the definition
    is generic in the application type and its parser. *)
Module Registry.

Section Applications.
Context {Application : Type}.

(** The module-level variable together with the environment entry it is
    filled from.  [parses] is a ghost counter of the calls made to the
    configuration parser. *)
Record Process : Type := mkProcess {
  applicationsJson : option string;
  applications : option (list Application);
  parses : nat }.

(** [schema.array().parse(JSON.parse(s))]. *)
Variable parse : string -> Js.exn + list Application.

Definition getWarehouseApplications : Proc.M Process (list Application) :=
  fun p =>
    match applications p with
    | None =>
        match parse (Js.or_else (applicationsJson p) "[]") with
        | inr parsed =>
            (inr parsed,
             mkProcess (applicationsJson p) (Some parsed) (S (parses p)))
        | inl e => (inl e, mkProcess (applicationsJson p) None (S (parses p)))
        end
    | Some cached => (inr cached, p)
    end.
End Applications.

Arguments Process Application : clear implicits.

End Registry.

(* ===================================================================== *)
(** * warehouse.ts: the long-table builder *)
(* ===================================================================== *)

Module Warehouse.
Import Schema.

(** MySQL date formats for different time units. *)
Definition MYSQL_DATE_FORMATS : list (string * string) :=
  [ ("minute", "%Y-%m-%d %H:%i:00");
    ("hour", "%Y-%m-%d %H:00:00");
    ("day", "%Y-%m-%d");
    ("month", "%Y-%m-01");
    ("year", "%Y-01-01") ].

Record EventTable : Type := mkEventTable {
  et_name : string;
  eventNameField : string;
  et_createdAtField : string;
  et_createdAtFieldType : string;
  et_dateBasedCreatedAtField : option string }.

Record EventParametersTable : Type := mkEventParametersTable {
  ept_name : string;
  paramsNameField : string;
  paramsValueField : string;
  paramsValueNumberField : option string;
  paramsValueStringField : option string;
  paramsValueDateField : option string;
  ept_createdAtField : string;
  ept_createdAtFieldType : string;
  ept_dateBasedCreatedAtField : option string }.

Record WarehouseInsightsApplication : Type := mkApplication {
  name : string;
  type : ApplicationType;
  eventTable : EventTable;
  eventParametersTable : EventParametersTable }.

Definition Process : Type := Registry.Process WarehouseInsightsApplication.
Definition M : Type -> Type := Proc.M Process.

Section Builder.
(** [warehouseInsightsApplicationSchema.array().parse(JSON.parse(s))]. *)
Variable parse : string -> Js.exn + list WarehouseInsightsApplication.
(** The offset of the server's zone, in minutes, at an instant. *)
Variable localOffset : Z -> Z.
(** [InsightsSqlBuilder.buildCommonFilterQueryOperator] of shared.ts, the
    filter operator compiler. *)
Variable buildCommonFilterQueryOperator :
  FilterInfoType -> string -> option FilterInfoValue -> Sql -> Js.exn + Sql.

Definition getWarehouseApplications : M (list WarehouseInsightsApplication) :=
  Registry.getWarehouseApplications parse.

Definition getApplication (q : Query) : M WarehouseInsightsApplication :=
  (let name' := insightId q in
   apps <- getWarehouseApplications ;;
   match find (fun app => (name app =? name')%string) apps with
   | Some application => Proc.ret application
   | None => Proc.throw (Js.Error ("Application " ++ name' ++ " not found"))
   end)%proc.

Definition getEventTable (q : Query) : M EventTable :=
  (app <- getApplication q ;; Proc.ret (eventTable app))%proc.

Definition getEventParametersTable (q : Query) : M EventParametersTable :=
  (app <- getApplication q ;; Proc.ret (eventParametersTable app))%proc.

Definition enableDateBasedOptimizedEventTable (q : Query) : M bool :=
  (eventTable <- getEventTable q ;;
   let startAt := startAt (time q) in
   let endAt := endAt (time q) in
   Proc.ret (Js.truthy (et_dateBasedCreatedAtField eventTable)
             && (1 <=? Dayjs.diff_day localOffset (Dayjs.dayjs localOffset endAt) startAt)))%proc.

Definition enableDateBasedOptimizedEventParametersTable (q : Query) : M bool :=
  (eventParametersTable <- getEventParametersTable q ;;
   let startAt := startAt (time q) in
   let endAt := endAt (time q) in
   Proc.ret (Js.truthy (ept_dateBasedCreatedAtField eventParametersTable)
             && (1 <=? Dayjs.diff_day localOffset (Dayjs.dayjs localOffset endAt) startAt)))%proc.

Definition getTableName (q : Query) : M string :=
  (eventTable <- getEventTable q ;; Proc.ret (et_name eventTable))%proc.

Definition getValueField (q : Query) (type : FilterInfoType) : M Sql :=
  (eventParametersTable <- getEventParametersTable q ;;
   let column (field : string) : Sql :=
     Prisma.raw DQ +++ Prisma.raw (ept_name eventParametersTable)
       +++ Prisma.raw (DQ ++ "." ++ DQ) +++ Prisma.raw field +++ Prisma.raw DQ in
   let valueField :=
     if (type =? "number")%string then
       column (Js.nullish (paramsValueNumberField eventParametersTable)
                 (paramsValueField eventParametersTable))
     else if (type =? "string")%string then
       column (Js.nullish (paramsValueStringField eventParametersTable)
                 (paramsValueField eventParametersTable))
     else if (type =? "date")%string then
       column (Js.nullish (paramsValueDateField eventParametersTable)
                 (paramsValueField eventParametersTable))
     else column (paramsValueField eventParametersTable) in
   Proc.ret valueField)%proc.

Definition buildFilterQueryOperator (q : Query) (type : FilterInfoType)
  (operator : string) (value : option FilterInfoValue) : M Sql :=
  (valueField <- getValueField q type ;;
   Proc.lift (buildCommonFilterQueryOperator type operator value valueField))%proc.

Definition getDateQuery (field unit timezone : string) (type : option string)
  : Js.exn + Sql :=
  let type := match type with Some t => t | None => "timestampMs" end in
  (* Check if unit exists in MYSQL_DATE_FORMATS before using it *)
  if negb (Js.has unit MYSQL_DATE_FORMATS) then
    inl (Js.Error ("Invalid date unit: " ++ unit))
  else
    let format := Js.get unit MYSQL_DATE_FORMATS in
    let timeExpression : Sql :=
      if (type =? "timestamp")%string then
        Prisma.raw "FROM_UNIXTIME(" +++ Prisma.raw field +++ Prisma.raw ")"
      else if (type =? "timestampMs")%string then
        Prisma.raw "FROM_UNIXTIME(" +++ Prisma.raw field +++ Prisma.raw " / 1000)"
      else if (type =? "date")%string then
        Prisma.raw "STR_TO_DATE(" +++ Prisma.raw field +++ Prisma.raw ", '%Y-%m-%d')"
      else if (type =? "datetime")%string then
        Prisma.raw "STR_TO_DATE(" +++ Prisma.raw field
          +++ Prisma.raw ", '%Y-%m-%d %H:%i:%s')"
      else
        (* Default to timestampMs for backwards compatibility *)
        Prisma.raw "FROM_UNIXTIME(" +++ Prisma.raw field +++ Prisma.raw " / 1000)" in
    inr (Prisma.raw "DATE_FORMAT(CONVERT_TZ(" +++ timeExpression
           +++ Prisma.raw ", '+00:00', " +++ Prisma.param (Js.Str timezone)
           +++ Prisma.raw "), '" +++ Prisma.raw (Js.String_of_prop format)
           +++ Prisma.raw "')").

Definition buildOptimizedDateRangeQuery (q : Query) : M Sql :=
  (let startAt := startAt (time q) in
   let endAt := endAt (time q) in
   eventTable <- getEventTable q ;;
   enableDateBasedOptimizedEventTable' <- enableDateBasedOptimizedEventTable q ;;
   let type := et_createdAtFieldType eventTable in
   let startTime := Js.String_of_Z (Dayjs.valueOf (Dayjs.dayjs localOffset startAt)) in
   let endTime := Js.String_of_Z (Dayjs.valueOf (Dayjs.dayjs localOffset endAt)) in
   let field :=
     if enableDateBasedOptimizedEventTable' then
       DQ ++ et_name eventTable ++ DQ ++ "." ++ DQ
         ++ Js.nullish (et_dateBasedCreatedAtField eventTable)
              (et_createdAtField eventTable) ++ DQ
     else
       DQ ++ et_name eventTable ++ DQ ++ "." ++ DQ
         ++ et_createdAtField eventTable ++ DQ in
   enabled <- enableDateBasedOptimizedEventTable q ;;
   let '(startTime, endTime) :=
     if enabled then
       (* the date range is more than 1 day: use the date based field *)
       (Dayjs.format_YYYY_MM_DD (Dayjs.startOf_day (Dayjs.dayjs localOffset startAt)),
        Dayjs.format_YYYY_MM_DD (Dayjs.endOf_day (Dayjs.dayjs localOffset endAt)))
     else
       let '(startTime, endTime) :=
         if (type =? "timestamp")%string then
           (Js.String_of_Z (Dayjs.unix (Dayjs.dayjs localOffset startAt)),
            Js.String_of_Z (Dayjs.unix (Dayjs.dayjs localOffset endAt)))
         else (startTime, endTime) in
       let '(startTime, endTime) :=
         if (type =? "date")%string then
           (Dayjs.format_YYYY_MM_DD (Dayjs.startOf_day (Dayjs.dayjs localOffset startAt)),
            Dayjs.format_YYYY_MM_DD (Dayjs.endOf_day (Dayjs.dayjs localOffset endAt)))
         else (startTime, endTime) in
       if (type =? "datetime")%string then
         (Dayjs.format_YYYY_MM_DD_HH_mm_ss (Dayjs.utc (Dayjs.dayjs localOffset startAt)),
          Dayjs.format_YYYY_MM_DD_HH_mm_ss (Dayjs.utc (Dayjs.dayjs localOffset endAt)))
       else (startTime, endTime) in
   Proc.ret (Prisma.raw field +++ Prisma.raw " BETWEEN "
               +++ Prisma.param (Js.Str startTime) +++ Prisma.raw " AND "
               +++ Prisma.param (Js.Str endTime)))%proc.

Definition getOptimizedDateQuery (q : Query) : M Sql :=
  (let unit := unit (time q) in
   let timezone := Js.nullish (timezone (time q)) "UTC" in
   eventTable <- getEventTable q ;;
   enableDateBasedOptimizedEventTable' <- enableDateBasedOptimizedEventTable q ;;
   let type :=
     if enableDateBasedOptimizedEventTable' then
       if Js.truthy (et_dateBasedCreatedAtField eventTable) then "date"
       else et_createdAtFieldType eventTable
     else et_createdAtFieldType eventTable in
   let field :=
     if enableDateBasedOptimizedEventTable' then
       DQ ++ et_name eventTable ++ DQ ++ "." ++ DQ
         ++ Js.nullish (et_dateBasedCreatedAtField eventTable)
              (et_createdAtField eventTable) ++ DQ
     else
       DQ ++ et_name eventTable ++ DQ ++ "." ++ DQ
         ++ et_createdAtField eventTable ++ DQ in
   (* Check if unit exists in MYSQL_DATE_FORMATS before using it *)
   if negb (Js.has unit MYSQL_DATE_FORMATS) then
     Proc.throw (Js.Error ("Invalid date unit: " ++ unit))
   else
     let format := Js.get unit MYSQL_DATE_FORMATS in
     let timeExpression : Sql :=
       if (type =? "timestamp")%string then
         Prisma.raw "FROM_UNIXTIME(" +++ Prisma.raw field +++ Prisma.raw ")"
       else if (type =? "timestampMs")%string then
         Prisma.raw "FROM_UNIXTIME(" +++ Prisma.raw field +++ Prisma.raw " / 1000)"
       else if (type =? "date")%string then
         Prisma.raw "STR_TO_DATE(" +++ Prisma.raw field +++ Prisma.raw ", '%Y-%m-%d')"
       else if (type =? "datetime")%string then
         Prisma.raw "STR_TO_DATE(" +++ Prisma.raw field
           +++ Prisma.raw ", '%Y-%m-%d %H:%i:%s')"
       else
         Prisma.raw "FROM_UNIXTIME(" +++ Prisma.raw field +++ Prisma.raw " / 1000)" in
     Proc.ret (Prisma.raw "DATE_FORMAT(CONVERT_TZ(" +++ timeExpression
                 +++ Prisma.raw ", '+00:00', " +++ Prisma.param (Js.Str timezone)
                 +++ Prisma.raw "), '" +++ Prisma.raw (Js.String_of_prop format)
                 +++ Prisma.raw "')"))%proc.

Definition buildOptimizedDateQuerySql (q : Query) : M Sql :=
  (let unit := unit (time q) in
   let timezone := Js.nullish (timezone (time q)) "UTC" in
   eventTable <- getEventTable q ;;
   enabled <- enableDateBasedOptimizedEventTable q ;;
   if enabled && Js.truthy (et_dateBasedCreatedAtField eventTable) then
     let field :=
       DQ ++ et_name eventTable ++ DQ ++ "." ++ DQ
         ++ Js.nullish (et_dateBasedCreatedAtField eventTable) "undefined" ++ DQ in
     let format := Js.get unit MYSQL_DATE_FORMATS in
     Proc.ret (Prisma.raw "DATE_FORMAT(" +++ Prisma.raw field +++ Prisma.raw ", '"
                 +++ Prisma.raw (Js.String_of_prop format) +++ Prisma.raw "') date")
   else
     dateQuery <- Proc.lift
       (getDateQuery
          (DQ ++ et_name eventTable ++ DQ ++ "." ++ DQ
             ++ et_createdAtField eventTable ++ DQ)
          unit timezone (Some (et_createdAtFieldType eventTable))) ;;
     Proc.ret (dateQuery +++ Prisma.raw " date"))%proc.

Definition buildDateQuerySql (q : Query) : M Sql :=
  buildOptimizedDateQuerySql q.

Definition buildSelectQueryArr (q : Query) : M (list (option Sql)) :=
  (eventTable <- getEventTable q ;;
   Proc.ret
     (map (fun item =>
             if (math item =? "events")%string then
               if (metric_name item =? "$all_event")%string then
                 Some (Prisma.raw ("count(1) as " ++ DQ ++ "$all_event" ++ DQ))
               else
                 Some (Prisma.raw ("sum(case WHEN " ++ DQ)
                         +++ Prisma.raw (et_name eventTable)
                         +++ Prisma.raw (DQ ++ "." ++ DQ)
                         +++ Prisma.raw (eventNameField eventTable)
                         +++ Prisma.raw (DQ ++ " = ")
                         +++ Prisma.param (Js.Str (metric_name item))
                         +++ Prisma.raw " THEN 1 ELSE 0 END) as "
                         +++ Prisma.raw (DQ ++ metric_name item ++ DQ))
             else None)
        (metrics q)))%proc.

Definition buildGroupSelectQueryArr (q : Query) : M (list Sql) :=
  (let groups := groups q in
   let groupSelectQueryArr : list Sql := [] in
   if (0 <? List.length groups)%nat then
     Proc.forOf
       (fun (groupSelectQueryArr : list Sql) (g : Group) =>
          match customGroups g with
          | None =>
              valueField <- getValueField q (group_type g) ;;
              Proc.ret (push groupSelectQueryArr
                          (valueField +++ Prisma.raw (" as " ++ DQ ++ "%")
                             +++ Prisma.raw (value g) +++ Prisma.raw DQ))
          | Some customGroups =>
              if (0 <? List.length customGroups)%nat then
                Proc.forOf
                  (fun (groupSelectQueryArr : list Sql) (cg : CustomGroup) =>
                     predicate <- buildFilterQueryOperator q (group_type g)
                                    (filterOperator cg) (Some (filterValue cg)) ;;
                     Proc.ret (push groupSelectQueryArr
                                 (predicate +++ Prisma.raw (" as " ++ DQ ++ "%")
                                    +++ Prisma.raw (value g ++ "|" ++ filterOperator cg
                                                      ++ "|" ++ Js.String_of_value (filterValue cg))
                                    +++ Prisma.raw DQ)))
                  customGroups groupSelectQueryArr
              else Proc.ret groupSelectQueryArr
          end)
       groups groupSelectQueryArr
   else Proc.ret groupSelectQueryArr)%proc.

Definition buildWhereQueryArr (q : Query) : M (list Sql) :=
  (eventTable <- getEventTable q ;;
   (* date *)
   dateRange <- buildOptimizedDateRangeQuery q ;;
   (* event name *)
   eventName <- Proc.lift
     (Prisma.join
        (map (fun item =>
                if (metric_name item =? "$all_event")%string then
                  Prisma.raw "1 = 1"
                else
                  Prisma.raw DQ +++ Prisma.raw (et_name eventTable)
                    +++ Prisma.raw (DQ ++ "." ++ DQ)
                    +++ Prisma.raw (eventNameField eventTable)
                    +++ Prisma.raw (DQ ++ " = ")
                    +++ Prisma.param (Js.Str (metric_name item)))
           (metrics q))
        " OR " "(" ")") ;;
   Proc.ret [dateRange; eventName])%proc.
End Builder.
End Warehouse.

(* ===================================================================== *)
(** * warehouse/wideTable.ts: the wide-table builder *)
(* ===================================================================== *)

Module WideTable.
Import Schema.

(** Modelled from the spec: [MYSQL_DATE_FORMATS] is imported from
    warehouse/utils.ts, which is not among the sources; the bucket labels
    the spec lists for the five units are those of warehouse.ts. *)
Definition MYSQL_DATE_FORMATS : list (string * string) :=
  Warehouse.MYSQL_DATE_FORMATS.

Record Field : Type := mkField { field_name : string; field_type : string }.

(** Modelled from the spec: the wide-table application type of
    warehouse/utils.ts, with the fields the builder reads. *)
Record WarehouseWideTableInsightsApplication : Type := mkWide {
  name : string;
  databaseUrl : string;
  tableName : string;
  createdAtField : string;
  createdAtFieldType : string;
  dateBasedCreatedAtField : option string;
  distinctField : string;
  fields : list Field }.

(** A configured application of either sub-type; the constructor is the
    [type] tag. *)
Inductive WarehouseInsightsApplication : Type :=
| LongTable (name : string) (eventTable : Warehouse.EventTable)
    (eventParametersTable : Warehouse.EventParametersTable)
| WideTable (application : WarehouseWideTableInsightsApplication).

Definition application_name (app : WarehouseInsightsApplication) : string :=
  match app with
  | LongTable n _ _ => n
  | WideTable a => name a
  end.

Definition application_type (app : WarehouseInsightsApplication)
  : ApplicationType :=
  match app with
  | LongTable _ _ _ => longTable
  | WideTable _ => wideTable
  end.

Definition Process : Type := Registry.Process WarehouseInsightsApplication.
Definition M : Type -> Type := Proc.M Process.

Section Builder.
Variable parse : string -> Js.exn + list WarehouseInsightsApplication.
Variable localOffset : Z -> Z.
Variable buildCommonFilterQueryOperator :
  FilterInfoType -> string -> option FilterInfoValue -> Sql -> Js.exn + Sql.

Definition getWarehouseApplications : M (list WarehouseInsightsApplication) :=
  Registry.getWarehouseApplications parse.

(** [apps.find(app => app.name === name && app.type === 'wideTable') as
    WarehouseWideTableInsightsApplication]. *)
Definition find_wideTable (name' : string)
  (apps : list WarehouseInsightsApplication)
  : option WarehouseWideTableInsightsApplication :=
  match find (fun app => (application_name app =? name')%string
                         && ApplicationType_eqb (application_type app) wideTable)
             apps with
  | Some (WideTable application) => Some application
  | _ => None
  end.

Definition getApplication (q : Query) : M WarehouseWideTableInsightsApplication :=
  (let name' := insightId q in
   apps <- getWarehouseApplications ;;
   match find_wideTable name' apps with
   | Some application => Proc.ret application
   | None => Proc.throw (Js.Error ("Application " ++ name' ++ " not found"))
   end)%proc.

Definition enableDateBasedOptimizedEventTable (q : Query) : M bool :=
  (application <- getApplication q ;;
   let startAt := startAt (time q) in
   let endAt := endAt (time q) in
   Proc.ret (Js.truthy (dateBasedCreatedAtField application)
             && (1 <=? Dayjs.diff_day localOffset (Dayjs.dayjs localOffset endAt) startAt)))%proc.

Definition buildOptimizedDateRangeQuery (q : Query) : M Sql :=
  (let startAt := startAt (time q) in
   let endAt := endAt (time q) in
   application <- getApplication q ;;
   enableDateBasedOptimizedEventTable' <- enableDateBasedOptimizedEventTable q ;;
   let type := createdAtFieldType application in
   let startTime := Js.String_of_Z (Dayjs.valueOf (Dayjs.dayjs localOffset startAt)) in
   let endTime := Js.String_of_Z (Dayjs.valueOf (Dayjs.dayjs localOffset endAt)) in
   let field :=
     if enableDateBasedOptimizedEventTable' then
       DQ ++ Js.nullish (dateBasedCreatedAtField application)
               (createdAtField application) ++ DQ
     else DQ ++ createdAtField application ++ DQ in
   enabled <- enableDateBasedOptimizedEventTable q ;;
   let '(startTime, endTime) :=
     if enabled then
       (Dayjs.format_YYYY_MM_DD (Dayjs.startOf_day (Dayjs.dayjs localOffset startAt)),
        Dayjs.format_YYYY_MM_DD (Dayjs.endOf_day (Dayjs.dayjs localOffset endAt)))
     else
       let '(startTime, endTime) :=
         if (type =? "timestamp")%string then
           (Js.String_of_Z (Dayjs.unix (Dayjs.dayjs localOffset startAt)),
            Js.String_of_Z (Dayjs.unix (Dayjs.dayjs localOffset endAt)))
         else (startTime, endTime) in
       let '(startTime, endTime) :=
         if (type =? "date")%string then
           (Dayjs.format_YYYY_MM_DD (Dayjs.startOf_day (Dayjs.dayjs localOffset startAt)),
            Dayjs.format_YYYY_MM_DD (Dayjs.endOf_day (Dayjs.dayjs localOffset endAt)))
         else (startTime, endTime) in
       if (type =? "datetime")%string then
         (Dayjs.format_YYYY_MM_DD_HH_mm_ss (Dayjs.utc (Dayjs.dayjs localOffset startAt)),
          Dayjs.format_YYYY_MM_DD_HH_mm_ss (Dayjs.utc (Dayjs.dayjs localOffset endAt)))
       else (startTime, endTime) in
   Proc.ret (Prisma.raw field +++ Prisma.raw " BETWEEN "
               +++ Prisma.param (Js.Str startTime) +++ Prisma.raw " AND "
               +++ Prisma.param (Js.Str endTime)))%proc.

Definition getTableName (q : Query) : M string :=
  (application <- getApplication q ;; Proc.ret (tableName application))%proc.

Definition getDateQuery (field unit timezone : string) (type : option string)
  : Js.exn + Sql :=
  let type := match type with Some t => t | None => "timestampMs" end in
  if negb (Js.has unit MYSQL_DATE_FORMATS) then
    inl (Js.Error ("Invalid date unit: " ++ unit))
  else
    let format := Js.get unit MYSQL_DATE_FORMATS in
    let timeExpression : Sql :=
      if (type =? "timestamp")%string then
        Prisma.raw "FROM_UNIXTIME(" +++ Prisma.raw field +++ Prisma.raw ")"
      else if (type =? "timestampMs")%string then
        Prisma.raw "FROM_UNIXTIME(" +++ Prisma.raw field +++ Prisma.raw " / 1000)"
      else if (type =? "date")%string then
        Prisma.raw "STR_TO_DATE(" +++ Prisma.raw field +++ Prisma.raw ", '%Y-%m-%d')"
      else if (type =? "datetime")%string then
        Prisma.raw "STR_TO_DATE(" +++ Prisma.raw field
          +++ Prisma.raw ", '%Y-%m-%d %H:%i:%s')"
      else
        Prisma.raw "FROM_UNIXTIME(" +++ Prisma.raw field +++ Prisma.raw " / 1000)" in
    inr (Prisma.raw "DATE_FORMAT(CONVERT_TZ(" +++ timeExpression
           +++ Prisma.raw ", '+00:00', " +++ Prisma.param (Js.Str timezone)
           +++ Prisma.raw "), '" +++ Prisma.raw (Js.String_of_prop format)
           +++ Prisma.raw "')").

Definition buildOptimizedDateQuerySql (q : Query) : M Sql :=
  (let unit := unit (time q) in
   let timezone := Js.nullish (timezone (time q)) "UTC" in
   application <- getApplication q ;;
   enabled <- enableDateBasedOptimizedEventTable q ;;
   if enabled && Js.truthy (dateBasedCreatedAtField application) then
     let field :=
       DQ ++ Js.nullish (dateBasedCreatedAtField application) "undefined" ++ DQ in
     let format := Js.get unit MYSQL_DATE_FORMATS in
     Proc.ret (Prisma.raw "DATE_FORMAT(" +++ Prisma.raw field +++ Prisma.raw ", '"
                 +++ Prisma.raw (Js.String_of_prop format) +++ Prisma.raw "') date")
   else
     dateQuery <- Proc.lift
       (getDateQuery (DQ ++ createdAtField application ++ DQ)
          unit timezone (Some (createdAtFieldType application))) ;;
     Proc.ret (dateQuery +++ Prisma.raw " date"))%proc.

Definition buildDateQuerySql (q : Query) : M Sql :=
  buildOptimizedDateQuerySql q.

Definition buildSelectQueryArr (q : Query) : M (list (option Sql)) :=
  (application <- getApplication q ;;
   Proc.ret
     (map (fun item =>
             if (math item =? "events")%string then
               if (metric_name item =? "$all_event")%string then
                 Some (Prisma.raw ("count(1) as " ++ DQ ++ "$all_event" ++ DQ))
               else
                 Some (Prisma.raw ("count(" ++ DQ)
                         +++ Prisma.raw (metric_name item)
                         +++ Prisma.raw (DQ ++ ") as " ++ DQ)
                         +++ Prisma.raw (metric_name item)
                         +++ Prisma.raw DQ)
             else if (math item =? "sessions")%string then
               if (metric_name item =? "$all_event")%string then
                 Some (Prisma.raw ("count(distinct " ++ DQ)
                         +++ Prisma.raw (distinctField application)
                         +++ Prisma.raw (DQ ++ ") as " ++ DQ ++ "$all_event" ++ DQ))
               else
                 Some (Prisma.raw ("count(distinct case WHEN " ++ DQ)
                         +++ Prisma.raw (metric_name item)
                         +++ Prisma.raw (DQ ++ " = ")
                         +++ Prisma.param (Js.Str (metric_name item))
                         +++ Prisma.raw (" THEN " ++ DQ)
                         +++ Prisma.raw (distinctField application)
                         +++ Prisma.raw (DQ ++ " END) as ")
                         +++ Prisma.raw (DQ ++ metric_name item ++ DQ))
             else None)
        (metrics q)))%proc.

Definition buildWhereQueryArr (q : Query) : M (list Sql) :=
  (* date range *)
  (dateRange <- buildOptimizedDateRangeQuery q ;;
   conditions <- Proc.mapM
     (fun filter =>
        Proc.lift
          (buildCommonFilterQueryOperator (filter_type filter) (operator filter)
             (filter_value filter)
             (Prisma.raw DQ +++ Prisma.raw (filter_name filter) +++ Prisma.raw DQ)))
     (filters q) ;;
   Proc.ret (dateRange :: conditions))%proc.

Definition buildGroupSelectQueryArr (q : Query) : M (list Sql) :=
  (let groups := groups q in
   let groupSelectQueryArr : list Sql := [] in
   if (0 <? List.length groups)%nat then
     Proc.forOf
       (fun (groupSelectQueryArr : list Sql) (g : Group) =>
          match customGroups g with
          | None =>
              Proc.ret (push groupSelectQueryArr
                          (Prisma.raw (value g) +++ Prisma.raw (" as " ++ DQ ++ "%")
                             +++ Prisma.raw (value g) +++ Prisma.raw DQ))
          | Some customGroups =>
              if (0 <? List.length customGroups)%nat then
                Proc.forOf
                  (fun (groupSelectQueryArr : list Sql) (cg : CustomGroup) =>
                     predicate <- Proc.lift
                       (buildCommonFilterQueryOperator (group_type g)
                          (filterOperator cg) (Some (filterValue cg))
                          (Prisma.raw DQ +++ Prisma.raw (value g) +++ Prisma.raw DQ)) ;;
                     Proc.ret (push groupSelectQueryArr
                                 (predicate +++ Prisma.raw (" as " ++ DQ ++ "%")
                                    +++ Prisma.raw (value g ++ "|" ++ filterOperator cg
                                                      ++ "|" ++ Js.String_of_value (filterValue cg))
                                    +++ Prisma.raw DQ)))
                  customGroups groupSelectQueryArr
              else Proc.ret groupSelectQueryArr
          end)
       groups groupSelectQueryArr
   else Proc.ret groupSelectQueryArr)%proc.

Definition insightsWideTableWarehouseEvents (applicationId : string)
  : M (list string) :=
  (apps <- getWarehouseApplications ;;
   match find_wideTable applicationId apps with
   | Some application => Proc.ret (map field_name (fields application))
   | None =>
       Proc.throw
         (Js.Error ("Event table not found for application: " ++ applicationId))
   end)%proc.

Definition insightsWideTableWarehouseFilterParams (applicationId : string)
  : M (list string) :=
  insightsWideTableWarehouseEvents applicationId.
End Builder.
End WideTable.

(* ===================================================================== *)
(** * warehouse/index.ts: the events dispatcher *)
(* ===================================================================== *)

Module Index.
Import Schema.

(** The builder call the dispatcher ends in:
    [new Builder(query, context).queryEvents(query.cursor)]. *)
Inductive BuilderCall : Type :=
| WideTable_queryEvents (query : Query) (context : Context) (cursor : option string)
| LongTable_queryEvents (query : Query) (context : Context) (cursor : option string).

Section Dispatch.
(** [findWarehouseApplication(workspaceId, insightId)] of
    warehouse/utils.ts: the application found, [undefined], or a
    rejection. *)
Variable findWarehouseApplication :
  string -> string -> Js.exn + option WideTable.WarehouseInsightsApplication.

Definition queryWarehouseEvents (query : Query) (context : Context)
  : Js.exn + BuilderCall :=
  match findWarehouseApplication (workspaceId query) (insightId query) with
  | inl e => inl e
  | inr application =>
      (* application?.type === 'wideTable' *)
      if match application with
         | Some app => ApplicationType_eqb (WideTable.application_type app) wideTable
         | None => false
         end
      then inr (WideTable_queryEvents query context (cursor query))
      else inr (LongTable_queryEvents query context (cursor query))
  end.
End Dispatch.
End Index.

(* ===================================================================== *)
(** * Specification-side definitions *)
(* ===================================================================== *)

Module Spec.
Import Schema.

(** The window spans a full day on the server's wall clock: the clock at
    [endAt] reads at least twenty-four hours more than at [startAt].  Where
    the clocks change inside the window, that is not twenty-four hours of
    elapsed time. *)
Definition spansFullDay (localOffset : Z -> Z) (startAt endAt : Z) : Prop :=
  Dayjs.MILLISECONDS_A_DAY <=
    Dayjs.wall (Dayjs.dayjs localOffset endAt)
    - Dayjs.wall (Dayjs.dayjs localOffset startAt).

(** The calendar day of an instant on the server's clock, as YYYY-MM-DD. *)
Definition dayString (localOffset : Z -> Z) (instant : Z) : string :=
  Dayjs.format_YYYY_MM_DD (Dayjs.dayjs localOffset instant).

(** The bounds of the range predicate on the raw created-at column, per
    storage encoding: seconds, milliseconds, day strings or UTC datetime
    strings; an encoding outside the declared set is read as milliseconds. *)
Definition rawBounds (localOffset : Z -> Z) (encoding : string)
  (startAt endAt : Z) : string * string :=
  if (encoding =? "datetime")%string then
    (Dayjs.format_YYYY_MM_DD_HH_mm_ss (Dayjs.mk startAt 0),
     Dayjs.format_YYYY_MM_DD_HH_mm_ss (Dayjs.mk endAt 0))
  else if (encoding =? "date")%string then
    (dayString localOffset startAt, dayString localOffset endAt)
  else if (encoding =? "timestamp")%string then
    (Js.String_of_Z (startAt / 1000), Js.String_of_Z (endAt / 1000))
  else (Js.String_of_Z startAt, Js.String_of_Z endAt).

(** [column BETWEEN ? AND ?] with two bound strings. *)
Definition between (column : string) (bounds : string * string) : Sql :=
  Prisma.mkSql (column ++ " BETWEEN ? AND ?")
    [Js.Str (fst bounds); Js.Str (snd bounds)].

(** The unit's format applied to a column as it is, aliased [date]. *)
Definition directBucket (column format : string) : Sql :=
  Prisma.mkSql ("DATE_FORMAT(" ++ column ++ ", '" ++ format ++ "') date") [].

(** An identifier between double quotes, and a column qualified by its
    table. *)
Definition quoted (identifier : string) : string := DQ ++ identifier ++ DQ.
Definition qualified (table column : string) : string :=
  quoted table ++ "." ++ quoted column.

(** A column of the table, by its name between double quotes. *)
Definition column (identifier : string) : Sql :=
  Prisma.mkSql (quoted identifier) [].

(** [expression as "alias"]. *)
Definition aliased (expression : Sql) (alias : string) : Sql :=
  Prisma.mkSql (Prisma.sql expression ++ " as " ++ quoted alias)
    (Prisma.values expression).

(** [count(distinct expression) as "alias"]: the number of distinct values
    of the expression that are not null. *)
Definition countDistinct (expression : Sql) (alias : string) : Sql :=
  aliased
    (Prisma.mkSql ("count(distinct " ++ Prisma.sql expression ++ ")")
       (Prisma.values expression))
    alias.

(** [case WHEN condition THEN result END]: the result on the rows the
    condition selects, null on the others. *)
Definition caseWhen (condition result : Sql) : Sql :=
  Prisma.mkSql
    ("case WHEN " ++ Prisma.sql condition ++ " THEN " ++ Prisma.sql result
       ++ " END")
    (Prisma.values condition ++ Prisma.values result)%list.

(** The bucket expression of a column holding milliseconds since the
    epoch. *)
Definition millisecondsBucket (column format timezone : string) : Sql :=
  Prisma.mkSql ("DATE_FORMAT(CONVERT_TZ(FROM_UNIXTIME(" ++ column
                  ++ " / 1000), '+00:00', ?), '" ++ format ++ "')")
    [Js.Str timezone].

(** The storage encodings the schema declares. *)
Definition declaredEncodings : list string :=
  ["timestamp"; "timestampMs"; "date"; "datetime"].

(** A parenthesised disjunction of conditions. *)
Definition disjunction (disjuncts : list string) : string :=
  "(" ++ Js.join " OR " disjuncts ++ ")".

(** The alias of a group without customGroups, and of one customGroups
    entry, in the words of the naming convention. *)
Definition groupAlias (g : Group) : string := "%" ++ value g.

Definition customGroupAlias (g : Group) (cg : CustomGroup) : string :=
  "%" ++ value g ++ "|" ++ filterOperator cg ++ "|"
    ++ Js.String_of_value (filterValue cg).

(** What a derived column stands for: a group without customGroups, or one
    customGroups entry of a group. *)
Definition Key : Type := Group * option CustomGroup.

(** The keys of a group, in order; a group with an empty customGroups has
    none. *)
Definition groupKeys (g : Group) : list Key :=
  match customGroups g with
  | None => [(g, None)]
  | Some entries => map (fun cg => (g, Some cg)) entries
  end.

Definition keyAlias (key : Key) : string :=
  match key with
  | (g, None) => groupAlias g
  | (g, Some cg) => customGroupAlias g cg
  end.

(** The select item of a key, for an operator compiler [compile]: the
    expression [plain g] of a group without customGroups, and for a
    customGroups entry the predicate the compiler makes of the entry's
    operator and filter value on the column [operand g]; either one under
    the alias of the key. *)
Definition derivedColumn
  (compile : FilterInfoType -> string -> option FilterInfoValue -> Sql
             -> Js.exn + Sql)
  (plain operand : Group -> Sql) (item : Sql) (key : Key) : Prop :=
  match key with
  | (g, None) => item = aliased (plain g) (keyAlias key)
  | (g, Some cg) =>
      exists predicate,
        compile (group_type g) (filterOperator cg) (Some (filterValue cg))
          (operand g) = inr predicate
        /\ item = aliased predicate (keyAlias key)
  end.

Definition startsWith (prefix s : string) : Prop :=
  exists rest, s = prefix ++ rest.

(** The character [c] does not occur in [s]. *)
Fixpoint free_of (c : ascii) (s : string) : bool :=
  match s with
  | EmptyString => true
  | String a rest => negb (Ascii.eqb a c) && free_of c rest
  end.

(** Among the customGroups entries whose group value and operator hold no
    [|], a select item of one statement and a select item of another (or of
    the same) that carry the same alias stand for entries with the same
    group value, operator and filter-value text.  An item is read as the
    predicate the compiler made of its entry, under an alias. *)
Definition unambiguous
  (compile : FilterInfoType -> string -> option FilterInfoValue -> Sql
             -> Js.exn + Sql)
  (operand operand' : Group -> Sql)
  (items : list Sql) (keys : list Key) (items' : list Sql) (keys' : list Key)
  : Prop :=
  forall i j g cg g' cg' predicate predicate' alias,
    nth_error keys i = Some (g, Some cg) ->
    nth_error keys' j = Some (g', Some cg') ->
    free_of "|" (value g) = true ->
    free_of "|" (filterOperator cg) = true ->
    free_of "|" (value g') = true ->
    free_of "|" (filterOperator cg') = true ->
    compile (group_type g) (filterOperator cg) (Some (filterValue cg))
      (operand g) = inr predicate ->
    compile (group_type g') (filterOperator cg') (Some (filterValue cg'))
      (operand' g') = inr predicate' ->
    nth_error items i = Some (aliased predicate alias) ->
    nth_error items' j = Some (aliased predicate' alias) ->
    value g = value g'
    /\ filterOperator cg = filterOperator cg'
    /\ Js.String_of_value (filterValue cg) = Js.String_of_value (filterValue cg').

(** A session of the process as far as the registry is concerned: calls to
    [getWarehouseApplications] interleaved with changes of the configured
    string. *)
Inductive Action : Type :=
| Call
| SetApplicationsJson (json : option string).

Section Session.
Context {Application : Type}.
Variable parse : string -> Js.exn + list Application.

Fixpoint run (actions : list Action) (p : Registry.Process Application)
  : list (Js.exn + list Application) * Registry.Process Application :=
  match actions with
  | [] => ([], p)
  | Call :: rest =>
      let '(r, p1) := Registry.getWarehouseApplications parse p in
      let '(rs, p2) := run rest p1 in
      (r :: rs, p2)
  | SetApplicationsJson json :: rest =>
      run rest (Registry.mkProcess json (Registry.applications p)
                  (Registry.parses p))
  end.
End Session.

End Spec.

(* ===================================================================== *)
(** * Fixtures *)
(* ===================================================================== *)

Module Fixture.
Import Schema.

(** A server on UTC. *)
Definition utcServer : Z -> Z := fun _ => 0.

Definition events : Warehouse.EventTable :=
  Warehouse.mkEventTable "events" "event_name" "event_timestamp" "timestampMs"
    (Some "event_date").

Definition event_parameters : Warehouse.EventParametersTable :=
  Warehouse.mkEventParametersTable "event_parameters" "event_param_key"
    "event_param_value" None None None "event_timestamp" "timestampMs" None.

Definition test : Warehouse.WarehouseInsightsApplication :=
  Warehouse.mkApplication "test" longTable events event_parameters.

(** An application of warehouse.ts declared with [type: 'wideTable']. *)
Definition shop : Warehouse.WarehouseInsightsApplication :=
  Warehouse.mkApplication "shop" wideTable events event_parameters.

Definition orders : WideTable.WarehouseWideTableInsightsApplication :=
  WideTable.mkWide "orders" "mysql://warehouse/orders" "orders" "created_at"
    "timestampMs" (Some "created_date") "user_id"
    [WideTable.mkField "country" "string"; WideTable.mkField "amount" "number"].

(** A configuration parser that knows one configuration text. *)
Definition parser {Application} (json : string) (apps : list Application)
  : string -> Js.exn + list Application :=
  fun s =>
    if (s =? json)%string then inr apps
    else if (s =? "[]")%string then inr []
    else inl (Js.ParseError s).

(** The configuration texts are opaque to the model, whose parser is a
    parameter: each stands for the JSON document that lists the applications
    named in it. *)
Definition longConfig : string := "[test,shop]".
Definition wideConfig : string := "[test,orders]".

Definition parseLong := parser longConfig [test; shop].
Definition parseWide :=
  parser wideConfig [WideTable.LongTable "test" events event_parameters;
                     WideTable.WideTable orders].

Definition fresh {Application} (json : string) : Registry.Process Application :=
  Registry.mkProcess (Some json) None 0.

(** A filter operator compiler that knows [equals]. *)
Definition compiler (type : FilterInfoType) (operator : string)
  (value : option FilterInfoValue) (column : Sql) : Js.exn + Sql :=
  if (operator =? "equals")%string then
    match value with
    | Some v => inr (column +++ Prisma.raw " = " +++ Prisma.param v)
    | None => inr (column +++ Prisma.raw " IS NULL")
    end
  else inl (Js.Error ("Unsupported operator: " ++ operator)).

(** 2025-08-01T00:00:00Z and 2025-08-02T00:00:00Z. *)
Definition aug1 : Z := 1754006400000.
Definition aug2 : Z := 1754092800000.

(** A server in New York in March 2025: five hours behind UTC until
    2025-03-09T07:00:00Z, when the clocks go forward, and four hours behind
    from then on. *)
Definition newYorkServer : Z -> Z :=
  fun ms => if ms <? 1741503600000 then -300 else -240.

(** Midnight in New York on 2025-03-09 (05:00:00Z) and on 2025-03-10
    (04:00:00Z): twenty-three hours apart. *)
Definition mar9 : Z := 1741496400000.
Definition mar10 : Z := 1741579200000.

Definition query (id : string) (metrics : list Metric) (time : Time)
  (groups : list Group) : Query :=
  mkQuery id "" metrics [] time groups None.

Definition allEvents : Metric := mkMetric "$all_event" "events".

(** The query of the test suite: all events of 2025-08-01, by day. *)
Definition twoDays : Time := mkTime aug1 aug2 "day" None.
Definition testQuery : Query := query "test" [allEvents] twoDays [].
Definition ordersQuery : Query := query "orders" [allEvents] twoDays [].

(** Orders by country, and by two amounts. *)
Definition byCountryAndAmount : list Group :=
  [mkGroup "country" "string" None;
   mkGroup "amount" "number"
     (Some [mkCustomGroup "equals" (Js.Num (Js.integer 10));
            mkCustomGroup "equals" (Js.Num (Js.integer 20))])].

(** The two processes once the configuration has been parsed. *)
Definition longParsed : Warehouse.Process :=
  Registry.mkProcess (Some longConfig) (Some [test; shop]) 1.
Definition wideParsed : WideTable.Process :=
  Registry.mkProcess (Some wideConfig)
    (Some [WideTable.LongTable "test" events event_parameters;
           WideTable.WideTable orders]) 1.

End Fixture.

(* ===================================================================== *)
(** * warehouse.ts: running a statement *)
(* ===================================================================== *)

Module Exec.

(** [s.replaceAll(pattern, replacement)] for a pattern of one character. *)
Fixpoint replaceAll (pattern : ascii) (replacement : string) (s : string) : string :=
  match s with
  | EmptyString => EmptyString
  | String c rest =>
      if Ascii.eqb c pattern then replacement ++ replaceAll pattern replacement rest
      else String c (replaceAll pattern replacement rest)
  end.

(** The text handed to the MySQL driver: double quotes become backticks. *)
Definition driverText (sql : Sql) : string :=
  replaceAll "034"%char "`" (Prisma.sql sql).

(** [env.insights.warehouse]. *)
Record Env : Type := mkEnv { enable : bool; url : option string }.

Section Builder.
Context {Pool Rows : Type}.
(** [createPool(url)] of mysql2. *)
Variable createPool : string -> Pool.
(** [connection.query(text, values)]: the rows, or a rejection. *)
Variable query : Pool -> string -> list Js.value -> Js.exn + Rows.

(** The [connection] field of a builder instance.  [created] and [sent] are
    ghost state: the number of pools created and the statements handed to the
    driver, oldest first. *)
Record Builder : Type := mkBuilder {
  connection : option Pool;
  created : nat;
  sent : list (string * list Js.value) }.

Definition getConnection (env : Env) : Proc.M Builder Pool :=
  fun b =>
    if negb (enable env) || negb (Js.truthy (url env)) then
      (inl (Js.Error "Warehouse is not enabled"), b)
    else
      match connection b with
      | None =>
          let pool := createPool (Js.nullish (url env) "undefined") in
          (inr pool, mkBuilder (Some pool) (S (created b)) (sent b))
      | Some pool => (inr pool, b)
      end.

Definition executeQuery (env : Env) (sql : Sql) : Proc.M Builder Rows :=
  (pool <- getConnection env ;;
   fun b =>
     (query pool (driverText sql) (Prisma.values sql),
      mkBuilder (connection b) (created b)
        (push (sent b) (driverText sql, Prisma.values sql))))%proc.
End Builder.

Arguments Builder Pool : clear implicits.

End Exec.

(* ===================================================================== *)
(** * components/insights/ChartRender.tsx: the time window of a query *)
(* ===================================================================== *)

Module ChartRender.

Section Client.
(** The offset of the browser's zone, in minutes, at an instant. *)
Variable localOffset : Z -> Z.

(** [allowMinute]: [end.diff(start, 'day') <= 1] on the selected range. *)
Definition allowMinute (dateRange : Z * Z) : bool :=
  let start := Dayjs.dayjs localOffset (fst dateRange) in
  let end' := Dayjs.dayjs localOffset (snd dateRange) in
  Dayjs.diff_day localOffset end' (Dayjs.valueOf start) <=? 1.

(** The unit after the watcher on [allowMinute] and [dateUnit] has run. *)
Definition watchDateUnit (dateRange : Z * Z) (dateUnit : string) : string :=
  if negb (allowMinute dateRange) && (dateUnit =? "minute")%string then "day"
  else dateUnit.

(** The [time] of the query sent to the server. *)
Definition time (dateRange : Z * Z) (dateUnit : string) (userTimezone : string)
  : Schema.Time :=
  Schema.mkTime (Dayjs.valueOf (Dayjs.dayjs localOffset (fst dateRange)))
    (Dayjs.valueOf (Dayjs.dayjs localOffset (snd dateRange)))
    dateUnit (Some userTimezone).
End Client.

End ChartRender.

(* ===================================================================== *)
(** * Computations that only read the registry *)
(* ===================================================================== *)

Module ReadOnly.

Section Registry.
Context {Application : Type}.

(** The application list has been parsed and cached. *)
Definition loaded (p : Registry.Process Application) : Prop :=
  Registry.applications p <> None.

(** Run on a loaded registry, the computation leaves the process as it found
    it, whether it returns or throws. *)
Definition readOnly {A} (m : Proc.M (Registry.Process Application) A) : Prop :=
  forall p, loaded p -> snd (m p) = p.
End Registry.

End ReadOnly.

(* ===================================================================== *)
(** * Placeholders *)
(* ===================================================================== *)

Module Placeholders.

(** The number of [?] in a statement text: the driver fills them, in order,
    from the bound values. *)
Fixpoint count (s : string) : nat :=
  match s with
  | EmptyString => O
  | String c rest => if Ascii.eqb c "?" then S (count rest) else count rest
  end.

(** Every placeholder of the statement has its bound value. *)
Definition matched (sql : Sql) : Prop :=
  count (Prisma.sql sql) = List.length (Prisma.values sql).

(** The values a select list binds, in order; a [null] item binds none. *)
Definition bound (items : list (option Sql)) : list Js.value :=
  flat_map (fun item => match item with
                        | Some sql => Prisma.values sql
                        | None => []
                        end) items.

End Placeholders.

(* ===================================================================== *)
(** * Strings and statements *)
(* ===================================================================== *)

Lemma append_assoc (a b c : string) : (a ++ b) ++ c = a ++ (b ++ c).
Proof.
  induction a as [|ch a IH]; simpl; [reflexivity | now rewrite IH].
Qed.

Lemma append_nil_r (a : string) : a ++ "" = a.
Proof.
  induction a as [|ch a IH]; simpl; [reflexivity | now rewrite IH].
Qed.

Lemma sql_eq {V} (a b : Prisma.Sql V) :
  Prisma.sql a = Prisma.sql b -> Prisma.values a = Prisma.values b -> a = b.
Proof.
  destruct a, b; simpl; intros -> ->; reflexivity.
Qed.

(** Normalises the text of a statement: concatenations are re-associated to
    the right and empty pieces dropped. *)
Ltac sql_text :=
  unfold Spec.between, Spec.directBucket, Spec.millisecondsBucket,
    Spec.countDistinct, Spec.caseWhen, Spec.aliased, Spec.column,
    Spec.qualified, Spec.quoted, Prisma.app, Prisma.raw, Prisma.param;
  cbn [Prisma.sql Prisma.values fst snd List.app];
  repeat rewrite append_assoc;
  repeat rewrite append_nil_r;
  cbn [String.append].

(** Closes a goal [(inr a, p) = (inr b, p)] on two statements with the same
    text and the same bound values. *)
Ltac returns_sql :=
  unfold Proc.ret;
  apply (f_equal2 pair); [apply f_equal; apply sql_eq; sql_text; reflexivity
                         | reflexivity].

(* ===================================================================== *)
(** * The registry caches the parsed list *)
(* ===================================================================== *)

Section RegistryFacts.
Context {Application : Type}.
Variable parse : string -> Js.exn + list Application.

Local Abbreviation getWarehouseApplications :=
  (Registry.getWarehouseApplications parse).

Lemma getWarehouseApplications_cached p apps :
  Registry.applications p = Some apps ->
  getWarehouseApplications p = (inr apps, p).
Proof.
  intros H. unfold Registry.getWarehouseApplications. now rewrite H.
Qed.

Lemma getWarehouseApplications_returns p p' apps :
  getWarehouseApplications p = (inr apps, p') ->
  Registry.applications p' = Some apps.
Proof.
  unfold Registry.getWarehouseApplications.
  destruct (Registry.applications p) as [cached|] eqn:E.
  - intros [= <- <-]. exact E.
  - destruct (parse _) as [e|parsed]; intros [= <- <-]; reflexivity.
Qed.

Lemma getWarehouseApplications_throws p p' e :
  getWarehouseApplications p = (inl e, p') ->
  Registry.applications p = None /\ Registry.applications p' = None
  /\ Registry.parses p' = S (Registry.parses p).
Proof.
  unfold Registry.getWarehouseApplications.
  destruct (Registry.applications p) as [cached|] eqn:E; [discriminate|].
  destruct (parse _) as [e'|parsed]; intros [= <- <-]; auto.
Qed.

Lemma getWarehouseApplications_idempotent p p' apps :
  getWarehouseApplications p = (inr apps, p') ->
  getWarehouseApplications p' = (inr apps, p').
Proof.
  intros H. apply getWarehouseApplications_cached.
  exact (getWarehouseApplications_returns _ _ _ H).
Qed.

(** Once the cache is filled, no action of a session changes what a call
    returns, and the parser is not called again. *)
Lemma run_cached actions : forall p apps,
  Registry.applications p = Some apps ->
  Forall (fun r => r = inr apps) (fst (Spec.run parse actions p))
  /\ Registry.applications (snd (Spec.run parse actions p)) = Some apps
  /\ Registry.parses (snd (Spec.run parse actions p)) = Registry.parses p.
Proof.
  induction actions as [|[|json] rest IH]; intros p apps Hc; simpl.
  - auto.
  - rewrite (getWarehouseApplications_cached _ _ Hc).
    destruct (IH p apps Hc) as (Hr & Ha & Hp).
    destruct (Spec.run parse rest p) as [rs p2]; simpl in *. auto.
  - apply (IH (Registry.mkProcess json (Registry.applications p)
                 (Registry.parses p)) apps). exact Hc.
Qed.
End RegistryFacts.

(** C8 (as amended).  Once a call to [getWarehouseApplications] has returned
    a list, every later call of the process returns that same list, whatever
    the configured string has become in between, and the parser is never
    called again; the returning call itself parsed at most once. *)
Theorem getWarehouseApplications_cached_after_first_return :
  forall (parse : string -> Js.exn + list Warehouse.WarehouseInsightsApplication)
         (p p1 : Warehouse.Process) apps (later : list Spec.Action),
    Warehouse.getWarehouseApplications parse p = (inr apps, p1) ->
    Forall (fun r => r = inr apps) (fst (Spec.run parse later p1))
    /\ Registry.parses (snd (Spec.run parse later p1)) = Registry.parses p1
    /\ (Registry.parses p1 <= S (Registry.parses p))%nat.
Proof.
  intros parse p p1 apps later H.
  pose proof (getWarehouseApplications_returns parse _ _ _ H) as Hc.
  destruct (run_cached parse later p1 apps Hc) as (Hr & _ & Hp).
  repeat split; try assumption.
  unfold Warehouse.getWarehouseApplications, Registry.getWarehouseApplications in H.
  destruct (Registry.applications p).
  - injection H as _ <-. lia.
  - destruct (parse _); injection H as _ <-; simpl; lia.
Qed.

Lemma getWarehouseApplications_cached_after_first_return_witness :
  Forall (fun r => r = inr [Fixture.test; Fixture.shop])
    (fst (Spec.run Fixture.parseLong
            [Spec.Call; Spec.SetApplicationsJson (Some "[]"); Spec.Call]
            (Registry.mkProcess (Some Fixture.longConfig)
               (Some [Fixture.test; Fixture.shop]) 1)))
  /\ Registry.parses
       (snd (Spec.run Fixture.parseLong
               [Spec.Call; Spec.SetApplicationsJson (Some "[]"); Spec.Call]
               (Registry.mkProcess (Some Fixture.longConfig)
                  (Some [Fixture.test; Fixture.shop]) 1))) = 1%nat
  /\ (1 <= 1)%nat.
Proof.
  apply (getWarehouseApplications_cached_after_first_return Fixture.parseLong
           (Fixture.fresh Fixture.longConfig)).
  reflexivity.
Defined.

(** C8 (as stated) fails when the configuration does not parse: nothing is
    cached, so both calls of the session run the parser and both throw. *)
Lemma getWarehouseApplications_reparses_after_a_throw :
  Spec.run Fixture.parseLong [Spec.Call; Spec.Call] (Fixture.fresh "{")
  = ([inl (Js.ParseError "{"); inl (Js.ParseError "{")],
     Registry.mkProcess (Some "{") None 2).
Proof. reflexivity. Qed.

(* ===================================================================== *)
(** * Days on the wall clock *)
(* ===================================================================== *)

Section DayjsFacts.
Variable localOffset : Z -> Z.

(** [dayjs(endAt).diff(startAt, 'day') >= 1] says that the window spans a
    full day. *)
Lemma diff_day_spansFullDay startAt endAt :
  (1 <=? Dayjs.diff_day localOffset (Dayjs.dayjs localOffset endAt) startAt) = true
  <-> Spec.spansFullDay localOffset startAt endAt.
Proof.
  unfold Spec.spansFullDay, Dayjs.diff_day, Dayjs.wall, Dayjs.dayjs,
    Dayjs.MILLISECONDS_A_DAY, Dayjs.MILLISECONDS_A_MINUTE.
  cbn [Dayjs.valueOf Dayjs.utcOffset].
  rewrite Z.leb_le.
  set (x := endAt - startAt - (localOffset startAt - localOffset endAt) * 60000).
  replace (endAt + localOffset endAt * 60000 - (startAt + localOffset startAt * 60000))
    with x by (unfold x; ring).
  split; intros H.
  - destruct (Z_lt_le_dec x 86400000) as [Hlt|]; [exfalso | assumption].
    destruct (Z_lt_le_dec x 0) as [Hneg|Hpos].
    + assert (0 <= Z.quot (- x) 86400000) by (apply Z.quot_pos; lia).
      rewrite Z.quot_opp_l in * by lia. lia.
    + rewrite Z.quot_small in H by lia. lia.
  - apply Z.quot_le_lower_bound; lia.
Qed.

Lemma diff_day_not_spansFullDay startAt endAt :
  (1 <=? Dayjs.diff_day localOffset (Dayjs.dayjs localOffset endAt) startAt) = false
  <-> ~ Spec.spansFullDay localOffset startAt endAt.
Proof.
  rewrite <- diff_day_spansFullDay.
  destruct (1 <=? _); intuition congruence.
Qed.
End DayjsFacts.

Lemma wall_startOf_day d :
  Dayjs.wall (Dayjs.startOf_day d) / Dayjs.MILLISECONDS_A_DAY
  = Dayjs.wall d / Dayjs.MILLISECONDS_A_DAY.
Proof.
  unfold Dayjs.startOf_day, Dayjs.wall at 1. cbn [Dayjs.valueOf Dayjs.utcOffset].
  fold (Dayjs.wall d) in *.
  replace (Dayjs.valueOf d - Dayjs.wall d mod Dayjs.MILLISECONDS_A_DAY
           + Dayjs.utcOffset d * Dayjs.MILLISECONDS_A_MINUTE)
    with (Dayjs.wall d - Dayjs.wall d mod Dayjs.MILLISECONDS_A_DAY)
    by (unfold Dayjs.wall; ring).
  unfold Dayjs.MILLISECONDS_A_DAY.
  generalize (Dayjs.wall d); intros w.
  pose proof (Z.div_mod w 86400000 ltac:(lia)).
  symmetry. apply (Z.div_unique _ _ _ 0); lia.
Qed.

Lemma wall_endOf_day d :
  Dayjs.wall (Dayjs.endOf_day d) / Dayjs.MILLISECONDS_A_DAY
  = Dayjs.wall d / Dayjs.MILLISECONDS_A_DAY.
Proof.
  unfold Dayjs.endOf_day, Dayjs.wall at 1. cbn [Dayjs.valueOf Dayjs.utcOffset].
  replace (Dayjs.valueOf d - Dayjs.wall d mod Dayjs.MILLISECONDS_A_DAY
           + (Dayjs.MILLISECONDS_A_DAY - 1)
           + Dayjs.utcOffset d * Dayjs.MILLISECONDS_A_MINUTE)
    with (Dayjs.wall d - Dayjs.wall d mod Dayjs.MILLISECONDS_A_DAY
          + (Dayjs.MILLISECONDS_A_DAY - 1))
    by (unfold Dayjs.wall; ring).
  unfold Dayjs.MILLISECONDS_A_DAY.
  generalize (Dayjs.wall d); intros w.
  pose proof (Z.div_mod w 86400000 ltac:(lia)).
  symmetry. apply (Z.div_unique _ _ _ 86399999); lia.
Qed.

(** Moving a clock to the start or to the end of its day does not change the
    day it shows. *)
Lemma format_startOf_day d :
  Dayjs.format_YYYY_MM_DD (Dayjs.startOf_day d) = Dayjs.format_YYYY_MM_DD d.
Proof.
  unfold Dayjs.format_YYYY_MM_DD, Dayjs.year, Dayjs.month, Dayjs.date.
  now rewrite wall_startOf_day.
Qed.

Lemma format_endOf_day d :
  Dayjs.format_YYYY_MM_DD (Dayjs.endOf_day d) = Dayjs.format_YYYY_MM_DD d.
Proof.
  unfold Dayjs.format_YYYY_MM_DD, Dayjs.year, Dayjs.month, Dayjs.date.
  now rewrite wall_endOf_day.
Qed.

(* ===================================================================== *)
(** * The long-table builder *)
(* ===================================================================== *)

Section LongTableFacts.
Import Schema.
Variable parse : string -> Js.exn + list Warehouse.WarehouseInsightsApplication.
Variable localOffset : Z -> Z.
Variable compile :
  FilterInfoType -> string -> option FilterInfoValue -> Sql -> Js.exn + Sql.

Local Abbreviation getApplication := (Warehouse.getApplication parse).

(** A resolution that succeeded is repeated by every later one, without a
    change of state. *)
Lemma long_getApplication_stable q p p' app :
  getApplication q p = (inr app, p') ->
  getApplication q p' = (inr app, p').
Proof.
  unfold Warehouse.getApplication, Warehouse.getWarehouseApplications, Proc.bind.
  destruct (Registry.getWarehouseApplications parse p) as [[e|apps] p1] eqn:E;
    [discriminate|].
  destruct (find _ apps) as [found|] eqn:F; [|discriminate].
  intros [= <- <-].
  rewrite (getWarehouseApplications_idempotent parse _ _ _ E), F.
  reflexivity.
Qed.

Lemma long_getEventTable q p p' app :
  getApplication q p = (inr app, p') ->
  Warehouse.getEventTable parse q p = (inr (Warehouse.eventTable app), p').
Proof.
  intros H. unfold Warehouse.getEventTable, Proc.bind. now rewrite H.
Qed.

Lemma long_getEventParametersTable q p p' app :
  getApplication q p = (inr app, p') ->
  Warehouse.getEventParametersTable parse q p
  = (inr (Warehouse.eventParametersTable app), p').
Proof.
  intros H. unfold Warehouse.getEventParametersTable, Proc.bind. now rewrite H.
Qed.

Lemma long_enable q p p' app :
  getApplication q p = (inr app, p') ->
  Warehouse.enableDateBasedOptimizedEventTable parse localOffset q p
  = (inr (Js.truthy (Warehouse.et_dateBasedCreatedAtField (Warehouse.eventTable app))
          && (1 <=? Dayjs.diff_day localOffset
                      (Dayjs.dayjs localOffset (endAt (time q))) (startAt (time q)))),
     p').
Proof.
  intros H. unfold Warehouse.enableDateBasedOptimizedEventTable, Proc.bind.
  now rewrite (long_getEventTable _ _ _ _ H).
Qed.

(** The range predicate, by the value of the optimisation test. *)
Lemma long_range q p p' app :
  getApplication q p = (inr app, p') ->
  let table := Warehouse.eventTable app in
  Warehouse.buildOptimizedDateRangeQuery parse localOffset q p
  = (inr (if Js.truthy (Warehouse.et_dateBasedCreatedAtField table)
             && (1 <=? Dayjs.diff_day localOffset
                         (Dayjs.dayjs localOffset (endAt (time q))) (startAt (time q)))
          then Spec.between
                 (Spec.qualified (Warehouse.et_name table)
                    (Js.nullish (Warehouse.et_dateBasedCreatedAtField table)
                       (Warehouse.et_createdAtField table)))
                 (Spec.dayString localOffset (startAt (time q)),
                  Spec.dayString localOffset (endAt (time q)))
          else Spec.between
                 (Spec.qualified (Warehouse.et_name table)
                    (Warehouse.et_createdAtField table))
                 (Spec.rawBounds localOffset (Warehouse.et_createdAtFieldType table)
                    (startAt (time q)) (endAt (time q)))),
     p').
Proof.
  intros H table.
  pose proof (long_getApplication_stable _ _ _ _ H) as H'.
  unfold Warehouse.buildOptimizedDateRangeQuery, Proc.bind.
  rewrite (long_getEventTable _ _ _ _ H); cbv beta iota.
  rewrite (long_enable _ _ _ _ H'); cbv beta iota.
  rewrite (long_enable _ _ _ _ H'); cbv beta iota.
  fold table.
  unfold Spec.rawBounds, Spec.dayString.
  rewrite !format_startOf_day, !format_endOf_day.
  destruct (Js.truthy _ && _); [returns_sql|].
  destruct (Warehouse.et_createdAtFieldType table =? "datetime")%string,
    (Warehouse.et_createdAtFieldType table =? "date")%string,
    (Warehouse.et_createdAtFieldType table =? "timestamp")%string;
    returns_sql.
Qed.

(** The bucket expression, by the value of the optimisation test. *)
Lemma long_bucket q p p' app :
  getApplication q p = (inr app, p') ->
  let table := Warehouse.eventTable app in
  Warehouse.buildOptimizedDateQuerySql parse localOffset q p
  = (if Js.truthy (Warehouse.et_dateBasedCreatedAtField table)
        && (1 <=? Dayjs.diff_day localOffset
                    (Dayjs.dayjs localOffset (endAt (time q))) (startAt (time q)))
     then inr (Spec.directBucket
                 (Spec.qualified (Warehouse.et_name table)
                    (Js.nullish (Warehouse.et_dateBasedCreatedAtField table)
                       "undefined"))
                 (Js.String_of_prop (Js.get (unit (time q)) Warehouse.MYSQL_DATE_FORMATS)))
     else match Warehouse.getDateQuery
                  (Spec.qualified (Warehouse.et_name table)
                     (Warehouse.et_createdAtField table))
                  (unit (time q)) (Js.nullish (timezone (time q)) "UTC")
                  (Some (Warehouse.et_createdAtFieldType table)) with
          | inr dateQuery => inr (dateQuery +++ Prisma.raw " date")
          | inl e => inl e
          end,
     p').
Proof.
  intros H table.
  pose proof (long_getApplication_stable _ _ _ _ H) as H'.
  unfold Warehouse.buildOptimizedDateQuerySql, Proc.bind.
  rewrite (long_getEventTable _ _ _ _ H); cbv beta iota.
  rewrite (long_enable _ _ _ _ H'); cbv beta iota.
  fold table.
  destruct (Js.truthy (Warehouse.et_dateBasedCreatedAtField table)) eqn:T;
    destruct (1 <=? _) eqn:D; cbn [andb].
  - returns_sql.
  - unfold Proc.lift, Spec.qualified, Spec.quoted.
    rewrite !append_assoc. now destruct (Warehouse.getDateQuery _ _ _ _).
  - unfold Proc.lift, Spec.qualified, Spec.quoted.
    rewrite !append_assoc. now destruct (Warehouse.getDateQuery _ _ _ _).
  - unfold Proc.lift, Spec.qualified, Spec.quoted.
    rewrite !append_assoc. now destruct (Warehouse.getDateQuery _ _ _ _).
Qed.
End LongTableFacts.

(* ===================================================================== *)
(** * The wide-table builder *)
(* ===================================================================== *)

Section WideTableFacts.
Import Schema.
Variable parse : string -> Js.exn + list WideTable.WarehouseInsightsApplication.
Variable localOffset : Z -> Z.
Variable compile :
  FilterInfoType -> string -> option FilterInfoValue -> Sql -> Js.exn + Sql.

Local Abbreviation getApplication := (WideTable.getApplication parse).

Lemma wide_getApplication_stable q p p' app :
  getApplication q p = (inr app, p') ->
  getApplication q p' = (inr app, p').
Proof.
  unfold WideTable.getApplication, WideTable.getWarehouseApplications, Proc.bind.
  destruct (Registry.getWarehouseApplications parse p) as [[e|apps] p1] eqn:E;
    [discriminate|].
  destruct (WideTable.find_wideTable _ apps) as [found|] eqn:F; [|discriminate].
  intros [= <- <-].
  rewrite (getWarehouseApplications_idempotent parse _ _ _ E), F.
  reflexivity.
Qed.

Lemma wide_enable q p p' app :
  getApplication q p = (inr app, p') ->
  WideTable.enableDateBasedOptimizedEventTable parse localOffset q p
  = (inr (Js.truthy (WideTable.dateBasedCreatedAtField app)
          && (1 <=? Dayjs.diff_day localOffset
                      (Dayjs.dayjs localOffset (endAt (time q))) (startAt (time q)))),
     p').
Proof.
  intros H. unfold WideTable.enableDateBasedOptimizedEventTable, Proc.bind.
  now rewrite H.
Qed.

Lemma wide_range q p p' app :
  getApplication q p = (inr app, p') ->
  WideTable.buildOptimizedDateRangeQuery parse localOffset q p
  = (inr (if Js.truthy (WideTable.dateBasedCreatedAtField app)
             && (1 <=? Dayjs.diff_day localOffset
                         (Dayjs.dayjs localOffset (endAt (time q))) (startAt (time q)))
          then Spec.between
                 (Spec.quoted (Js.nullish (WideTable.dateBasedCreatedAtField app)
                                 (WideTable.createdAtField app)))
                 (Spec.dayString localOffset (startAt (time q)),
                  Spec.dayString localOffset (endAt (time q)))
          else Spec.between
                 (Spec.quoted (WideTable.createdAtField app))
                 (Spec.rawBounds localOffset (WideTable.createdAtFieldType app)
                    (startAt (time q)) (endAt (time q)))),
     p').
Proof.
  intros H.
  pose proof (wide_getApplication_stable _ _ _ _ H) as H'.
  unfold WideTable.buildOptimizedDateRangeQuery, Proc.bind.
  rewrite H; cbv beta iota.
  rewrite (wide_enable _ _ _ _ H'); cbv beta iota.
  rewrite (wide_enable _ _ _ _ H'); cbv beta iota.
  unfold Spec.rawBounds, Spec.dayString.
  rewrite !format_startOf_day, !format_endOf_day.
  destruct (Js.truthy _ && _); [returns_sql|].
  destruct (WideTable.createdAtFieldType app =? "datetime")%string,
    (WideTable.createdAtFieldType app =? "date")%string,
    (WideTable.createdAtFieldType app =? "timestamp")%string;
    returns_sql.
Qed.

Lemma wide_bucket q p p' app :
  getApplication q p = (inr app, p') ->
  WideTable.buildOptimizedDateQuerySql parse localOffset q p
  = (if Js.truthy (WideTable.dateBasedCreatedAtField app)
        && (1 <=? Dayjs.diff_day localOffset
                    (Dayjs.dayjs localOffset (endAt (time q))) (startAt (time q)))
     then inr (Spec.directBucket
                 (Spec.quoted (Js.nullish (WideTable.dateBasedCreatedAtField app)
                                 "undefined"))
                 (Js.String_of_prop (Js.get (unit (time q)) WideTable.MYSQL_DATE_FORMATS)))
     else match WideTable.getDateQuery
                  (Spec.quoted (WideTable.createdAtField app))
                  (unit (time q)) (Js.nullish (timezone (time q)) "UTC")
                  (Some (WideTable.createdAtFieldType app)) with
          | inr dateQuery => inr (dateQuery +++ Prisma.raw " date")
          | inl e => inl e
          end,
     p').
Proof.
  intros H.
  pose proof (wide_getApplication_stable _ _ _ _ H) as H'.
  unfold WideTable.buildOptimizedDateQuerySql, Proc.bind.
  rewrite H; cbv beta iota.
  rewrite (wide_enable _ _ _ _ H'); cbv beta iota.
  destruct (Js.truthy (WideTable.dateBasedCreatedAtField app)) eqn:T;
    destruct (1 <=? _) eqn:D; cbn [andb];
    [returns_sql | | | ];
    unfold Proc.lift, Spec.quoted;
    now destruct (WideTable.getDateQuery _ _ _ _).
Qed.
End WideTableFacts.


(* ===================================================================== *)
(** * Day strings *)
(* ===================================================================== *)

Lemma civil_bounds days :
  let '(y, m, d) := Dayjs.civil days in 1 <= m <= 12 /\ 1 <= d <= 31.
Proof.
  unfold Dayjs.civil.
  set (z := days + 719468).
  set (era := z / 146097).
  set (doe := z - era * 146097).
  assert (Hdoe : 0 <= doe < 146097).
  { unfold doe, era. pose proof (Z.div_mod z 146097 ltac:(lia)).
    pose proof (Z.mod_pos_bound z 146097 ltac:(lia)). lia. }
  clearbody doe. clear z era.
  set (yoe := (doe - doe / 1460 + doe / 36524 - doe / 146096) / 365).
  assert (Hyoe : 0 <= yoe <= 399) by (unfold yoe; Z.div_mod_to_equations; lia).
  set (doy := doe - (365 * yoe + yoe / 4 - yoe / 100)).
  assert (Hdoy : 0 <= doy <= 365) by (unfold doy, yoe; Z.div_mod_to_equations; lia).
  clearbody doy.
  set (mp := (5 * doy + 2) / 153).
  assert (Hmp : 0 <= mp <= 11) by (unfold mp; Z.div_mod_to_equations; lia).
  assert (Hd : 1 <= doy - (153 * mp + 2) / 5 + 1 <= 31)
    by (unfold mp; Z.div_mod_to_equations; lia).
  destruct (mp <? 10) eqn:E; [apply Z.ltb_lt in E | apply Z.ltb_ge in E]; lia.
Qed.

Lemma length_append (a b : string) :
  String.length (a ++ b) = (String.length a + String.length b)%nat.
Proof. induction a as [|c a IH]; simpl; [reflexivity | now rewrite IH]. Qed.

Lemma get_after (a b : string) n :
  String.get (String.length a + n) (a ++ b) = String.get n b.
Proof. induction a as [|c a IH]; simpl; [reflexivity | exact IH]. Qed.

(** A width that holds on every number below a bound, checked by running the
    formatter on each of them. *)
Lemma pad_number_length (width : nat) (bound : Z) :
  forallb (fun k => (String.length (Dayjs.pad_number (Z.of_nat k) width) =? width)%nat)
    (seq 0 (Z.to_nat bound)) = true ->
  forall n, 0 <= n < bound -> String.length (Dayjs.pad_number n width) = width.
Proof.
  intros H n Hn. rewrite forallb_forall in H.
  specialize (H (Z.to_nat n)). rewrite Z2Nat.id in H by lia.
  apply Nat.eqb_eq, H, in_seq. lia.
Qed.

Lemma pad_number_2 n : 0 <= n < 100 -> String.length (Dayjs.pad_number n 2) = 2%nat.
Proof. apply (pad_number_length 2 100). vm_compute. reflexivity. Qed.

Lemma pad_number_4 n : 0 <= n < 10000 -> String.length (Dayjs.pad_number n 4) = 4%nat.
Proof. apply (pad_number_length 4 10000). vm_compute. reflexivity. Qed.

(** In the years 0 to 9999 the day format is ten characters long with a dash
    after the year and after the month. *)
Lemma format_YYYY_MM_DD_shape d :
  0 <= Dayjs.year d <= 9999 ->
  String.length (Dayjs.format_YYYY_MM_DD d) = 10%nat
  /\ String.get 4 (Dayjs.format_YYYY_MM_DD d) = Some "-"%char
  /\ String.get 7 (Dayjs.format_YYYY_MM_DD d) = Some "-"%char.
Proof.
  intros Hy. unfold Dayjs.format_YYYY_MM_DD.
  pose proof (civil_bounds (Dayjs.wall d / Dayjs.MILLISECONDS_A_DAY)) as Hc.
  unfold Dayjs.year, Dayjs.month, Dayjs.date in *.
  destruct (Dayjs.civil _) as [[y m] dd]; cbn [fst snd] in *.
  destruct Hc as [Hm Hd].
  pose proof (pad_number_4 y ltac:(lia)) as Ly.
  pose proof (pad_number_2 m ltac:(lia)) as Lm.
  pose proof (pad_number_2 dd ltac:(lia)) as Ld.
  repeat split.
  - rewrite !length_append, Ly, Lm, Ld. reflexivity.
  - rewrite <- Ly at 1. rewrite <- (Nat.add_0_r (String.length _)).
    rewrite get_after. reflexivity.
  - rewrite <- append_assoc, <- append_assoc.
    replace 7%nat
      with (String.length ((Dayjs.pad_number y 4 ++ "-") ++ Dayjs.pad_number m 2) + 0)%nat
      by (rewrite !length_append, Ly, Lm; reflexivity).
    rewrite get_after. reflexivity.
Qed.

(* ===================================================================== *)
(** * The date-based column *)
(* ===================================================================== *)

Lemma truthy_Some column : column <> "" -> Js.truthy (Some column) = true.
Proof.
  intros H. unfold Js.truthy. apply String.eqb_neq in H. now rewrite H.
Qed.

(** Within the range, an instant and the start and the end of its day are
    valid dates. *)
Lemma withinRange_valid localOffset startAt endAt :
  Dayjs.withinRange startAt = true ->
  Dayjs.withinRange endAt = true ->
  Dayjs.isValid startAt = true
  /\ Dayjs.isValid endAt = true
  /\ Dayjs.isValid
       (Dayjs.valueOf (Dayjs.startOf_day (Dayjs.dayjs localOffset startAt))) = true
  /\ Dayjs.isValid
       (Dayjs.valueOf (Dayjs.endOf_day (Dayjs.dayjs localOffset endAt))) = true.
Proof.
  unfold Dayjs.withinRange, Dayjs.isValid, Dayjs.startOf_day, Dayjs.endOf_day,
    Dayjs.dayjs, Dayjs.MAX_TIME_VALUE, Dayjs.MILLISECONDS_A_DAY.
  cbn [Dayjs.valueOf]. intros Hstart Hend.
  pose proof (Z.mod_pos_bound (Dayjs.wall (Dayjs.mk startAt (localOffset startAt)))
                86400000 ltac:(lia)) as Ms.
  pose proof (Z.mod_pos_bound (Dayjs.wall (Dayjs.mk endAt (localOffset endAt)))
                86400000 ltac:(lia)) as Me.
  rewrite !andb_true_iff, !Z.leb_le in Hstart, Hend.
  rewrite !andb_true_iff, !Z.leb_le.
  repeat split; lia.
Qed.

(** On a clock whose offset from UTC is the same at both ends of the window,
    the window spans a full day when twenty-four hours have elapsed. *)
Lemma spansFullDay_elapsed localOffset startAt endAt :
  localOffset startAt = localOffset endAt ->
  Spec.spansFullDay localOffset startAt endAt
  <-> Dayjs.MILLISECONDS_A_DAY <= endAt - startAt.
Proof.
  intros Hoffset. unfold Spec.spansFullDay, Dayjs.wall, Dayjs.dayjs.
  cbn [Dayjs.valueOf Dayjs.utcOffset]. rewrite Hoffset. lia.
Qed.

(** C1 (as amended).  For a window whose ends lie within the range of a
    [Date], against a schema that declares a date-based created-at column
    under a name that is not empty, the range
    predicate and the bucket expression read that column exactly when the
    server's wall clock at [endAt] reads at least twenty-four hours more than
    at [startAt]; otherwise both read the raw created-at column.  On a server
    whose offset from UTC is the same at both instants that is the window
    lasting twenty-four hours or more.  When the date-based column is read,
    the bounds are the calendar days of [startAt] and [endAt] as YYYY-MM-DD
    strings and the bucket is the unit's format applied to the column, with
    no timezone conversion.  This holds for the long-table and for the
    wide-table builder. *)
Theorem date_based_column_used_iff_window_spans_a_day :
  forall (localOffset : Z -> Z) (q : Schema.Query),
    let startAt := Schema.startAt (Schema.time q) in
    let endAt := Schema.endAt (Schema.time q) in
    let unit := Schema.unit (Schema.time q) in
    let timezone := Js.nullish (Schema.timezone (Schema.time q)) "UTC" in
    Dayjs.withinRange startAt = true ->
    Dayjs.withinRange endAt = true ->
    (* the long-table builder *)
    (forall parse p p' app column,
        Warehouse.getApplication parse q p = (inr app, p') ->
        Warehouse.et_dateBasedCreatedAtField (Warehouse.eventTable app) = Some column ->
        column <> "" ->
        let table := Warehouse.eventTable app in
        (Warehouse.enableDateBasedOptimizedEventTable parse localOffset q p
         = (inr true, p')
         <-> Spec.spansFullDay localOffset startAt endAt)
        /\ (Spec.spansFullDay localOffset startAt endAt ->
            Warehouse.buildOptimizedDateRangeQuery parse localOffset q p
            = (inr (Spec.between (Spec.qualified (Warehouse.et_name table) column)
                      (Spec.dayString localOffset startAt,
                       Spec.dayString localOffset endAt)), p')
            /\ forall format,
                Js.own unit Warehouse.MYSQL_DATE_FORMATS = Some format ->
                Warehouse.buildOptimizedDateQuerySql parse localOffset q p
                = (inr (Spec.directBucket
                          (Spec.qualified (Warehouse.et_name table) column) format),
                   p'))
        /\ (~ Spec.spansFullDay localOffset startAt endAt ->
            Warehouse.buildOptimizedDateRangeQuery parse localOffset q p
            = (inr (Spec.between
                      (Spec.qualified (Warehouse.et_name table)
                         (Warehouse.et_createdAtField table))
                      (Spec.rawBounds localOffset (Warehouse.et_createdAtFieldType table)
                         startAt endAt)), p')
            /\ Warehouse.buildOptimizedDateQuerySql parse localOffset q p
               = (match Warehouse.getDateQuery
                          (Spec.qualified (Warehouse.et_name table)
                             (Warehouse.et_createdAtField table))
                          unit timezone (Some (Warehouse.et_createdAtFieldType table)) with
                  | inr dateQuery => inr (dateQuery +++ Prisma.raw " date")
                  | inl e => inl e
                  end, p')))
    (* the wide-table builder *)
    /\ (forall parse p p' app column,
        WideTable.getApplication parse q p = (inr app, p') ->
        WideTable.dateBasedCreatedAtField app = Some column ->
        column <> "" ->
        (WideTable.enableDateBasedOptimizedEventTable parse localOffset q p
         = (inr true, p')
         <-> Spec.spansFullDay localOffset startAt endAt)
        /\ (Spec.spansFullDay localOffset startAt endAt ->
            WideTable.buildOptimizedDateRangeQuery parse localOffset q p
            = (inr (Spec.between (Spec.quoted column)
                      (Spec.dayString localOffset startAt,
                       Spec.dayString localOffset endAt)), p')
            /\ forall format,
                Js.own unit WideTable.MYSQL_DATE_FORMATS = Some format ->
                WideTable.buildOptimizedDateQuerySql parse localOffset q p
                = (inr (Spec.directBucket (Spec.quoted column) format), p'))
        /\ (~ Spec.spansFullDay localOffset startAt endAt ->
            WideTable.buildOptimizedDateRangeQuery parse localOffset q p
            = (inr (Spec.between (Spec.quoted (WideTable.createdAtField app))
                      (Spec.rawBounds localOffset (WideTable.createdAtFieldType app)
                         startAt endAt)), p')
            /\ WideTable.buildOptimizedDateQuerySql parse localOffset q p
               = (match WideTable.getDateQuery
                          (Spec.quoted (WideTable.createdAtField app))
                          unit timezone (Some (WideTable.createdAtFieldType app)) with
                  | inr dateQuery => inr (dateQuery +++ Prisma.raw " date")
                  | inl e => inl e
                  end, p')))
    (* where the offset is the same at both ends, a full day is twenty-four
       hours of elapsed time *)
    /\ (localOffset startAt = localOffset endAt ->
        (Spec.spansFullDay localOffset startAt endAt
         <-> Dayjs.MILLISECONDS_A_DAY <= endAt - startAt))
    (* the bounds are day strings *)
    /\ (forall instant,
        0 <= Dayjs.year (Dayjs.dayjs localOffset instant) <= 9999 ->
        String.length (Spec.dayString localOffset instant) = 10%nat
        /\ String.get 4 (Spec.dayString localOffset instant) = Some "-"%char
        /\ String.get 7 (Spec.dayString localOffset instant) = Some "-"%char)
    (* the dates the builders make of the window are valid ones *)
    /\ (Dayjs.isValid startAt = true
        /\ Dayjs.isValid endAt = true
        /\ Dayjs.isValid
             (Dayjs.valueOf (Dayjs.startOf_day (Dayjs.dayjs localOffset startAt)))
           = true
        /\ Dayjs.isValid
             (Dayjs.valueOf (Dayjs.endOf_day (Dayjs.dayjs localOffset endAt)))
           = true).
Proof.
  intros localOffset q startAt endAt unit timezone Hstart Hend.
  split; [|split; [|split; [|split]]].
  - intros parse p p' app column Happ Hcol Hne table.
    pose proof (long_enable parse localOffset q p p' app Happ) as T.
    pose proof (long_range parse localOffset q p p' app Happ) as R.
    pose proof (long_bucket parse localOffset q p p' app Happ) as B.
    cbv zeta in R, B. subst table startAt endAt unit timezone.
    rewrite Hcol, (truthy_Some _ Hne) in T, R, B.
    cbn [andb Js.nullish] in T, R, B.
    split; [|split; intros Hspan].
    + rewrite T, <- diff_day_spansFullDay.
      destruct (1 <=? _); split; congruence.
    + apply diff_day_spansFullDay in Hspan. rewrite Hspan in R, B.
      split; [exact R|]. intros format Hf. rewrite B.
      unfold Js.get. now rewrite Hf.
    + apply diff_day_not_spansFullDay in Hspan. rewrite Hspan in R, B.
      split; assumption.
  - intros parse p p' app column Happ Hcol Hne.
    pose proof (wide_enable parse localOffset q p p' app Happ) as T.
    pose proof (wide_range parse localOffset q p p' app Happ) as R.
    pose proof (wide_bucket parse localOffset q p p' app Happ) as B.
    subst startAt endAt unit timezone.
    rewrite Hcol, (truthy_Some _ Hne) in T, R, B.
    cbn [andb Js.nullish] in T, R, B.
    split; [|split; intros Hspan].
    + rewrite T, <- diff_day_spansFullDay.
      destruct (1 <=? _); split; congruence.
    + apply diff_day_spansFullDay in Hspan. rewrite Hspan in R, B.
      split; [exact R|]. intros format Hf. rewrite B.
      unfold Js.get. now rewrite Hf.
    + apply diff_day_not_spansFullDay in Hspan. rewrite Hspan in R, B.
      split; assumption.
  - apply spansFullDay_elapsed.
  - intros instant. apply format_YYYY_MM_DD_shape.
  - exact (withinRange_valid localOffset startAt endAt Hstart Hend).
Qed.

Lemma date_based_column_used_iff_window_spans_a_day_witness :
  Warehouse.buildOptimizedDateRangeQuery Fixture.parseLong Fixture.utcServer
    Fixture.testQuery (Fixture.fresh Fixture.longConfig)
  = (inr (Spec.between (Spec.qualified "events" "event_date")
            ("2025-08-01", "2025-08-02")),
     Fixture.longParsed)
  /\ WideTable.buildOptimizedDateQuerySql Fixture.parseWide Fixture.utcServer
       Fixture.ordersQuery (Fixture.fresh Fixture.wideConfig)
     = (inr (Spec.directBucket (Spec.quoted "created_date") "%Y-%m-%d"),
        Fixture.wideParsed).
Proof.
  assert (Hspan : Spec.spansFullDay Fixture.utcServer Fixture.aug1 Fixture.aug2)
    by (vm_compute; discriminate).
  split.
  - refine (proj1 (proj1 (proj2
      (proj1 (date_based_column_used_iff_window_spans_a_day Fixture.utcServer
                Fixture.testQuery eq_refl eq_refl)
         Fixture.parseLong (Fixture.fresh Fixture.longConfig) Fixture.longParsed
         Fixture.test "event_date" eq_refl eq_refl _)) Hspan)).
    discriminate.
  - refine (proj2 (proj1 (proj2
      (proj1 (proj2 (date_based_column_used_iff_window_spans_a_day Fixture.utcServer
                       Fixture.ordersQuery eq_refl eq_refl))
         Fixture.parseWide (Fixture.fresh Fixture.wideConfig) Fixture.wideParsed
         Fixture.orders "created_date" eq_refl eq_refl _)) Hspan) "%Y-%m-%d" eq_refl).
    discriminate.
Defined.

(** C1 (as stated) fails where the server's clocks change inside the window.
    From midnight to midnight across the night the clocks go forward in New
    York, twenty-three hours elapse; the wall clock reads twenty-four hours
    more, and both builders read the date-based column. *)
Lemma date_based_column_is_read_for_a_23_hour_window :
  Fixture.mar10 - Fixture.mar9 = 23 * Dayjs.MILLISECONDS_A_HOUR
  /\ Warehouse.buildOptimizedDateRangeQuery Fixture.parseLong Fixture.newYorkServer
       (Fixture.query "test" [Fixture.allEvents]
          (Schema.mkTime Fixture.mar9 Fixture.mar10 "day" None) [])
       (Fixture.fresh Fixture.longConfig)
     = (inr (Spec.between (Spec.qualified "events" "event_date")
               ("2025-03-09", "2025-03-10")),
        Fixture.longParsed)
  /\ Warehouse.buildOptimizedDateQuerySql Fixture.parseLong Fixture.newYorkServer
       (Fixture.query "test" [Fixture.allEvents]
          (Schema.mkTime Fixture.mar9 Fixture.mar10 "day" None) [])
       (Fixture.fresh Fixture.longConfig)
     = (inr (Spec.directBucket (Spec.qualified "events" "event_date") "%Y-%m-%d"),
        Fixture.longParsed)
  /\ WideTable.buildOptimizedDateRangeQuery Fixture.parseWide Fixture.newYorkServer
       (Fixture.query "orders" [Fixture.allEvents]
          (Schema.mkTime Fixture.mar9 Fixture.mar10 "day" None) [])
       (Fixture.fresh Fixture.wideConfig)
     = (inr (Spec.between (Spec.quoted "created_date")
               ("2025-03-09", "2025-03-10")),
        Fixture.wideParsed).
Proof. repeat split. Qed.

(* ===================================================================== *)
(** * Metrics *)
(* ===================================================================== *)

Lemma wide_buildSelectQueryArr_sessions parse q p p' app :
  WideTable.getApplication parse q p = (inr app, p') ->
  exists items,
    WideTable.buildSelectQueryArr parse q p = (inr items, p')
    /\ List.length items = List.length (Schema.metrics q)
    /\ forall i metric,
        nth_error (Schema.metrics q) i = Some metric ->
        Schema.math metric = "sessions" ->
        let distinct := Spec.column (WideTable.distinctField app) in
        (Schema.metric_name metric = "$all_event" ->
         nth_error items i
         = Some (Some (Spec.countDistinct distinct "$all_event")))
        /\ (Schema.metric_name metric <> "$all_event" ->
            exists condition,
              nth_error items i
              = Some (Some (Spec.countDistinct (Spec.caseWhen condition distinct)
                              (Schema.metric_name metric)))).
Proof.
  intros H. unfold WideTable.buildSelectQueryArr, Proc.bind. rewrite H.
  eexists. split; [reflexivity|]. split; [apply length_map|].
  intros i metric Hi Hm. cbv zeta.
  rewrite (map_nth_error _ _ _ Hi), Hm. cbn [String.eqb Ascii.eqb Bool.eqb].
  split.
  - intros ->. cbn [String.eqb Ascii.eqb Bool.eqb].
    do 2 f_equal. apply sql_eq; sql_text; reflexivity.
  - intros Hname. apply String.eqb_neq in Hname. rewrite Hname.
    exists (Prisma.raw (Spec.quoted (Schema.metric_name metric) ++ " = ")
              +++ Prisma.param (Js.Str (Schema.metric_name metric))).
    do 2 f_equal. apply sql_eq; sql_text; reflexivity.
Qed.

Lemma long_buildSelectQueryArr_sessions parse q p p' app :
  Warehouse.getApplication parse q p = (inr app, p') ->
  exists items,
    Warehouse.buildSelectQueryArr parse q p = (inr items, p')
    /\ List.length items = List.length (Schema.metrics q)
    /\ forall i metric,
        nth_error (Schema.metrics q) i = Some metric ->
        Schema.math metric = "sessions" ->
        nth_error items i = Some None.
Proof.
  intros H. unfold Warehouse.buildSelectQueryArr, Proc.bind.
  rewrite (long_getEventTable _ _ _ _ _ H).
  eexists. split; [reflexivity|]. split; [apply length_map|].
  intros i metric Hi Hm.
  rewrite (map_nth_error _ _ _ Hi), Hm. reflexivity.
Qed.

(** C2 (as amended).  For a metric with math [sessions] the wide-table
    builder emits, at the metric's place and under the metric's name, a
    count of the distinct values of the schema's distinct field: over all
    rows when the metric is [$all_event], and otherwise over a CASE
    expression that yields the distinct field on the rows its condition
    selects.  The long-table builder, whose schema declares no distinct
    field, emits no aggregate for such a metric. *)
Theorem sessions_metric_counts_distinct_values_in_wide_table_only :
  forall (q : Schema.Query),
    (forall parse p p' app,
        WideTable.getApplication parse q p = (inr app, p') ->
        exists items,
          WideTable.buildSelectQueryArr parse q p = (inr items, p')
          /\ List.length items = List.length (Schema.metrics q)
          /\ forall i metric,
              nth_error (Schema.metrics q) i = Some metric ->
              Schema.math metric = "sessions" ->
              let distinct := Spec.column (WideTable.distinctField app) in
              (Schema.metric_name metric = "$all_event" ->
               nth_error items i
               = Some (Some (Spec.countDistinct distinct "$all_event")))
              /\ (Schema.metric_name metric <> "$all_event" ->
                  exists condition,
                    nth_error items i
                    = Some (Some (Spec.countDistinct
                                    (Spec.caseWhen condition distinct)
                                    (Schema.metric_name metric)))))
    /\ (forall parse p p' app,
        Warehouse.getApplication parse q p = (inr app, p') ->
        exists items,
          Warehouse.buildSelectQueryArr parse q p = (inr items, p')
          /\ List.length items = List.length (Schema.metrics q)
          /\ forall i metric,
              nth_error (Schema.metrics q) i = Some metric ->
              Schema.math metric = "sessions" ->
              nth_error items i = Some None).
Proof.
  intros q. split; intros parse p p' app H.
  - exact (wide_buildSelectQueryArr_sessions parse q p p' app H).
  - exact (long_buildSelectQueryArr_sessions parse q p p' app H).
Qed.

Lemma sessions_metric_counts_distinct_values_in_wide_table_only_witness :
  exists items,
    WideTable.buildSelectQueryArr Fixture.parseWide
      (Fixture.query "orders"
         [Schema.mkMetric "country" "sessions"; Schema.mkMetric "$all_event" "sessions"]
         Fixture.twoDays [])
      (Fixture.fresh Fixture.wideConfig)
    = (inr items, Fixture.wideParsed)
    /\ List.length items = 2%nat
    /\ forall i metric,
        nth_error [Schema.mkMetric "country" "sessions";
                   Schema.mkMetric "$all_event" "sessions"] i = Some metric ->
        Schema.math metric = "sessions" ->
        (Schema.metric_name metric = "$all_event" ->
         nth_error items i
         = Some (Some (Spec.countDistinct (Spec.column "user_id") "$all_event")))
        /\ (Schema.metric_name metric <> "$all_event" ->
            exists condition,
              nth_error items i
              = Some (Some (Spec.countDistinct
                              (Spec.caseWhen condition (Spec.column "user_id"))
                              (Schema.metric_name metric)))).
Proof.
  exact (proj1 (sessions_metric_counts_distinct_values_in_wide_table_only
                  (Fixture.query "orders"
                     [Schema.mkMetric "country" "sessions";
                      Schema.mkMetric "$all_event" "sessions"]
                     Fixture.twoDays []))
           Fixture.parseWide (Fixture.fresh Fixture.wideConfig) Fixture.wideParsed
           Fixture.orders eq_refl).
Defined.

(** C2 (as stated) fails on the long-table builder: a [sessions] metric
    yields [null] in place of an aggregate. *)
Lemma long_table_builder_emits_no_aggregate_for_sessions :
  Warehouse.buildSelectQueryArr Fixture.parseLong
    (Fixture.query "test" [Schema.mkMetric "purchase" "sessions"] Fixture.twoDays [])
    (Fixture.fresh Fixture.longConfig)
  = (inr [None], Fixture.longParsed).
Proof. reflexivity. Qed.

(** The condition the wide-table builder writes into that CASE compares the
    column named after the metric with the metric's own name, where the
    [events] branch of the same function counts the rows on which that
    column is not null. *)
Example wide_sessions_condition_compares_a_column_with_its_name :
  WideTable.buildSelectQueryArr Fixture.parseWide
    (Fixture.query "orders"
       [Schema.mkMetric "country" "events"; Schema.mkMetric "country" "sessions"]
       Fixture.twoDays [])
    (Fixture.fresh Fixture.wideConfig)
  = (inr [Some (Prisma.mkSql
                  ("count(" ++ Spec.quoted "country" ++ ") as "
                     ++ Spec.quoted "country") []);
          Some (Spec.countDistinct
                  (Spec.caseWhen
                     (Prisma.mkSql (Spec.quoted "country" ++ " = ?")
                        [Js.Str "country"])
                     (Spec.column "user_id"))
                  "country")],
     Fixture.wideParsed).
Proof. reflexivity. Qed.

(* ===================================================================== *)
(** * Time units and storage encodings *)
(* ===================================================================== *)

(** A unit that is no key of the format table, own or inherited, is refused
    by [getDateQuery]. *)
Lemma long_getDateQuery_unknown_unit field unit timezone type :
  Js.has unit Warehouse.MYSQL_DATE_FORMATS = false ->
  Warehouse.getDateQuery field unit timezone type
  = inl (Js.Error ("Invalid date unit: " ++ unit)).
Proof.
  intros H. unfold Warehouse.getDateQuery. now rewrite H.
Qed.

Lemma wide_getDateQuery_unknown_unit field unit timezone type :
  Js.has unit WideTable.MYSQL_DATE_FORMATS = false ->
  WideTable.getDateQuery field unit timezone type
  = inl (Js.Error ("Invalid date unit: " ++ unit)).
Proof.
  intros H. unfold WideTable.getDateQuery. now rewrite H.
Qed.

(** The sibling [getOptimizedDateQuery] checks the unit on the date-based
    path as well. *)
Lemma long_getOptimizedDateQuery_unknown_unit parse localOffset q p p' app :
  Warehouse.getApplication parse q p = (inr app, p') ->
  Js.has (Schema.unit (Schema.time q)) Warehouse.MYSQL_DATE_FORMATS = false ->
  Warehouse.getOptimizedDateQuery parse localOffset q p
  = (inl (Js.Error ("Invalid date unit: " ++ Schema.unit (Schema.time q))), p').
Proof.
  intros H Hu.
  pose proof (long_getApplication_stable _ _ _ _ _ H) as H'.
  unfold Warehouse.getOptimizedDateQuery, Proc.bind.
  rewrite (long_getEventTable _ _ _ _ _ H); cbv beta iota.
  rewrite (long_enable _ _ _ _ _ _ H'); cbv beta iota.
  now rewrite Hu.
Qed.

(** C3 at its failing input.  With the date-based column engaged, the unit
    [week] is not refused: both builders return a bucket expression whose
    format is the text [undefined], where [getDateQuery] on the raw column
    throws for the same unit. *)
Theorem unknown_unit_is_not_refused_on_the_date_based_path :
  Warehouse.buildOptimizedDateQuerySql Fixture.parseLong Fixture.utcServer
    (Fixture.query "test" [Fixture.allEvents]
       (Schema.mkTime Fixture.aug1 Fixture.aug2 "week" None) [])
    (Fixture.fresh Fixture.longConfig)
  = (inr (Spec.directBucket (Spec.qualified "events" "event_date") "undefined"),
     Fixture.longParsed)
  /\ WideTable.buildOptimizedDateQuerySql Fixture.parseWide Fixture.utcServer
       (Fixture.query "orders" [Fixture.allEvents]
          (Schema.mkTime Fixture.aug1 Fixture.aug2 "week" None) [])
       (Fixture.fresh Fixture.wideConfig)
     = (inr (Spec.directBucket (Spec.quoted "created_date") "undefined"),
        Fixture.wideParsed)
  /\ Warehouse.getDateQuery (Spec.qualified "events" "event_timestamp") "week" "UTC"
       (Some "timestampMs")
     = inl (Js.Error "Invalid date unit: week").
Proof. repeat split. Qed.

(** A unit named after a property every object inherits passes the [in]
    test of [getDateQuery], so it is not refused on the raw column either. *)
Example getDateQuery_accepts_inherited_property_names :
  Warehouse.getDateQuery "t" "valueOf" "UTC" (Some "timestampMs")
  = inr (Spec.millisecondsBucket "t" "function valueOf() { [native code] }" "UTC").
Proof. reflexivity. Qed.

Lemma long_getDateQuery_fallback field unit timezone encoding :
  ~ In encoding Spec.declaredEncodings ->
  Warehouse.getDateQuery field unit timezone (Some encoding)
  = Warehouse.getDateQuery field unit timezone (Some "timestampMs").
Proof.
  intros H. unfold Warehouse.getDateQuery.
  destruct (negb _); [reflexivity|].
  destruct (String.eqb_spec encoding "timestamp") as [->|_];
    [exfalso; apply H; simpl; auto|].
  destruct (String.eqb_spec encoding "timestampMs") as [->|_]; [reflexivity|].
  destruct (String.eqb_spec encoding "date") as [->|_];
    [exfalso; apply H; simpl; auto|].
  destruct (String.eqb_spec encoding "datetime") as [->|_];
    [exfalso; apply H; simpl; auto|].
  reflexivity.
Qed.

Lemma long_getDateQuery_milliseconds field unit timezone format :
  Js.own unit Warehouse.MYSQL_DATE_FORMATS = Some format ->
  Warehouse.getDateQuery field unit timezone (Some "timestampMs")
  = inr (Spec.millisecondsBucket field format timezone).
Proof.
  intros H. unfold Warehouse.getDateQuery, Js.has, Js.get. rewrite H.
  cbn [negb String.eqb Ascii.eqb Bool.eqb Js.String_of_prop].
  f_equal. apply sql_eq; sql_text; reflexivity.
Qed.

(** The two builders carry the same [getDateQuery]. *)
Lemma wide_getDateQuery_eq field unit timezone type :
  WideTable.getDateQuery field unit timezone type
  = Warehouse.getDateQuery field unit timezone type.
Proof. reflexivity. Qed.

(** C9.  A storage encoding outside the declared set raises no error of its
    own: in both builders [getDateQuery] answers as it does for
    [timestampMs], and for each of the five units that answer is the
    milliseconds-since-epoch bucket expression. *)
Theorem undeclared_encoding_falls_back_to_milliseconds :
  forall field unit timezone encoding,
    ~ In encoding Spec.declaredEncodings ->
    (Warehouse.getDateQuery field unit timezone (Some encoding)
     = Warehouse.getDateQuery field unit timezone (Some "timestampMs")
     /\ WideTable.getDateQuery field unit timezone (Some encoding)
        = WideTable.getDateQuery field unit timezone (Some "timestampMs"))
    /\ forall format,
        Js.own unit Warehouse.MYSQL_DATE_FORMATS = Some format ->
        Warehouse.getDateQuery field unit timezone (Some encoding)
        = inr (Spec.millisecondsBucket field format timezone)
        /\ WideTable.getDateQuery field unit timezone (Some encoding)
           = inr (Spec.millisecondsBucket field format timezone).
Proof.
  intros field unit timezone encoding H.
  pose proof (long_getDateQuery_fallback field unit timezone encoding H) as F.
  split; [split; exact F|].
  intros format Hf.
  pose proof (long_getDateQuery_milliseconds field unit timezone format Hf) as Ms.
  rewrite <- F in Ms. split; exact Ms.
Qed.

Lemma undeclared_encoding_falls_back_to_milliseconds_witness :
  Warehouse.getDateQuery "created" "hour" "Asia/Tokyo" (Some "epoch")
  = inr (Spec.millisecondsBucket "created" "%Y-%m-%d %H:00:00" "Asia/Tokyo")
  /\ WideTable.getDateQuery "created" "hour" "Asia/Tokyo" (Some "epoch")
     = inr (Spec.millisecondsBucket "created" "%Y-%m-%d %H:00:00" "Asia/Tokyo").
Proof.
  refine (proj2 (undeclared_encoding_falls_back_to_milliseconds
                   "created" "hour" "Asia/Tokyo" "epoch" _)
            "%Y-%m-%d %H:00:00" eq_refl).
  simpl. intuition discriminate.
Defined.

(* ===================================================================== *)
(** * Resolving and dispatching *)
(* ===================================================================== *)

(** The wide-table lookup returns an application of the wide-table sub-type
    that carries the requested name. *)
Lemma find_wideTable_sound name apps app :
  WideTable.find_wideTable name apps = Some app ->
  In (WideTable.WideTable app) apps /\ WideTable.name app = name.
Proof.
  unfold WideTable.find_wideTable.
  destruct (find _ apps) as [[n e t|a]|] eqn:F; try discriminate.
  intros [= <-]. apply find_some in F. destruct F as [Hin Hp].
  apply andb_prop in Hp. destruct Hp as [Hn _].
  split; [exact Hin | now apply String.eqb_eq in Hn].
Qed.

Lemma wide_getApplication_sound parse q p p' app :
  WideTable.getApplication parse q p = (inr app, p') ->
  exists apps,
    Registry.applications p' = Some apps
    /\ In (WideTable.WideTable app) apps
    /\ WideTable.name app = Schema.insightId q.
Proof.
  unfold WideTable.getApplication, WideTable.getWarehouseApplications, Proc.bind.
  destruct (Registry.getWarehouseApplications parse p) as [[e|apps] p1] eqn:E;
    [discriminate|].
  destruct (WideTable.find_wideTable _ apps) as [found|] eqn:F; [|discriminate].
  intros [= <- <-]. exists apps.
  split; [exact (getWarehouseApplications_returns parse _ _ _ E)|].
  exact (find_wideTable_sound _ _ _ F).
Qed.

(** C7 at its failing input.  The configuration lists an application named
    [shop] of sub-type [wideTable]; the long-table builder resolves the
    insight [shop] to it, since its lookup compares the name only. *)
Theorem long_table_lookup_returns_wide_table_application :
  Warehouse.getApplication Fixture.parseLong
    (Fixture.query "shop" [Fixture.allEvents] Fixture.twoDays [])
    (Fixture.fresh Fixture.longConfig)
  = (inr Fixture.shop, Fixture.longParsed)
  /\ Warehouse.type Fixture.shop = wideTable.
Proof. split; reflexivity. Qed.

(** C10.  An events listing goes to the wide-table builder exactly when the
    insight resolves to an application of the wide-table sub-type; when it
    resolves to another application or to none, the listing goes to the
    long-table builder and the dispatcher does not fail. *)
Theorem queryWarehouseEvents_dispatch :
  forall find (query : Schema.Query) (context : Schema.Context) resolved,
    find (Schema.workspaceId query) (Schema.insightId query) = inr resolved ->
    ((forall application, resolved <> Some (WideTable.WideTable application)) ->
     Index.queryWarehouseEvents find query context
     = inr (Index.LongTable_queryEvents query context (Schema.cursor query)))
    /\ (forall call,
         Index.queryWarehouseEvents find query context
         = inr (Index.WideTable_queryEvents query context call) ->
         exists application, resolved = Some (WideTable.WideTable application))
    /\ (forall application,
         resolved = Some (WideTable.WideTable application) ->
         Index.queryWarehouseEvents find query context
         = inr (Index.WideTable_queryEvents query context (Schema.cursor query))).
Proof.
  intros find query context resolved H.
  unfold Index.queryWarehouseEvents. rewrite H.
  destruct resolved as [[n e t|a]|]; cbn; (split; [|split]).
  - reflexivity.
  - discriminate.
  - discriminate.
  - intros Hn. now destruct (Hn a).
  - intros _ _. now exists a.
  - reflexivity.
  - reflexivity.
  - discriminate.
  - discriminate.
Qed.

Lemma queryWarehouseEvents_dispatch_witness :
  Index.queryWarehouseEvents (fun _ _ => inr None)
    (Fixture.query "missing" [] Fixture.twoDays []) (Schema.mkContext "UTC")
  = inr (Index.LongTable_queryEvents
           (Fixture.query "missing" [] Fixture.twoDays []) (Schema.mkContext "UTC")
           None).
Proof.
  refine (proj1 (queryWarehouseEvents_dispatch (fun _ _ => inr None)
                   (Fixture.query "missing" [] Fixture.twoDays [])
                   (Schema.mkContext "UTC") None eq_refl) _).
  discriminate.
Defined.

(* ===================================================================== *)
(** * The event-name disjunction *)
(* ===================================================================== *)

Section EventNameDisjunction.
Import Schema.
Variable table : Warehouse.EventTable.

(** The disjunct [buildWhereQueryArr] makes of one metric. *)
Let disjunct (item : Metric) : Sql :=
  if (metric_name item =? "$all_event")%string then Prisma.raw "1 = 1"
  else
    Prisma.raw DQ +++ Prisma.raw (Warehouse.et_name table)
      +++ Prisma.raw (DQ ++ "." ++ DQ)
      +++ Prisma.raw (Warehouse.eventNameField table)
      +++ Prisma.raw (DQ ++ " = ")
      +++ Prisma.param (Js.Str (metric_name item)).

Lemma join_tail_sentinels (rest : list Metric) :
  Forall (fun item => metric_name item = "$all_event") rest ->
  "1 = 1" ++ Prisma.sql (Prisma.join_tail " OR " (map disjunct rest))
  = Js.join " OR " (repeat "1 = 1" (S (List.length rest)))
  /\ Prisma.values (Prisma.join_tail " OR " (map disjunct rest)) = [].
Proof.
  induction 1 as [|item rest Hitem _ [IHs IHv]].
  - split; reflexivity.
  - cbn [map Prisma.join_tail List.length repeat].
    unfold disjunct at 1 3. rewrite Hitem. cbn [String.eqb Ascii.eqb Bool.eqb].
    cbn [Prisma.app Prisma.raw Prisma.sql Prisma.values List.app].
    split; [|exact IHv].
    change (Js.join " OR " ("1 = 1" :: "1 = 1" :: repeat "1 = 1" (List.length rest)))
      with ("1 = 1" ++ " OR " ++ Js.join " OR " (repeat "1 = 1" (S (List.length rest)))).
    rewrite <- IHs. reflexivity.
Qed.

Lemma join_sentinels (items : list Metric) :
  items <> [] ->
  Forall (fun item => metric_name item = "$all_event") items ->
  Prisma.join (map disjunct items) " OR " "(" ")"
  = inr (Prisma.mkSql
           (Spec.disjunction (repeat "1 = 1" (List.length items))) []).
Proof.
  intros Hne Hall. destruct items as [|item rest]; [congruence|].
  inversion Hall as [|? ? Hitem Hrest]; subst.
  destruct (join_tail_sentinels rest Hrest) as [Hs Hv].
  cbn [map Prisma.join]. unfold disjunct at 1. rewrite Hitem.
  cbn [String.eqb Ascii.eqb Bool.eqb]. f_equal.
  apply sql_eq.
  - unfold Spec.disjunction. cbn [List.length]. rewrite <- Hs.
    cbn [Prisma.app Prisma.raw Prisma.sql]. now rewrite !append_assoc.
  - cbn [Prisma.app Prisma.raw Prisma.values List.app]. rewrite Hv. reflexivity.
Qed.
End EventNameDisjunction.

(** C4.  When every metric of a non-empty metrics list is the [$all_event]
    sentinel, the WHERE clause of the long-table builder is the date range
    followed by a disjunction that consists of [1 = 1] only and binds no
    value: no row of the range is excluded by event name. *)
Theorem all_event_disjunction_is_a_tautology :
  forall parse localOffset (q : Schema.Query) p p' app,
    Warehouse.getApplication parse q p = (inr app, p') ->
    Schema.metrics q <> [] ->
    Forall (fun item => Schema.metric_name item = "$all_event") (Schema.metrics q) ->
    exists dateRange,
      Warehouse.buildOptimizedDateRangeQuery parse localOffset q p
      = (inr dateRange, p')
      /\ Warehouse.buildWhereQueryArr parse localOffset q p
         = (inr [dateRange;
                 Prisma.mkSql
                   (Spec.disjunction
                      (repeat "1 = 1" (List.length (Schema.metrics q)))) []],
            p').
Proof.
  intros parse localOffset q p p' app H Hne Hall.
  pose proof (long_getApplication_stable _ _ _ _ _ H) as H'.
  pose proof (long_range parse localOffset q p p' app H) as R.
  pose proof (long_range parse localOffset q p' p' app H') as R'.
  cbv zeta in R, R'.
  eexists. split; [exact R|].
  unfold Warehouse.buildWhereQueryArr, Proc.bind.
  rewrite (long_getEventTable _ _ _ _ _ H); cbv beta iota.
  rewrite R'; cbv beta iota.
  unfold Proc.lift.
  pose proof (join_sentinels (Warehouse.eventTable app) _ Hne Hall) as J.
  match goal with
  | |- context [Prisma.join ?items ?sep ?pre ?post] =>
      replace (Prisma.join items sep pre post)
        with (@inr Js.exn Sql
                (Prisma.mkSql
                   (Spec.disjunction
                      (repeat "1 = 1" (List.length (Schema.metrics q)))) []))
        by (symmetry; exact J)
  end.
  reflexivity.
Qed.

Lemma all_event_disjunction_is_a_tautology_witness :
  exists dateRange,
    Warehouse.buildOptimizedDateRangeQuery Fixture.parseLong Fixture.utcServer
      Fixture.testQuery (Fixture.fresh Fixture.longConfig)
    = (inr dateRange, Fixture.longParsed)
    /\ Warehouse.buildWhereQueryArr Fixture.parseLong Fixture.utcServer
         Fixture.testQuery (Fixture.fresh Fixture.longConfig)
       = (inr [dateRange; Prisma.mkSql "(1 = 1)" []], Fixture.longParsed).
Proof.
  refine (all_event_disjunction_is_a_tautology Fixture.parseLong Fixture.utcServer
            Fixture.testQuery (Fixture.fresh Fixture.longConfig) Fixture.longParsed
            Fixture.test eq_refl _ _).
  - discriminate.
  - repeat constructor.
Defined.

(* ===================================================================== *)
(** * Group columns *)
(* ===================================================================== *)

(** A loop whose every turn appends to the accumulator, run from a state
    that satisfies an invariant the body keeps. *)
Lemma forOf_appends {S A B} (I : S -> Prop) (P : A -> list B -> Prop)
  (body : list B -> A -> Proc.M S (list B)) (xs : list A) :
  (forall acc x s, In x xs -> I s ->
     exists ys s', body acc x s = (inr (acc ++ ys)%list, s') /\ I s' /\ P x ys) ->
  forall acc s, I s ->
    exists yss s',
      Proc.forOf body xs acc s = (inr (acc ++ List.concat yss)%list, s')
      /\ I s' /\ Forall2 P xs yss.
Proof.
  induction xs as [|x xs IH]; intros Hbody acc s Hs.
  - exists [], s. cbn. rewrite app_nil_r. auto.
  - destruct (Hbody acc x s (or_introl eq_refl) Hs) as (ys & s1 & E & I1 & Py).
    destruct (IH (fun acc x s Hin => Hbody acc x s (or_intror Hin)) (acc ++ ys)%list s1 I1)
      as (yss & s2 & E2 & I2 & F).
    exists (ys :: yss), s2. cbn. unfold Proc.bind. rewrite E, E2.
    rewrite app_assoc. auto.
Qed.

Lemma Forall2_concat_singletons {A B C} (R : B -> C -> Prop) (f : A -> C)
  (xs : list A) (yss : list (list B)) :
  Forall2 (fun x ys => exists y, ys = [y] /\ R y (f x)) xs yss ->
  Forall2 R (List.concat yss) (map f xs).
Proof.
  induction 1 as [|x ys xs yss (y & -> & Hy) _ IH]; cbn; constructor; assumption.
Qed.

Lemma Forall2_concat_flat_map {A B C} (R : B -> C -> Prop) (f : A -> list C)
  (xs : list A) (yss : list (list B)) :
  Forall2 (fun x ys => Forall2 R ys (f x)) xs yss ->
  Forall2 R (List.concat yss) (flat_map f xs).
Proof.
  induction 1 as [|x ys xs yss Hx _ IH]; cbn; [constructor|].
  now apply Forall2_app.
Qed.

(** [expression as "%alias"], as both builders write it. *)
Lemma aliased_intro (expression : Sql) (name : string) :
  expression +++ Prisma.raw (" as " ++ DQ ++ "%") +++ Prisma.raw name
    +++ Prisma.raw DQ
  = Spec.aliased expression ("%" ++ name).
Proof.
  apply sql_eq.
  - sql_text. reflexivity.
  - cbn [Prisma.app Prisma.raw Prisma.values List.app Spec.aliased].
    now rewrite app_nil_r.
Qed.

Lemma append_inj_l (a b c : string) : a ++ b = a ++ c -> b = c.
Proof.
  induction a as [|x a IH]; cbn; [auto|]. intros [= E]. exact (IH E).
Qed.

Lemma append_inj_r (c : string) : forall a b, a ++ c = b ++ c -> a = b.
Proof.
  intros a b E.
  assert (L : String.length a = String.length b).
  { apply (f_equal String.length) in E. rewrite !length_append in E. lia. }
  revert b E L. induction a as [|x a IH]; intros [|y b] E L; cbn in *;
    try discriminate; [reflexivity|].
  injection E as -> E. injection L as L. now rewrite (IH b E L).
Qed.

(** A select item has one alias under a given expression. *)
Lemma aliased_inj (expression : Sql) (a b : string) :
  Spec.aliased expression a = Spec.aliased expression b -> a = b.
Proof.
  unfold Spec.aliased, Spec.quoted. intros [= E].
  apply append_inj_l in E. cbn in E. injection E as E.
  exact (append_inj_r _ _ _ E).
Qed.

Lemma Forall2_nth_error {A B} (R : A -> B -> Prop) (xs : list A) (ys : list B) :
  Forall2 R xs ys ->
  forall i x y, nth_error xs i = Some x -> nth_error ys i = Some y -> R x y.
Proof.
  induction 1 as [|x0 y0 xs ys Hxy _ IH]; intros [|i] x y Hx Hy; cbn in *;
    try discriminate.
  - injection Hx as <-. injection Hy as <-. exact Hxy.
  - exact (IH i x y Hx Hy).
Qed.

(** Two strings free of a delimiter that agree up to and after their first
    delimiter are the same string, with the same remainder. *)
Lemma split_at_delimiter (c : ascii) (a b r r' : string) :
  Spec.free_of c a = true -> Spec.free_of c b = true ->
  a ++ String c r = b ++ String c r' ->
  a = b /\ r = r'.
Proof.
  revert b. induction a as [|x a IH]; intros [|y b] Ha Hb E; cbn in *.
  - injection E as ->. auto.
  - injection E as <- _. apply andb_prop in Hb. destruct Hb as [Hy _].
    now rewrite Ascii.eqb_refl in Hy.
  - injection E as -> _. apply andb_prop in Ha. destruct Ha as [Hx _].
    now rewrite Ascii.eqb_refl in Hx.
  - injection E as -> E. apply andb_prop in Ha, Hb.
    destruct (IH b (proj2 Ha) (proj2 Hb) E) as [-> ->]. auto.
Qed.

Lemma customGroupAlias_injective (g g' : Schema.Group) (cg cg' : Schema.CustomGroup) :
  Spec.free_of "|" (Schema.value g) = true ->
  Spec.free_of "|" (Schema.filterOperator cg) = true ->
  Spec.free_of "|" (Schema.value g') = true ->
  Spec.free_of "|" (Schema.filterOperator cg') = true ->
  Spec.customGroupAlias g cg = Spec.customGroupAlias g' cg' ->
  Schema.value g = Schema.value g'
  /\ Schema.filterOperator cg = Schema.filterOperator cg'
  /\ Js.String_of_value (Schema.filterValue cg)
     = Js.String_of_value (Schema.filterValue cg').
Proof.
  intros Hv Ho Hv' Ho' E. unfold Spec.customGroupAlias in E.
  cbn [String.append] in E. injection E as E.
  destruct (split_at_delimiter _ _ _ _ _ Hv Hv' E) as [Ev E1].
  destruct (split_at_delimiter _ _ _ _ _ Ho Ho' E1) as [Eo E2].
  auto.
Qed.

(** Columns that follow the convention are told apart by their aliases. *)
Lemma derivedColumns_unambiguous compile plain operand items keys
  plain' operand' items' keys' :
  Forall2 (Spec.derivedColumn compile plain operand) items keys ->
  Forall2 (Spec.derivedColumn compile plain' operand') items' keys' ->
  Spec.unambiguous compile operand operand' items keys items' keys'.
Proof.
  intros F F' i j g cg g' cg' predicate predicate' alias
    Hi Hj Hv Ho Hv' Ho' Ec Ec' Ii Ij.
  destruct (Forall2_nth_error _ _ _ F i _ _ Ii Hi) as (pr & Epr & Eitem).
  destruct (Forall2_nth_error _ _ _ F' j _ _ Ij Hj) as (pr' & Epr' & Eitem').
  rewrite Ec in Epr. injection Epr as <-.
  rewrite Ec' in Epr'. injection Epr' as <-.
  apply aliased_inj in Eitem, Eitem'. cbn [Spec.keyAlias] in Eitem, Eitem'.
  apply customGroupAlias_injective; try assumption.
  now rewrite <- Eitem, <- Eitem'.
Qed.

Lemma keyAliases_prefixed (keys : list Spec.Key) :
  Forall (fun key => Spec.startsWith "%" (Spec.keyAlias key)) keys.
Proof.
  apply Forall_forall. intros [g [cg|]] _; eexists; reflexivity.
Qed.

Section GroupColumns.
Import Schema.
Variable compile :
  FilterInfoType -> string -> option FilterInfoValue -> Sql -> Js.exn + Sql.
Variable q : Query.

(** The filter operator compiler accepts every customGroups entry of the
    query. *)
Hypothesis compile_accepts :
  forall g entries cg column,
    In g (groups q) -> customGroups g = Some entries -> In cg entries ->
    exists predicate,
      compile (group_type g) (filterOperator cg) (Some (filterValue cg)) column
      = inr predicate.

(** The value column depends on the application alone. *)
Lemma long_getValueField_resolved parse p s p' app type :
  Warehouse.getApplication parse q p = (inr app, p') ->
  Warehouse.getApplication parse q s = (inr app, p') ->
  Warehouse.getValueField parse q type s = Warehouse.getValueField parse q type p.
Proof.
  intros Hp Hs. unfold Warehouse.getValueField, Proc.bind.
  rewrite (long_getEventParametersTable _ _ _ _ _ Hp).
  rewrite (long_getEventParametersTable _ _ _ _ _ Hs).
  reflexivity.
Qed.

Lemma long_buildGroupSelectQueryArr parse p p' app valueField :
  Warehouse.getApplication parse q p = (inr app, p') ->
  (forall type,
      Warehouse.getValueField parse q type p = (inr (valueField type), p')) ->
  exists items p'',
    Warehouse.buildGroupSelectQueryArr parse compile q p = (inr items, p'')
    /\ Forall2 (Spec.derivedColumn compile
                  (fun g => valueField (group_type g))
                  (fun g => valueField (group_type g)))
         items (flat_map Spec.groupKeys (groups q)).
Proof.
  intros H Hfield.
  set (R := Spec.derivedColumn compile
              (fun g => valueField (group_type g))
              (fun g => valueField (group_type g))).
  set (I := fun s => Warehouse.getApplication parse q s = (inr app, p')).
  assert (Hstable : forall s, I s -> I p')
    by (intros s Hs; exact (long_getApplication_stable _ _ _ _ _ Hs)).
  assert (Hvalue : forall s type, I s ->
            Warehouse.getValueField parse q type s = (inr (valueField type), p')).
  { intros s type Hs.
    rewrite (long_getValueField_resolved parse p s p' app type H Hs).
    apply Hfield. }
  assert (Hloop : exists yss s',
             Proc.forOf
               (fun (arr : list Sql) (g : Group) =>
                  match customGroups g with
                  | None =>
                      Proc.bind (Warehouse.getValueField parse q (group_type g))
                        (fun valueField =>
                           Proc.ret (push arr
                             (valueField +++ Prisma.raw (" as " ++ DQ ++ "%")
                                +++ Prisma.raw (value g) +++ Prisma.raw DQ)))
                  | Some customGroups =>
                      if (0 <? List.length customGroups)%nat then
                        Proc.forOf
                          (fun (arr : list Sql) (cg : CustomGroup) =>
                             Proc.bind
                               (Warehouse.buildFilterQueryOperator parse compile q
                                  (group_type g) (filterOperator cg)
                                  (Some (filterValue cg)))
                               (fun predicate =>
                                  Proc.ret (push arr
                                    (predicate +++ Prisma.raw (" as " ++ DQ ++ "%")
                                       +++ Prisma.raw
                                             (value g ++ "|" ++ filterOperator cg ++ "|"
                                                ++ Js.String_of_value (filterValue cg))
                                       +++ Prisma.raw DQ))))
                          customGroups arr
                      else Proc.ret arr
                  end)
               (groups q) [] p
             = (inr ([] ++ List.concat yss)%list, s')
             /\ I s'
             /\ Forall2 (fun g ys => Forall2 R ys (Spec.groupKeys g))
                  (groups q) yss).
  { apply (forOf_appends I); [|exact H].
    intros acc g s Hg Hs. unfold Spec.groupKeys.
    destruct (customGroups g) as [entries|] eqn:Ecg.
    - assert (Hinner : exists yss s',
                 Proc.forOf
                   (fun (arr : list Sql) (cg : CustomGroup) =>
                      Proc.bind
                        (Warehouse.buildFilterQueryOperator parse compile q
                           (group_type g) (filterOperator cg) (Some (filterValue cg)))
                        (fun predicate =>
                           Proc.ret (push arr
                             (predicate +++ Prisma.raw (" as " ++ DQ ++ "%")
                                +++ Prisma.raw
                                      (value g ++ "|" ++ filterOperator cg ++ "|"
                                         ++ Js.String_of_value (filterValue cg))
                                +++ Prisma.raw DQ))))
                   entries acc s
                 = (inr (acc ++ List.concat yss)%list, s')
                 /\ I s'
                 /\ Forall2 (fun cg ys => exists y, ys = [y] /\ R y (g, Some cg))
                      entries yss).
      { apply (forOf_appends I); [|exact Hs].
        intros acc' cg s0 Hcg Hs0.
        destruct (compile_accepts g entries cg (valueField (group_type g))
                    Hg Ecg Hcg) as (predicate & Ec).
        eexists [_], p'. split; [|split].
        - unfold Warehouse.buildFilterQueryOperator, Proc.bind, Proc.lift, Proc.ret.
          rewrite (Hvalue s0 (group_type g) Hs0), Ec. reflexivity.
        - exact (Hstable _ Hs0).
        - eexists. split; [reflexivity|].
          exists predicate. split; [exact Ec|]. apply aliased_intro. }
      destruct Hinner as (yss & s' & E & Is' & F).
      destruct entries as [|cg entries].
      + exists [], s. cbn. rewrite app_nil_r. repeat split; [exact Hs | constructor].
      + exists (List.concat yss), s'. cbn [List.length Nat.ltb Nat.leb].
        rewrite E. repeat split; [exact Is'|].
        exact (Forall2_concat_singletons _ _ _ _ F).
    - eexists [_], p'. split; [|split].
      + unfold Proc.bind, Proc.ret.
        rewrite (Hvalue s (group_type g) Hs). reflexivity.
      + exact (Hstable _ Hs).
      + constructor; [apply aliased_intro | constructor]. }
  destruct Hloop as (yss & s' & E & _ & F).
  unfold Warehouse.buildGroupSelectQueryArr.
  destruct (groups q) as [|g gs] eqn:Eg.
  - exists [], p. split; [reflexivity | constructor].
  - exists (List.concat yss), s'. cbn [List.length Nat.ltb Nat.leb].
    split; [exact E|]. apply Forall2_concat_flat_map. exact F.
Qed.

Lemma wide_buildGroupSelectQueryArr p :
  exists items,
    WideTable.buildGroupSelectQueryArr compile q p = (inr items, p)
    /\ Forall2 (Spec.derivedColumn compile
                  (fun g => Prisma.raw (value g))
                  (fun g => Spec.column (value g)))
         items (flat_map Spec.groupKeys (groups q)).
Proof.
  set (R := Spec.derivedColumn compile
              (fun g => Prisma.raw (value g))
              (fun g => Spec.column (value g))).
  set (I := fun s : WideTable.Process => s = p).
  assert (Hloop : exists yss s',
             Proc.forOf
               (fun (arr : list Sql) (g : Group) =>
                  match customGroups g with
                  | None =>
                      Proc.ret (push arr
                        (Prisma.raw (value g)
                           +++ Prisma.raw (" as " ++ DQ ++ "%")
                           +++ Prisma.raw (value g) +++ Prisma.raw DQ))
                  | Some customGroups =>
                      if (0 <? List.length customGroups)%nat then
                        Proc.forOf
                          (fun (arr : list Sql) (cg : CustomGroup) =>
                             Proc.bind
                               (Proc.lift
                                  (compile (group_type g) (filterOperator cg)
                                     (Some (filterValue cg))
                                     (Prisma.raw DQ +++ Prisma.raw (value g)
                                        +++ Prisma.raw DQ)))
                               (fun predicate =>
                                  Proc.ret (push arr
                                    (predicate +++ Prisma.raw (" as " ++ DQ ++ "%")
                                       +++ Prisma.raw
                                             (value g ++ "|" ++ filterOperator cg ++ "|"
                                                ++ Js.String_of_value (filterValue cg))
                                       +++ Prisma.raw DQ))))
                          customGroups arr
                      else Proc.ret arr
                  end)
               (groups q) [] p
             = (inr ([] ++ List.concat yss)%list, s')
             /\ I s'
             /\ Forall2 (fun g ys => Forall2 R ys (Spec.groupKeys g))
                  (groups q) yss).
  { apply (forOf_appends I); [|reflexivity].
    intros acc g s Hg Hs. unfold Spec.groupKeys.
    destruct (customGroups g) as [entries|] eqn:Ecg.
    - assert (Hinner : exists yss s',
                 Proc.forOf
                   (fun (arr : list Sql) (cg : CustomGroup) =>
                      Proc.bind
                        (Proc.lift
                           (compile (group_type g) (filterOperator cg)
                              (Some (filterValue cg))
                              (Prisma.raw DQ +++ Prisma.raw (value g)
                                 +++ Prisma.raw DQ)))
                        (fun predicate =>
                           Proc.ret (push arr
                             (predicate +++ Prisma.raw (" as " ++ DQ ++ "%")
                                +++ Prisma.raw
                                      (value g ++ "|" ++ filterOperator cg ++ "|"
                                         ++ Js.String_of_value (filterValue cg))
                                +++ Prisma.raw DQ))))
                   entries acc s
                 = (inr (acc ++ List.concat yss)%list, s')
                 /\ I s'
                 /\ Forall2 (fun cg ys => exists y, ys = [y] /\ R y (g, Some cg))
                      entries yss).
      { apply (forOf_appends I); [|exact Hs].
        intros acc' cg s0 Hcg Hs0.
        destruct (compile_accepts g entries cg (Spec.column (value g))
                    Hg Ecg Hcg) as (predicate & Ec).
        eexists [_], s0. split; [|split].
        - unfold Proc.bind, Proc.lift, Proc.ret.
          change (Prisma.raw DQ +++ Prisma.raw (value g) +++ Prisma.raw DQ)
            with (Spec.column (value g)).
          rewrite Ec. reflexivity.
        - exact Hs0.
        - eexists. split; [reflexivity|].
          exists predicate. split; [exact Ec|]. apply aliased_intro. }
      destruct Hinner as (yss & s' & E & Is' & F).
      destruct entries as [|cg entries].
      + exists [], s. cbn. rewrite app_nil_r. repeat split; [exact Hs | constructor].
      + exists (List.concat yss), s'. cbn [List.length Nat.ltb Nat.leb].
        rewrite E. repeat split; [exact Is'|].
        exact (Forall2_concat_singletons _ _ _ _ F).
    - eexists [_], s. split; [|split].
      + reflexivity.
      + exact Hs.
      + constructor; [apply aliased_intro | constructor]. }
  destruct Hloop as (yss & s' & E & Is' & F). unfold I in Is'. subst s'.
  unfold WideTable.buildGroupSelectQueryArr.
  destruct (groups q) as [|g gs] eqn:Eg.
  - exists []. split; [reflexivity | constructor].
  - exists (List.concat yss). cbn [List.length Nat.ltb Nat.leb].
    split; [exact E|]. apply Forall2_concat_flat_map. exact F.
Qed.
End GroupColumns.

(** C5.  Whenever the filter operator compiler accepts the customGroups
    entries of the query, both builders return one select item per group
    without customGroups and one per customGroups entry, in the order of the
    groups and of their entries.  The item of a group without customGroups
    is the group's expression (the value column of the group's type in the
    long-table builder, the group value in the wide-table builder) aliased
    [%] followed by the group value; the item of a customGroups entry is the
    predicate the compiler makes of the entry's operator and filter value on
    the group's column, aliased [%] followed by group value, operator and
    filter value joined by [|].  Every alias starts with [%]. *)
Theorem group_columns_are_aliased_by_convention :
  forall compile (q : Schema.Query),
    (forall g entries cg column,
        In g (Schema.groups q) -> Schema.customGroups g = Some entries ->
        In cg entries ->
        exists predicate,
          compile (Schema.group_type g) (Schema.filterOperator cg)
            (Some (Schema.filterValue cg)) column = inr predicate) ->
    let keys := flat_map Spec.groupKeys (Schema.groups q) in
    (forall parse p p' app valueField,
        Warehouse.getApplication parse q p = (inr app, p') ->
        (forall type,
            Warehouse.getValueField parse q type p = (inr (valueField type), p')) ->
        exists items p'',
          Warehouse.buildGroupSelectQueryArr parse compile q p = (inr items, p'')
          /\ Forall2 (Spec.derivedColumn compile
                        (fun g => valueField (Schema.group_type g))
                        (fun g => valueField (Schema.group_type g)))
               items keys)
    /\ (forall p,
        exists items,
          WideTable.buildGroupSelectQueryArr compile q p = (inr items, p)
          /\ Forall2 (Spec.derivedColumn compile
                        (fun g => Prisma.raw (Schema.value g))
                        (fun g => Spec.column (Schema.value g)))
               items keys)
    /\ Forall (fun key => Spec.startsWith "%" (Spec.keyAlias key)) keys.
Proof.
  intros compile q Hacc keys. split; [|split].
  - intros parse p p' app valueField H Hfield.
    exact (long_buildGroupSelectQueryArr compile q Hacc parse p p' app valueField
             H Hfield).
  - intros p. exact (wide_buildGroupSelectQueryArr compile q Hacc p).
  - apply keyAliases_prefixed.
Qed.

Lemma group_columns_are_aliased_by_convention_witness :
  exists items,
    WideTable.buildGroupSelectQueryArr Fixture.compiler
      (Fixture.query "orders" [Fixture.allEvents] Fixture.twoDays
         Fixture.byCountryAndAmount)
      (Fixture.fresh Fixture.wideConfig)
    = (inr items, Fixture.fresh Fixture.wideConfig)
    /\ Forall2 (Spec.derivedColumn Fixture.compiler
                  (fun g => Prisma.raw (Schema.value g))
                  (fun g => Spec.column (Schema.value g)))
         items
         (flat_map Spec.groupKeys Fixture.byCountryAndAmount).
Proof.
  refine (proj1 (proj2 (group_columns_are_aliased_by_convention Fixture.compiler
            (Fixture.query "orders" [Fixture.allEvents] Fixture.twoDays
               Fixture.byCountryAndAmount) _))
            (Fixture.fresh Fixture.wideConfig)).
  intros g entries cg column Hg Hentries Hcg.
  destruct Hg as [<-|[<-|[]]]; [discriminate|].
  injection Hentries as <-.
  destruct Hcg as [<-|[<-|[]]]; eexists; reflexivity.
Defined.

(** The select list of the fixture, written out. *)
Example group_columns_of_the_fixture :
  WideTable.buildGroupSelectQueryArr Fixture.compiler
    (Fixture.query "orders" [Fixture.allEvents] Fixture.twoDays
       Fixture.byCountryAndAmount)
    (Fixture.fresh Fixture.wideConfig)
  = (inr [Prisma.mkSql ("country as " ++ Spec.quoted "%country") [];
          Prisma.mkSql (Spec.quoted "amount" ++ " = ? as "
                          ++ Spec.quoted "%amount|equals|10")
            [Js.Num (Js.integer 10)];
          Prisma.mkSql (Spec.quoted "amount" ++ " = ? as "
                          ++ Spec.quoted "%amount|equals|20")
            [Js.Num (Js.integer 20)]],
     Fixture.fresh Fixture.wideConfig)
  /\ Warehouse.buildGroupSelectQueryArr Fixture.parseLong Fixture.compiler
       (Fixture.query "test" [Fixture.allEvents] Fixture.twoDays
          [Schema.mkGroup "price" "number"
             (Some [Schema.mkCustomGroup "equals"
                      (Js.Num (Js.Decimal false 15 1));
                    Schema.mkCustomGroup "equals"
                      (Js.Num (Js.Decimal false 1 22))])])
       (Fixture.fresh Fixture.longConfig)
     = (inr [Prisma.mkSql
               (Spec.qualified "event_parameters" "event_param_value"
                  ++ " = ? as " ++ Spec.quoted "%price|equals|1.5")
               [Js.Num (Js.Decimal false 15 1)];
             Prisma.mkSql
               (Spec.qualified "event_parameters" "event_param_value"
                  ++ " = ? as " ++ Spec.quoted "%price|equals|1e+21")
               [Js.Num (Js.Decimal false 1 22)]],
        Fixture.longParsed).
Proof. split; reflexivity. Qed.

(* ===================================================================== *)
(** * Delimiters in group values *)
(* ===================================================================== *)

(** C6 (as amended).  Neither builder escapes or refuses a character of a
    group value or of a customGroups filter value: whenever the filter
    operator compiler accepts the customGroups entries of a query, the
    builder returns a column for every group and every entry, whose alias is
    [%] followed by the group value, or by group value, operator and filter
    value joined by [|], as they are.  Two columns, of one statement or of
    two, that stand for customGroups entries and carry the same alias come
    from entries with the same group value, operator and filter-value text,
    provided the group values and operators hold no [|]. *)
Theorem group_alias_is_verbatim_and_unambiguous_without_delimiter :
  forall compile (q q' : Schema.Query),
    (forall g entries cg column,
        In g (Schema.groups q) -> Schema.customGroups g = Some entries ->
        In cg entries ->
        exists predicate,
          compile (Schema.group_type g) (Schema.filterOperator cg)
            (Some (Schema.filterValue cg)) column = inr predicate) ->
    (forall g entries cg column,
        In g (Schema.groups q') -> Schema.customGroups g = Some entries ->
        In cg entries ->
        exists predicate,
          compile (Schema.group_type g) (Schema.filterOperator cg)
            (Some (Schema.filterValue cg)) column = inr predicate) ->
    let keys := flat_map Spec.groupKeys (Schema.groups q) in
    let keys' := flat_map Spec.groupKeys (Schema.groups q') in
    (* the long-table builder *)
    (forall parse p p1 app valueField parse' p' p1' app' valueField',
        Warehouse.getApplication parse q p = (inr app, p1) ->
        (forall type,
            Warehouse.getValueField parse q type p = (inr (valueField type), p1)) ->
        Warehouse.getApplication parse' q' p' = (inr app', p1') ->
        (forall type,
            Warehouse.getValueField parse' q' type p'
            = (inr (valueField' type), p1')) ->
        exists items s items' s',
          Warehouse.buildGroupSelectQueryArr parse compile q p = (inr items, s)
          /\ Warehouse.buildGroupSelectQueryArr parse' compile q' p'
             = (inr items', s')
          /\ Forall2 (fun item key =>
                        exists expression,
                          item = Spec.aliased expression (Spec.keyAlias key))
               items keys
          /\ Spec.unambiguous compile
               (fun g => valueField (Schema.group_type g))
               (fun g => valueField' (Schema.group_type g))
               items keys items' keys')
    (* the wide-table builder *)
    /\ (forall p p',
        exists items items',
          WideTable.buildGroupSelectQueryArr compile q p = (inr items, p)
          /\ WideTable.buildGroupSelectQueryArr compile q' p' = (inr items', p')
          /\ Forall2 (fun item key =>
                        exists expression,
                          item = Spec.aliased expression (Spec.keyAlias key))
               items keys
          /\ Spec.unambiguous compile
               (fun g => Spec.column (Schema.value g))
               (fun g => Spec.column (Schema.value g))
               items keys items' keys').
Proof.
  intros compile q q' Hacc Hacc' keys keys'.
  assert (Hverbatim : forall plain operand items,
             Forall2 (Spec.derivedColumn compile plain operand) items keys ->
             Forall2 (fun item key =>
                        exists expression,
                          item = Spec.aliased expression (Spec.keyAlias key))
               items keys).
  { intros plain operand items F. revert F. apply Forall2_impl.
    intros item [g [cg|]] D.
    - destruct D as (predicate & _ & ->). eexists. reflexivity.
    - eexists. exact D. }
  split.
  - intros parse p p1 app valueField parse' p' p1' app' valueField'
      H Hfield H' Hfield'.
    destruct (long_buildGroupSelectQueryArr compile q Hacc parse p p1 app valueField
                H Hfield) as (items & s & E & F).
    destruct (long_buildGroupSelectQueryArr compile q' Hacc' parse' p' p1' app'
                valueField' H' Hfield') as (items' & s' & E' & F').
    exists items, s, items', s'. split; [exact E|]. split; [exact E'|]. split.
    + exact (Hverbatim _ _ _ F).
    + exact (derivedColumns_unambiguous _ _ _ _ _ _ _ _ _ F F').
  - intros p p'.
    destruct (wide_buildGroupSelectQueryArr compile q Hacc p) as (items & E & F).
    destruct (wide_buildGroupSelectQueryArr compile q' Hacc' p')
      as (items' & E' & F').
    exists items, items'. split; [exact E|]. split; [exact E'|]. split.
    + exact (Hverbatim _ _ _ F).
    + exact (derivedColumns_unambiguous _ _ _ _ _ _ _ _ _ F F').
Qed.

Lemma group_alias_is_verbatim_and_unambiguous_without_delimiter_witness :
  exists items items',
    WideTable.buildGroupSelectQueryArr Fixture.compiler
      (Fixture.query "orders" [Fixture.allEvents] Fixture.twoDays
         [Schema.mkGroup "a|b%c" "string" None;
          Schema.mkGroup "plan" "string"
            (Some [Schema.mkCustomGroup "equals" (Js.Str "pro|2025%")])])
      (Fixture.fresh Fixture.wideConfig)
    = (inr items, Fixture.fresh Fixture.wideConfig)
    /\ WideTable.buildGroupSelectQueryArr Fixture.compiler
         (Fixture.query "orders" [Fixture.allEvents] Fixture.twoDays
            Fixture.byCountryAndAmount)
         (Fixture.fresh Fixture.wideConfig)
       = (inr items', Fixture.fresh Fixture.wideConfig)
    /\ Forall2 (fun item key =>
                  exists expression,
                    item = Spec.aliased expression (Spec.keyAlias key))
         items
         [(Schema.mkGroup "a|b%c" "string" None, None);
          (Schema.mkGroup "plan" "string"
             (Some [Schema.mkCustomGroup "equals" (Js.Str "pro|2025%")]),
           Some (Schema.mkCustomGroup "equals" (Js.Str "pro|2025%")))]
    /\ Spec.unambiguous Fixture.compiler
         (fun g => Spec.column (Schema.value g))
         (fun g => Spec.column (Schema.value g))
         items
         [(Schema.mkGroup "a|b%c" "string" None, None);
          (Schema.mkGroup "plan" "string"
             (Some [Schema.mkCustomGroup "equals" (Js.Str "pro|2025%")]),
           Some (Schema.mkCustomGroup "equals" (Js.Str "pro|2025%")))]
         items'
         (flat_map Spec.groupKeys Fixture.byCountryAndAmount).
Proof.
  refine (proj2 (group_alias_is_verbatim_and_unambiguous_without_delimiter
                   Fixture.compiler
                   (Fixture.query "orders" [Fixture.allEvents] Fixture.twoDays
                      [Schema.mkGroup "a|b%c" "string" None;
                       Schema.mkGroup "plan" "string"
                         (Some [Schema.mkCustomGroup "equals"
                                  (Js.Str "pro|2025%")])])
                   (Fixture.query "orders" [Fixture.allEvents] Fixture.twoDays
                      Fixture.byCountryAndAmount) _ _)
            (Fixture.fresh Fixture.wideConfig) (Fixture.fresh Fixture.wideConfig)).
  - intros g entries cg column Hg Hentries Hcg.
    destruct Hg as [<-|[<-|[]]]; [discriminate|].
    injection Hentries as <-.
    destruct Hcg as [<-|[]]. eexists. reflexivity.
  - intros g entries cg column Hg Hentries Hcg.
    destruct Hg as [<-|[<-|[]]]; [discriminate|].
    injection Hentries as <-.
    destruct Hcg as [<-|[<-|[]]]; eexists; reflexivity.
Defined.

(** C6 (as stated) fails: a group value and a filter value that hold [|] are
    accepted and written into the alias as they are, so two different
    customGroups entries receive the same alias. *)
Lemma delimiter_in_group_value_is_neither_escaped_nor_refused :
  WideTable.buildGroupSelectQueryArr Fixture.compiler
    (Fixture.query "orders" [Fixture.allEvents] Fixture.twoDays
       [Schema.mkGroup "plan|equals|pro" "string"
          (Some [Schema.mkCustomGroup "equals" (Js.Str "2025")])])
    (Fixture.fresh Fixture.wideConfig)
  = (inr [Prisma.mkSql
            (Spec.quoted "plan|equals|pro" ++ " = ? as "
               ++ Spec.quoted "%plan|equals|pro|equals|2025")
            [Js.Str "2025"]],
     Fixture.fresh Fixture.wideConfig)
  /\ WideTable.buildGroupSelectQueryArr Fixture.compiler
       (Fixture.query "orders" [Fixture.allEvents] Fixture.twoDays
          [Schema.mkGroup "plan" "string"
             (Some [Schema.mkCustomGroup "equals" (Js.Str "pro|equals|2025")])])
       (Fixture.fresh Fixture.wideConfig)
     = (inr [Prisma.mkSql
               (Spec.quoted "plan" ++ " = ? as "
                  ++ Spec.quoted "%plan|equals|pro|equals|2025")
               [Js.Str "pro|equals|2025"]],
        Fixture.fresh Fixture.wideConfig).
Proof. split; reflexivity. Qed.

(* ===================================================================== *)
(** * The query of the test suite *)
(* ===================================================================== *)

Example numbers_as_strings :
  Js.String_of_Z 1754006400000 = "1754006400000"
  /\ Js.String_of_Z (- 86400000) = "-86400000"
  /\ Js.String_of_Z (10 ^ 20) = "100000000000000000000"
  /\ Js.String_of_Z (10 ^ 21) = "1e+21"
  /\ Js.Number_toString (Js.Decimal false 15 1) = "1.5"
  /\ Js.Number_toString (Js.Decimal true 25 0) = "-0.25"
  /\ Js.Number_toString (Js.Decimal false 1 (-6)) = "1e-7"
  /\ Js.Number_toString (Js.Decimal false 123 22) = "1.23e+21"
  /\ Js.String_of_value (Js.Nums [Js.integer 1; Js.Decimal false 5 0; Js.NaN])
     = "1,0.5,NaN".
Proof. repeat split. Qed.

Example dayjs_formats :
  Dayjs.format_YYYY_MM_DD_HH_mm_ss (Dayjs.dayjs Fixture.utcServer Fixture.aug1)
  = "2025-08-01 00:00:00"
  /\ Dayjs.format_YYYY_MM_DD
       (Dayjs.endOf_day (Dayjs.dayjs (fun _ => 480) Fixture.aug1))
     = "2025-08-01"
  /\ Dayjs.format_YYYY_MM_DD_HH_mm_ss (Dayjs.dayjs Fixture.utcServer 951786123000)
     = "2000-02-29 01:02:03"
  /\ Dayjs.diff_day Fixture.utcServer (Dayjs.dayjs Fixture.utcServer Fixture.aug2)
       Fixture.aug1 = 1
  /\ Dayjs.diff_day Fixture.utcServer
       (Dayjs.dayjs Fixture.utcServer (Fixture.aug2 - 1)) Fixture.aug1 = 0.
Proof. repeat split. Qed.

Example test_suite_select :
  Warehouse.buildSelectQueryArr Fixture.parseLong Fixture.testQuery
    (Fixture.fresh Fixture.longConfig)
  = (inr [Some (Prisma.mkSql ("count(1) as " ++ Spec.quoted "$all_event") [])],
     Fixture.longParsed).
Proof. reflexivity. Qed.

Example test_suite_where :
  Warehouse.buildWhereQueryArr Fixture.parseLong Fixture.utcServer Fixture.testQuery
    (Fixture.fresh Fixture.longConfig)
  = (inr [Spec.between (Spec.qualified "events" "event_date")
            ("2025-08-01", "2025-08-02");
          Prisma.mkSql "(1 = 1)" []],
     Fixture.longParsed).
Proof. reflexivity. Qed.

Example empty_metrics_where :
  Warehouse.buildWhereQueryArr Fixture.parseLong Fixture.utcServer
    (Fixture.query "test" [] Fixture.twoDays [])
    (Fixture.fresh Fixture.longConfig)
  = (inl (Js.TypeError
            "Expected `join([])` to be called with an array of multiple elements, but got an empty array"),
     Fixture.longParsed).
Proof. reflexivity. Qed.

Example unknown_application :
  Warehouse.getApplication Fixture.parseLong
    (Fixture.query "missing" [] Fixture.twoDays [])
    (Fixture.fresh Fixture.longConfig)
  = (inl (Js.Error "Application missing not found"), Fixture.longParsed)
  /\ WideTable.getApplication Fixture.parseWide
       (Fixture.query "test" [] Fixture.twoDays [])
       (Fixture.fresh Fixture.wideConfig)
     = (inl (Js.Error "Application test not found"), Fixture.wideParsed).
Proof. split; reflexivity. Qed.

(* ===================================================================== *)
(** * Resolution failures *)
(* ===================================================================== *)

(** X1.  Whatever makes the long-table builder fail to resolve its
    application (a configuration that does not parse, an unknown name), the
    same exception is what the table name, the optimisation test, the range
    predicate, the bucket expressions, the select list, the WHERE list and
    the value column throw, in the state the resolution left. *)
Theorem long_resolution_failure_stops_every_builder_method :
  forall parse localOffset (q : Schema.Query) type p p' e,
    Warehouse.getApplication parse q p = (inl e, p') ->
    Warehouse.getTableName parse q p = (inl e, p')
    /\ Warehouse.enableDateBasedOptimizedEventTable parse localOffset q p = (inl e, p')
    /\ Warehouse.buildOptimizedDateRangeQuery parse localOffset q p = (inl e, p')
    /\ Warehouse.buildDateQuerySql parse localOffset q p = (inl e, p')
    /\ Warehouse.getOptimizedDateQuery parse localOffset q p = (inl e, p')
    /\ Warehouse.buildSelectQueryArr parse q p = (inl e, p')
    /\ Warehouse.buildWhereQueryArr parse localOffset q p = (inl e, p')
    /\ Warehouse.getValueField parse q type p = (inl e, p').
Proof.
  intros parse localOffset q type p p' e H.
  unfold Warehouse.getTableName, Warehouse.enableDateBasedOptimizedEventTable,
    Warehouse.buildOptimizedDateRangeQuery, Warehouse.buildDateQuerySql,
    Warehouse.buildOptimizedDateQuerySql, Warehouse.getOptimizedDateQuery,
    Warehouse.buildSelectQueryArr, Warehouse.buildWhereQueryArr,
    Warehouse.getValueField, Warehouse.getEventTable,
    Warehouse.getEventParametersTable, Proc.bind.
  rewrite H. repeat split.
Qed.

Lemma long_resolution_failure_stops_every_builder_method_witness :
  Warehouse.buildWhereQueryArr Fixture.parseLong Fixture.utcServer
    Fixture.testQuery (Fixture.fresh "{")
  = (inl (Js.ParseError "{"), Registry.mkProcess (Some "{") None 1).
Proof.
  exact (proj1 (proj2 (proj2 (proj2 (proj2 (proj2 (proj2
           (long_resolution_failure_stops_every_builder_method
              Fixture.parseLong Fixture.utcServer Fixture.testQuery "string"
              (Fixture.fresh "{") (Registry.mkProcess (Some "{") None 1)
              (Js.ParseError "{") eq_refl)))))))).
Defined.

(** X2.  The same for the wide-table builder: a failed resolution is what
    the table name, the optimisation test, the range predicate, the bucket
    expression, the select list and the WHERE list throw. *)
Theorem wide_resolution_failure_stops_every_builder_method :
  forall parse localOffset compile (q : Schema.Query) p p' e,
    WideTable.getApplication parse q p = (inl e, p') ->
    WideTable.getTableName parse q p = (inl e, p')
    /\ WideTable.enableDateBasedOptimizedEventTable parse localOffset q p = (inl e, p')
    /\ WideTable.buildOptimizedDateRangeQuery parse localOffset q p = (inl e, p')
    /\ WideTable.buildDateQuerySql parse localOffset q p = (inl e, p')
    /\ WideTable.buildSelectQueryArr parse q p = (inl e, p')
    /\ WideTable.buildWhereQueryArr parse localOffset compile q p = (inl e, p').
Proof.
  intros parse localOffset compile q p p' e H.
  unfold WideTable.getTableName, WideTable.enableDateBasedOptimizedEventTable,
    WideTable.buildWhereQueryArr, WideTable.buildOptimizedDateRangeQuery,
    WideTable.buildDateQuerySql, WideTable.buildOptimizedDateQuerySql,
    WideTable.buildSelectQueryArr, Proc.bind.
  rewrite H. repeat split.
Qed.

Lemma wide_resolution_failure_stops_every_builder_method_witness :
  WideTable.buildSelectQueryArr Fixture.parseWide
    (Fixture.query "test" [Fixture.allEvents] Fixture.twoDays [])
    (Fixture.fresh Fixture.wideConfig)
  = (inl (Js.Error "Application test not found"), Fixture.wideParsed).
Proof.
  exact (proj1 (proj2 (proj2 (proj2 (proj2
           (wide_resolution_failure_stops_every_builder_method
              Fixture.parseWide Fixture.utcServer Fixture.compiler
              (Fixture.query "test" [Fixture.allEvents] Fixture.twoDays [])
              (Fixture.fresh Fixture.wideConfig) Fixture.wideParsed
              (Js.Error "Application test not found") eq_refl)))))).
Defined.

Lemma find_wideTable_none name apps :
  (forall app, In (WideTable.WideTable app) apps -> WideTable.name app <> name) ->
  WideTable.find_wideTable name apps = None.
Proof.
  intros Hno. unfold WideTable.find_wideTable.
  destruct (find _ apps) as [[n e t|a]|] eqn:F; try reflexivity.
  apply find_some in F. destruct F as [Hin Hp].
  apply andb_prop in Hp. destruct Hp as [Hn _]. apply String.eqb_eq in Hn.
  now destruct (Hno a Hin).
Qed.

(** X3.  Once the configuration is read, an insight that names no configured
    application makes the long-table lookup throw [Application <id> not
    found]; the wide-table lookup throws it as soon as no wide-table
    application carries the name, whatever long-table applications do. *)
Theorem unknown_application_is_reported_by_name :
  forall (q : Schema.Query),
    (forall parse p p' apps,
        Warehouse.getWarehouseApplications parse p = (inr apps, p') ->
        (forall app, In app apps -> Warehouse.name app <> Schema.insightId q) ->
        Warehouse.getApplication parse q p
        = (inl (Js.Error ("Application " ++ Schema.insightId q ++ " not found")), p'))
    /\ (forall parse p p' apps,
        WideTable.getWarehouseApplications parse p = (inr apps, p') ->
        (forall app, In (WideTable.WideTable app) apps ->
                     WideTable.name app <> Schema.insightId q) ->
        WideTable.getApplication parse q p
        = (inl (Js.Error ("Application " ++ Schema.insightId q ++ " not found")), p')).
Proof.
  intros q. split; intros parse p p' apps H Hno.
  - unfold Warehouse.getApplication, Proc.bind. rewrite H.
    destruct (find _ apps) as [found|] eqn:F; [|reflexivity].
    apply find_some in F. destruct F as [Hin Hn]. apply String.eqb_eq in Hn.
    now destruct (Hno found Hin).
  - unfold WideTable.getApplication, Proc.bind. rewrite H.
    now rewrite (find_wideTable_none _ _ Hno).
Qed.

Lemma unknown_application_is_reported_by_name_witness :
  WideTable.getApplication Fixture.parseWide
    (Fixture.query "test" [] Fixture.twoDays [])
    (Fixture.fresh Fixture.wideConfig)
  = (inl (Js.Error "Application test not found"), Fixture.wideParsed).
Proof.
  refine (proj2 (unknown_application_is_reported_by_name
                   (Fixture.query "test" [] Fixture.twoDays []))
            Fixture.parseWide (Fixture.fresh Fixture.wideConfig) Fixture.wideParsed
            _ eq_refl _).
  intros app [H|[H|[]]]; [discriminate H|].
  injection H as <-. discriminate.
Defined.

Lemma find_wideTable_first name before app after :
  WideTable.name app = name ->
  (forall other, In (WideTable.WideTable other) before ->
                 WideTable.name other <> name) ->
  WideTable.find_wideTable name (before ++ WideTable.WideTable app :: after)%list
  = Some app.
Proof.
  intros Hname. unfold WideTable.find_wideTable.
  induction before as [|[n e t|a] before IH]; intros Hno; cbn.
  - rewrite Hname, String.eqb_refl. reflexivity.
  - rewrite andb_false_r. apply IH. intros other Hin. apply Hno. now right.
  - rewrite andb_true_r.
    destruct (String.eqb_spec (WideTable.name a) name) as [E|_].
    + now destruct (Hno a (or_introl eq_refl)).
    + apply IH. intros other Hin. apply Hno. now right.
Qed.

(** X4.  The wide-table lookup returns the first configured wide-table
    application that carries the requested name: applications before it that
    are long-table ones, or are named otherwise, are passed over. *)
Theorem wide_getApplication_returns_first_wide_match :
  forall parse (q : Schema.Query) p p' before app after,
    WideTable.getWarehouseApplications parse p
    = (inr (before ++ WideTable.WideTable app :: after)%list, p') ->
    WideTable.name app = Schema.insightId q ->
    (forall other, In (WideTable.WideTable other) before ->
                   WideTable.name other <> Schema.insightId q) ->
    WideTable.getApplication parse q p = (inr app, p').
Proof.
  intros parse q p p' before app after H Hname Hno.
  unfold WideTable.getApplication, Proc.bind. rewrite H.
  now rewrite (find_wideTable_first _ _ _ _ Hname Hno).
Qed.

Lemma wide_getApplication_returns_first_wide_match_witness :
  WideTable.getApplication
    (Fixture.parser Fixture.wideConfig
       [WideTable.LongTable "orders" Fixture.events Fixture.event_parameters;
        WideTable.WideTable Fixture.orders])
    Fixture.ordersQuery (Fixture.fresh Fixture.wideConfig)
  = (inr Fixture.orders,
     Registry.mkProcess (Some Fixture.wideConfig)
       (Some [WideTable.LongTable "orders" Fixture.events Fixture.event_parameters;
              WideTable.WideTable Fixture.orders]) 1).
Proof.
  refine (wide_getApplication_returns_first_wide_match
            (Fixture.parser Fixture.wideConfig
               [WideTable.LongTable "orders" Fixture.events Fixture.event_parameters;
                WideTable.WideTable Fixture.orders])
            Fixture.ordersQuery (Fixture.fresh Fixture.wideConfig)
            (Registry.mkProcess (Some Fixture.wideConfig)
               (Some [WideTable.LongTable "orders" Fixture.events
                        Fixture.event_parameters;
                      WideTable.WideTable Fixture.orders]) 1)
            [WideTable.LongTable "orders" Fixture.events Fixture.event_parameters]
            Fixture.orders [] eq_refl eq_refl _).
  intros other [H|[]]. discriminate H.
Defined.

(* ===================================================================== *)
(** * The bucket expression *)
(* ===================================================================== *)

(** X5.  [getDateQuery] refuses a unit that is no key of the format table
    and otherwise returns a statement whose text does not depend on the
    timezone: the timezone is its one bound value, in both builders and for
    every storage encoding. *)
Theorem getDateQuery_binds_the_timezone :
  forall field unit encoding,
    (Js.has unit Warehouse.MYSQL_DATE_FORMATS = false ->
     forall timezone,
       Warehouse.getDateQuery field unit timezone encoding
       = inl (Js.Error ("Invalid date unit: " ++ unit))
       /\ WideTable.getDateQuery field unit timezone encoding
          = inl (Js.Error ("Invalid date unit: " ++ unit)))
    /\ (Js.has unit Warehouse.MYSQL_DATE_FORMATS = true ->
        exists text,
        forall timezone,
          Warehouse.getDateQuery field unit timezone encoding
          = inr (Prisma.mkSql text [Js.Str timezone])
          /\ WideTable.getDateQuery field unit timezone encoding
             = inr (Prisma.mkSql text [Js.Str timezone])).
Proof.
  intros field unit encoding. split; intros H.
  - intros timezone. split.
    + now apply long_getDateQuery_unknown_unit.
    + now apply wide_getDateQuery_unknown_unit.
  - exists (Prisma.sql
              (match Warehouse.getDateQuery field unit "" encoding with
               | inr sql => sql
               | inl _ => Prisma.empty
               end)).
    intros timezone.
    assert (E : Warehouse.getDateQuery field unit timezone encoding
                = inr (Prisma.mkSql
                         (Prisma.sql
                            (match Warehouse.getDateQuery field unit "" encoding with
                             | inr sql => sql
                             | inl _ => Prisma.empty
                             end)) [Js.Str timezone])).
    { unfold Warehouse.getDateQuery. rewrite H. cbn [negb].
      destruct encoding as [t|]; [|reflexivity].
      destruct (t =? "timestamp")%string, (t =? "timestampMs")%string,
        (t =? "date")%string, (t =? "datetime")%string; reflexivity. }
    split; exact E.
Qed.

Lemma getDateQuery_binds_the_timezone_witness :
  exists text,
  forall timezone,
    Warehouse.getDateQuery "created" "month" timezone (Some "timestamp")
    = inr (Prisma.mkSql text [Js.Str timezone])
    /\ WideTable.getDateQuery "created" "month" timezone (Some "timestamp")
       = inr (Prisma.mkSql text [Js.Str timezone]).
Proof.
  exact (proj2 (getDateQuery_binds_the_timezone "created" "month" (Some "timestamp"))
           eq_refl).
Defined.

(** X6.  [getOptimizedDateQuery] is [getDateQuery] on the column and the
    encoding the optimisation test selects: the date-based column read as a
    [date] when the test holds, the raw created-at column with its declared
    encoding otherwise.  When the test fails, the bucket the builder uses
    ([buildDateQuerySql]) is that same expression aliased [date]. *)
Theorem getOptimizedDateQuery_is_getDateQuery_on_the_selected_column :
  forall parse localOffset (q : Schema.Query) p p' app,
    Warehouse.getApplication parse q p = (inr app, p') ->
    let table := Warehouse.eventTable app in
    let unit := Schema.unit (Schema.time q) in
    let timezone := Js.nullish (Schema.timezone (Schema.time q)) "UTC" in
    let engaged :=
      Js.truthy (Warehouse.et_dateBasedCreatedAtField table)
      && (1 <=? Dayjs.diff_day localOffset
                  (Dayjs.dayjs localOffset (Schema.endAt (Schema.time q)))
                  (Schema.startAt (Schema.time q))) in
    Warehouse.getOptimizedDateQuery parse localOffset q p
    = (if engaged then
         Warehouse.getDateQuery
           (Spec.qualified (Warehouse.et_name table)
              (Js.nullish (Warehouse.et_dateBasedCreatedAtField table)
                 (Warehouse.et_createdAtField table)))
           unit timezone (Some "date")
       else
         Warehouse.getDateQuery
           (Spec.qualified (Warehouse.et_name table)
              (Warehouse.et_createdAtField table))
           unit timezone (Some (Warehouse.et_createdAtFieldType table)),
       p')
    /\ (engaged = false ->
        Warehouse.buildDateQuerySql parse localOffset q p
        = (match fst (Warehouse.getOptimizedDateQuery parse localOffset q p) with
           | inr dateQuery => inr (dateQuery +++ Prisma.raw " date")
           | inl e => inl e
           end, p')).
Proof.
  intros parse localOffset q p p' app H table unit timezone engaged.
  pose proof (long_getApplication_stable _ _ _ _ _ H) as H'.
  assert (G : Warehouse.getOptimizedDateQuery parse localOffset q p
              = (if engaged then
                   Warehouse.getDateQuery
                     (Spec.qualified (Warehouse.et_name table)
                        (Js.nullish (Warehouse.et_dateBasedCreatedAtField table)
                           (Warehouse.et_createdAtField table)))
                     unit timezone (Some "date")
                 else
                   Warehouse.getDateQuery
                     (Spec.qualified (Warehouse.et_name table)
                        (Warehouse.et_createdAtField table))
                     unit timezone (Some (Warehouse.et_createdAtFieldType table)),
                 p')).
  { unfold Warehouse.getOptimizedDateQuery, Proc.bind.
    rewrite (long_getEventTable _ _ _ _ _ H); cbv beta iota.
    rewrite (long_enable _ _ _ _ _ _ H'); cbv beta iota.
    fold table unit timezone engaged.
    unfold Warehouse.getDateQuery, Proc.throw, Proc.ret,
      Spec.qualified, Spec.quoted.
    rewrite !append_assoc.
    subst engaged.
    destruct (Js.truthy (Warehouse.et_dateBasedCreatedAtField table)),
      (1 <=? Dayjs.diff_day localOffset
               (Dayjs.dayjs localOffset (Schema.endAt (Schema.time q)))
               (Schema.startAt (Schema.time q)));
      cbn [andb]; destruct (negb _); reflexivity. }
  split; [exact G|].
  intros Hoff. rewrite G, Hoff. cbn [fst].
  pose proof (long_bucket parse localOffset q p p' app H) as B. cbv zeta in B.
  fold table unit timezone engaged in B. rewrite Hoff in B. exact B.
Qed.

Lemma getOptimizedDateQuery_is_getDateQuery_on_the_selected_column_witness :
  Warehouse.getOptimizedDateQuery Fixture.parseLong Fixture.utcServer
    Fixture.testQuery (Fixture.fresh Fixture.longConfig)
  = (Warehouse.getDateQuery (Spec.qualified "events" "event_date") "day" "UTC"
       (Some "date"),
     Fixture.longParsed).
Proof.
  exact (proj1 (getOptimizedDateQuery_is_getDateQuery_on_the_selected_column
                  Fixture.parseLong Fixture.utcServer Fixture.testQuery
                  (Fixture.fresh Fixture.longConfig) Fixture.longParsed
                  Fixture.test eq_refl)).
Defined.

(* ===================================================================== *)
(** * Placeholders and bound values *)
(* ===================================================================== *)

Lemma count_append (a b : string) :
  Placeholders.count (a ++ b) = (Placeholders.count a + Placeholders.count b)%nat.
Proof.
  induction a as [|c a IH]; cbn; [reflexivity|].
  destruct (Ascii.eqb c "?"); cbn; now rewrite IH.
Qed.

Lemma count_free (a : string) :
  Spec.free_of "?" a = true -> Placeholders.count a = 0%nat.
Proof.
  induction a as [|c a IH]; cbn; [reflexivity|].
  destruct (Ascii.eqb c "?"); cbn; [discriminate | exact IH].
Qed.

Lemma matched_raw (s : string) :
  Spec.free_of "?" s = true -> Placeholders.matched (Prisma.raw s).
Proof. intros H. unfold Placeholders.matched. cbn. now apply count_free. Qed.

Lemma matched_param (v : Js.value) : Placeholders.matched (Prisma.param v).
Proof. reflexivity. Qed.

Lemma matched_app (a b : Sql) :
  Placeholders.matched a -> Placeholders.matched b -> Placeholders.matched (a +++ b).
Proof.
  unfold Placeholders.matched. cbn. intros Ha Hb.
  rewrite count_append, length_app. congruence.
Qed.

Lemma matched_join_tail separator (items : list Sql) :
  Spec.free_of "?" separator = true ->
  Forall Placeholders.matched items ->
  Placeholders.matched (Prisma.join_tail separator items).
Proof.
  intros Hsep. induction 1 as [|item items Hitem _ IH]; cbn.
  - reflexivity.
  - auto using matched_app, matched_raw.
Qed.

Lemma matched_join (items : list Sql) separator prefix suffix joined :
  Spec.free_of "?" separator = true -> Spec.free_of "?" prefix = true ->
  Spec.free_of "?" suffix = true ->
  Forall Placeholders.matched items ->
  Prisma.join items separator prefix suffix = inr joined ->
  Placeholders.matched joined.
Proof.
  intros Hsep Hpre Hsuf Hall. destruct Hall as [|item items Hitem Hitems];
    cbn; [intros [=]|].
  intros [= <-].
  auto using matched_app, matched_raw, matched_join_tail.
Qed.

Lemma free_of_append c (a b : string) :
  Spec.free_of c (a ++ b) = Spec.free_of c a && Spec.free_of c b.
Proof.
  induction a as [|x a IH]; cbn; [reflexivity|].
  now rewrite IH, andb_assoc.
Qed.

(** The formats of the table hold no placeholder. *)
Lemma formats_free unit format :
  Js.own unit Warehouse.MYSQL_DATE_FORMATS = Some format ->
  Spec.free_of "?" format = true.
Proof.
  unfold Warehouse.MYSQL_DATE_FORMATS. cbn [Js.own].
  repeat (destruct (_ =? unit)%string; [intros [= <-]; reflexivity|]).
  discriminate.
Qed.

(** Discharges [matched] goals on statements assembled from raw pieces and
    parameters, and [free_of] goals on concatenations. *)
Ltac free_of_parts :=
  repeat rewrite free_of_append;
  repeat (apply andb_true_intro; split);
  first [assumption | reflexivity].

Ltac matched_parts :=
  repeat first [ apply matched_app
               | apply matched_param
               | apply matched_raw; free_of_parts ].

Section LongTablePlaceholders.
Import Schema.
Variable parse : string -> Js.exn + list Warehouse.WarehouseInsightsApplication.
Variable localOffset : Z -> Z.
Variable q : Query.
Variables p p' : Warehouse.Process.
Variable app : Warehouse.WarehouseInsightsApplication.
Hypothesis resolved : Warehouse.getApplication parse q p = (inr app, p').

Let table := Warehouse.eventTable app.

(** The configured identifiers and the metric names hold no [?]. *)
Hypothesis table_free : Spec.free_of "?" (Warehouse.et_name table) = true.
Hypothesis created_free :
  Spec.free_of "?" (Warehouse.et_createdAtField table) = true.
Hypothesis dateBased_free :
  forall column, Warehouse.et_dateBasedCreatedAtField table = Some column ->
                 Spec.free_of "?" column = true.
Hypothesis eventName_free :
  Spec.free_of "?" (Warehouse.eventNameField table) = true.
Hypothesis metrics_free :
  Forall (fun item => Spec.free_of "?" (metric_name item) = true) (metrics q).

Lemma long_range_matched :
  exists range,
    Warehouse.buildOptimizedDateRangeQuery parse localOffset q p = (inr range, p')
    /\ Placeholders.matched range.
Proof.
  pose proof (long_range parse localOffset q p p' app resolved) as R.
  cbv zeta in R. fold table in R.
  eexists. split; [exact R|].
  assert (Hcol : forall column bounds,
             Spec.free_of "?" column = true ->
             Placeholders.matched
               (Spec.between (Spec.qualified (Warehouse.et_name table) column) bounds)).
  { intros column bounds Hc. unfold Placeholders.matched, Spec.between,
      Spec.qualified, Spec.quoted. cbn [Prisma.sql Prisma.values List.length].
    rewrite count_append, count_free; [reflexivity|]. free_of_parts. }
  destruct (Js.truthy (Warehouse.et_dateBasedCreatedAtField table)) eqn:T;
    destruct (1 <=? _); cbn [andb]; try (apply Hcol; exact created_free).
  destruct (Warehouse.et_dateBasedCreatedAtField table) as [column|] eqn:E;
    [|discriminate].
  apply Hcol. cbn. now apply dateBased_free.
Qed.

Lemma long_bucket_matched bucket :
  Js.own (unit (time q)) Warehouse.MYSQL_DATE_FORMATS <> None ->
  Warehouse.buildDateQuerySql parse localOffset q p = (inr bucket, p') ->
  Placeholders.matched bucket.
Proof.
  intros Hunit.
  destruct (Js.own (unit (time q)) Warehouse.MYSQL_DATE_FORMATS) as [format|] eqn:F;
    [clear Hunit | congruence].
  pose proof (formats_free _ _ F) as Hformat.
  unfold Warehouse.buildDateQuerySql.
  rewrite (long_bucket parse localOffset q p p' app resolved).
  cbv zeta. fold table.
  destruct (Js.truthy (Warehouse.et_dateBasedCreatedAtField table) && _) eqn:En.
  - intros [= <-]. apply andb_prop in En. destruct En as [T _].
    destruct (Warehouse.et_dateBasedCreatedAtField table) as [column|] eqn:E;
      [|discriminate].
    pose proof (dateBased_free column eq_refl) as Hc.
    unfold Js.get. rewrite F. cbn [Js.String_of_prop Js.nullish].
    unfold Placeholders.matched, Spec.directBucket, Spec.qualified, Spec.quoted.
    cbn [Prisma.sql Prisma.values List.length].
    apply count_free. free_of_parts.
  - unfold Warehouse.getDateQuery, Js.has, Js.get. rewrite F.
    cbn [negb Js.String_of_prop].
    destruct (Warehouse.et_createdAtFieldType table =? "timestamp")%string,
      (Warehouse.et_createdAtFieldType table =? "timestampMs")%string,
      (Warehouse.et_createdAtFieldType table =? "date")%string,
      (Warehouse.et_createdAtFieldType table =? "datetime")%string;
      intros [= <-]; unfold Spec.qualified, Spec.quoted; matched_parts.
Qed.

Lemma long_select_matched :
  exists items,
    Warehouse.buildSelectQueryArr parse q p = (inr items, p')
    /\ Forall (fun item => match item with
                           | Some sql => Placeholders.matched sql
                           | None => True
                           end) items.
Proof.
  unfold Warehouse.buildSelectQueryArr, Proc.bind.
  rewrite (long_getEventTable _ _ _ _ _ resolved). fold table.
  eexists. split; [reflexivity|].
  apply Forall_map. revert metrics_free. apply Forall_impl. intros item Hitem.
  destruct (math item =? "events")%string; [|exact I].
  destruct (metric_name item =? "$all_event")%string; matched_parts.
Qed.

Lemma long_where_matched conditions :
  Warehouse.buildWhereQueryArr parse localOffset q p = (inr conditions, p') ->
  Forall Placeholders.matched conditions.
Proof.
  pose proof (long_getApplication_stable _ _ _ _ _ resolved) as H'.
  destruct long_range_matched as (range & E & Hrange).
  pose proof (long_range parse localOffset q p p' app resolved) as R.
  pose proof (long_range parse localOffset q p' p' app H') as R'.
  cbv zeta in R, R'. rewrite E in R. rewrite <- R in R'.
  unfold Warehouse.buildWhereQueryArr, Proc.bind.
  rewrite (long_getEventTable _ _ _ _ _ resolved); cbv beta iota.
  rewrite R'. cbv beta iota. unfold Proc.lift, Proc.ret. fold table.
  destruct (Prisma.join _ _ _ _) as [e|joined] eqn:J; [discriminate|].
  intros [= <-]. constructor; [exact Hrange|]. constructor; [|constructor].
  refine (matched_join _ " OR " "(" ")" joined eq_refl eq_refl eq_refl _ J).
  apply Forall_map. revert metrics_free. apply Forall_impl. intros item Hitem.
  destruct (metric_name item =? "$all_event")%string; matched_parts.
Qed.
End LongTablePlaceholders.

(** X7.  When the configured table and column names and the metric names
    hold no [?], every statement fragment of the long-table builder carries
    exactly as many bound values as its text has placeholders: the range
    predicate, the bucket expression of a known unit, each select item and
    each WHERE condition. *)
Theorem long_table_fragments_bind_every_placeholder :
  forall parse localOffset (q : Schema.Query) p p' app,
    Warehouse.getApplication parse q p = (inr app, p') ->
    let table := Warehouse.eventTable app in
    Spec.free_of "?" (Warehouse.et_name table) = true ->
    Spec.free_of "?" (Warehouse.et_createdAtField table) = true ->
    (forall column, Warehouse.et_dateBasedCreatedAtField table = Some column ->
                    Spec.free_of "?" column = true) ->
    Spec.free_of "?" (Warehouse.eventNameField table) = true ->
    Forall (fun item => Spec.free_of "?" (Schema.metric_name item) = true)
      (Schema.metrics q) ->
    (exists range,
        Warehouse.buildOptimizedDateRangeQuery parse localOffset q p = (inr range, p')
        /\ Placeholders.matched range)
    /\ (forall bucket,
         Js.own (Schema.unit (Schema.time q)) Warehouse.MYSQL_DATE_FORMATS <> None ->
         Warehouse.buildDateQuerySql parse localOffset q p = (inr bucket, p') ->
         Placeholders.matched bucket)
    /\ (exists items,
         Warehouse.buildSelectQueryArr parse q p = (inr items, p')
         /\ Forall (fun item => match item with
                                | Some sql => Placeholders.matched sql
                                | None => True
                                end) items)
    /\ (forall conditions,
         Warehouse.buildWhereQueryArr parse localOffset q p = (inr conditions, p') ->
         Forall Placeholders.matched conditions).
Proof.
  intros parse localOffset q p p' app H table Ht Hc Hd He Hm.
  split; [|split; [|split]].
  - exact (long_range_matched parse localOffset q p p' app H Ht Hc Hd).
  - intros bucket.
    exact (long_bucket_matched parse localOffset q p p' app H Ht Hc Hd bucket).
  - exact (long_select_matched parse q p p' app H Ht He Hm).
  - intros conditions.
    exact (long_where_matched parse localOffset q p p' app H Ht Hc Hd He Hm
             conditions).
Qed.

Lemma long_table_fragments_bind_every_placeholder_witness :
  exists range,
    Warehouse.buildOptimizedDateRangeQuery Fixture.parseLong Fixture.utcServer
      Fixture.testQuery (Fixture.fresh Fixture.longConfig)
    = (inr range, Fixture.longParsed)
    /\ Placeholders.matched range.
Proof.
  refine (proj1
            (long_table_fragments_bind_every_placeholder Fixture.parseLong
               Fixture.utcServer Fixture.testQuery
               (Fixture.fresh Fixture.longConfig) Fixture.longParsed Fixture.test
               eq_refl eq_refl eq_refl _ eq_refl _)).
  - intros column [= <-]. reflexivity.
  - repeat constructor.
Defined.

(** A [?] in a metric name is spliced into the alias and counts as a
    placeholder the statement has no value for. *)
Example question_mark_in_a_metric_name :
  Warehouse.buildSelectQueryArr Fixture.parseLong
    (Fixture.query "test" [Schema.mkMetric "why?" "events"] Fixture.twoDays [])
    (Fixture.fresh Fixture.longConfig)
  = (inr [Some (Prisma.mkSql
                  ("sum(case WHEN " ++ Spec.qualified "events" "event_name"
                     ++ " = ? THEN 1 ELSE 0 END) as " ++ Spec.quoted "why?")
                  [Js.Str "why?"])],
     Fixture.longParsed)
  /\ Placeholders.count
       ("sum(case WHEN " ++ Spec.qualified "events" "event_name"
          ++ " = ? THEN 1 ELSE 0 END) as " ++ Spec.quoted "why?") = 2%nat.
Proof. split; reflexivity. Qed.

(* ===================================================================== *)
(** * Running a statement *)
(* ===================================================================== *)

Lemma replaceAll_free (s : string) :
  Spec.free_of "034" (Exec.replaceAll "034" "`" s) = true.
Proof.
  induction s as [|c s IH]; cbn; [reflexivity|].
  destruct (Ascii.eqb c "034") eqn:E; cbn; [exact IH|].
  now rewrite E, IH.
Qed.

Lemma replaceAll_length (s : string) :
  String.length (Exec.replaceAll "034" "`" s) = String.length s.
Proof.
  induction s as [|c s IH]; cbn; [reflexivity|].
  destruct (Ascii.eqb c "034"); cbn; now rewrite IH.
Qed.

Lemma replaceAll_without_quotes (s : string) :
  Spec.free_of "034" s = true -> Exec.replaceAll "034" "`" s = s.
Proof.
  induction s as [|c s IH]; cbn; [reflexivity|].
  destruct (Ascii.eqb c "034"); cbn; [discriminate|].
  intros H. now rewrite IH.
Qed.

Lemma replaceAll_get (s : string) n :
  String.get n (Exec.replaceAll "034" "`" s)
  = match String.get n s with
    | Some c => Some (if Ascii.eqb c "034" then "`"%char else c)
    | None => None
    end.
Proof.
  revert n. induction s as [|c s IH]; intros n; cbn; [reflexivity|].
  destruct (Ascii.eqb c "034") eqn:E; destruct n; cbn; rewrite ?E; auto.
Qed.

(** X8.  The text handed to the driver is the statement text with each
    double quote turned into a backtick and every other character left in
    place: it has the length of the original, holds no double quote, and is
    the original itself when that holds none. *)
Theorem driverText_turns_double_quotes_into_backticks :
  forall sql : Sql,
    String.length (Exec.driverText sql) = String.length (Prisma.sql sql)
    /\ Spec.free_of "034" (Exec.driverText sql) = true
    /\ (forall n,
         String.get n (Exec.driverText sql)
         = match String.get n (Prisma.sql sql) with
           | Some c => Some (if Ascii.eqb c "034" then "`"%char else c)
           | None => None
           end)
    /\ (Spec.free_of "034" (Prisma.sql sql) = true ->
        Exec.driverText sql = Prisma.sql sql)
    /\ Exec.driverText (Prisma.mkSql (Exec.driverText sql) (Prisma.values sql))
       = Exec.driverText sql.
Proof.
  intros sql. unfold Exec.driverText. cbn [Prisma.sql].
  repeat split.
  - apply replaceAll_length.
  - apply replaceAll_free.
  - apply replaceAll_get.
  - apply replaceAll_without_quotes.
  - apply replaceAll_without_quotes, replaceAll_free.
Qed.

Example driverText_of_a_range_predicate :
  Exec.driverText (Spec.between (Spec.qualified "events" "event_date")
                     ("2025-08-01", "2025-08-02"))
  = "`events`.`event_date` BETWEEN ? AND ?".
Proof. reflexivity. Qed.

Section ExecFacts.
Context {Pool Rows : Type}.
Variable createPool : string -> Pool.
Variable query : Pool -> string -> list Js.value -> Js.exn + Rows.

(** X9.  With the warehouse disabled, or with no connection URL, running a
    statement throws [Warehouse is not enabled]: no pool is created and
    nothing reaches the driver. *)
Theorem executeQuery_refuses_a_disabled_warehouse :
  forall env (sql : Sql) (b : Exec.Builder Pool),
    Exec.enable env = false \/ Js.truthy (Exec.url env) = false ->
    Exec.executeQuery createPool query env sql b
    = (inl (Js.Error "Warehouse is not enabled"), b).
Proof.
  intros env sql b H. unfold Exec.executeQuery, Exec.getConnection, Proc.bind.
  destruct H as [-> | ->]; [reflexivity|].
  now rewrite orb_true_r.
Qed.

(** X10.  With the warehouse enabled and a URL configured, running a
    statement hands the driver exactly one statement, the backticked text
    with the bound values unchanged, and returns what the driver answers; the
    pool is created from the URL on the first run of a builder and reused by
    every later run. *)
Theorem executeQuery_sends_one_statement_and_reuses_the_pool :
  forall env address (sql : Sql) (b : Exec.Builder Pool),
    Exec.enable env = true ->
    Exec.url env = Some address -> address <> "" ->
    let pool := match Exec.connection b with
                | Some existing => existing
                | None => createPool address
                end in
    let b' := snd (Exec.executeQuery createPool query env sql b) in
    fst (Exec.executeQuery createPool query env sql b)
    = query pool (Exec.driverText sql) (Prisma.values sql)
    /\ Exec.sent b' = (Exec.sent b ++ [(Exec.driverText sql, Prisma.values sql)])%list
    /\ Exec.connection b' = Some pool
    /\ Exec.created b'
       = match Exec.connection b with
         | Some _ => Exec.created b
         | None => S (Exec.created b)
         end
    /\ forall sql',
        Exec.created (snd (Exec.executeQuery createPool query env sql' b'))
        = Exec.created b'.
Proof.
  intros env address sql b He Hu Hne pool b'.
  assert (Hgate : negb (Exec.enable env) || negb (Js.truthy (Exec.url env)) = false).
  { rewrite He, Hu. cbn. apply String.eqb_neq in Hne. now rewrite Hne. }
  subst pool b'.
  unfold Exec.executeQuery, Exec.getConnection, Proc.bind.
  rewrite Hgate, Hu. cbn [Js.nullish].
  destruct (Exec.connection b) as [existing|] eqn:Ec; cbn;
    rewrite ?Hgate, ?Ec; cbn; repeat split; reflexivity.
Qed.
End ExecFacts.

Lemma executeQuery_refuses_a_disabled_warehouse_witness :
  Exec.executeQuery (fun address => address)
    (fun _ _ _ => inr 0%nat : Js.exn + nat)
    (Exec.mkEnv false (Some "mysql://warehouse"))
    (Prisma.raw "select 1") (Exec.mkBuilder None 0 [])
  = (inl (Js.Error "Warehouse is not enabled"), Exec.mkBuilder None 0 []).
Proof.
  apply (executeQuery_refuses_a_disabled_warehouse (fun address => address)
           (fun _ _ _ => inr 0%nat)).
  left. reflexivity.
Defined.

Lemma executeQuery_sends_one_statement_and_reuses_the_pool_witness :
  Exec.sent
    (snd (Exec.executeQuery (fun address => address)
            (fun _ _ _ => inr 0%nat : Js.exn + nat)
            (Exec.mkEnv true (Some "mysql://warehouse"))
            (Prisma.raw (Spec.quoted "events")) (Exec.mkBuilder None 0 [])))
  = [("`events`", [])].
Proof.
  refine (proj1 (proj2
            (executeQuery_sends_one_statement_and_reuses_the_pool
               (fun address => address) (fun _ _ _ => inr 0%nat)
               (Exec.mkEnv true (Some "mysql://warehouse")) "mysql://warehouse"
               (Prisma.raw (Spec.quoted "events")) (Exec.mkBuilder None 0 [])
               eq_refl eq_refl _))).
  discriminate.
Defined.

(* ===================================================================== *)
(** * Filters of the wide-table builder *)
(* ===================================================================== *)

Lemma mapM_lift_accepts {S A B} (f : A -> Js.exn + B) (xs : list A) (s : S) :
  (forall x, In x xs -> exists y, f x = inr y) ->
  exists ys,
    Proc.mapM (fun x => Proc.lift (f x)) xs s = (inr ys, s)
    /\ Forall2 (fun x y => f x = inr y) xs ys.
Proof.
  induction xs as [|x xs IH]; intros Hall.
  - exists []. split; [reflexivity | constructor].
  - destruct (Hall x (or_introl eq_refl)) as (y & Ey).
    destruct (IH (fun x' Hin => Hall x' (or_intror Hin))) as (ys & E & F).
    exists (y :: ys). cbn [Proc.mapM]. unfold Proc.bind.
    change (Proc.lift (f x) s) with (f x, s). rewrite Ey, E.
    split; [reflexivity | now constructor].
Qed.

Lemma mapM_lift_rejects {S A B} (f : A -> Js.exn + B) (before after : list A)
  (x : A) (e : Js.exn) (s : S) :
  (forall x', In x' before -> exists y, f x' = inr y) ->
  f x = inl e ->
  Proc.mapM (fun x => Proc.lift (f x)) (before ++ x :: after)%list s = (inl e, s).
Proof.
  induction before as [|x' before IH]; intros Hall Hx;
    cbn [List.app Proc.mapM]; unfold Proc.bind.
  - change (Proc.lift (f x) s) with (f x, s). now rewrite Hx.
  - destruct (Hall x' (or_introl eq_refl)) as (y & Ey).
    change (Proc.lift (f x') s) with (f x', s). rewrite Ey.
    now rewrite (IH (fun x'' Hin => Hall x'' (or_intror Hin)) Hx).
Qed.

(** X11.  The WHERE list of the wide-table builder is the range predicate
    followed by one condition per filter, in the order of the filters, each
    compiled on the quoted filter name.  When the filter operator compiler
    refuses a filter, the builder throws the error of the first refused
    filter. *)
Theorem wide_where_is_range_then_filters :
  forall parse localOffset compile (q : Schema.Query) p p' app,
    WideTable.getApplication parse q p = (inr app, p') ->
    let condition (filter : Schema.Filter) :=
      compile (Schema.filter_type filter) (Schema.operator filter)
        (Schema.filter_value filter)
        (Prisma.raw (Spec.quoted (Schema.filter_name filter))) in
    ((forall filter, In filter (Schema.filters q) ->
                     exists compiled, condition filter = inr compiled) ->
     exists range conditions,
       WideTable.buildOptimizedDateRangeQuery parse localOffset q p = (inr range, p')
       /\ WideTable.buildWhereQueryArr parse localOffset compile q p
          = (inr (range :: conditions), p')
       /\ Forall2 (fun filter compiled => condition filter = inr compiled)
            (Schema.filters q) conditions)
    /\ (forall before filter after e,
         Schema.filters q = (before ++ filter :: after)%list ->
         (forall earlier, In earlier before ->
                          exists compiled, condition earlier = inr compiled) ->
         condition filter = inl e ->
         WideTable.buildWhereQueryArr parse localOffset compile q p = (inl e, p')).
Proof.
  intros parse localOffset compile q p p' app H condition.
  pose proof (wide_range parse localOffset q p p' app H) as R.
  assert (Hbody : forall s : WideTable.Process,
             Proc.mapM
               (fun filter =>
                  Proc.lift
                    (compile (Schema.filter_type filter) (Schema.operator filter)
                       (Schema.filter_value filter)
                       (Prisma.raw DQ +++ Prisma.raw (Schema.filter_name filter)
                          +++ Prisma.raw DQ)))
               (Schema.filters q) s
             = Proc.mapM (fun filter => Proc.lift (condition filter))
                 (Schema.filters q) s).
  { intros s. reflexivity. }
  split.
  - intros Hall.
    destruct (mapM_lift_accepts condition (Schema.filters q) p' Hall)
      as (conditions & E & F).
    eexists. exists conditions. split; [exact R|]. split; [|exact F].
    unfold WideTable.buildWhereQueryArr, Proc.bind. rewrite R, Hbody, E.
    reflexivity.
  - intros before filter after e Hq Hbefore Hrejected.
    unfold WideTable.buildWhereQueryArr, Proc.bind. rewrite R, Hbody, Hq.
    now rewrite (mapM_lift_rejects condition before after filter e p' Hbefore
                   Hrejected).
Qed.

Lemma wide_where_is_range_then_filters_witness :
  WideTable.buildWhereQueryArr Fixture.parseWide Fixture.utcServer Fixture.compiler
    (Schema.mkQuery "orders" "" [Fixture.allEvents]
       [Schema.mkFilter "country" "string" "equals" (Some (Js.Str "JP"));
        Schema.mkFilter "amount" "number" "between"
          (Some (Js.Nums [Js.integer 1; Js.integer 9]))]
       Fixture.twoDays [] None)
    (Fixture.fresh Fixture.wideConfig)
  = (inl (Js.Error "Unsupported operator: between"), Fixture.wideParsed).
Proof.
  refine (proj2 (wide_where_is_range_then_filters Fixture.parseWide
                   Fixture.utcServer Fixture.compiler
                   (Schema.mkQuery "orders" "" [Fixture.allEvents]
                      [Schema.mkFilter "country" "string" "equals" (Some (Js.Str "JP"));
                       Schema.mkFilter "amount" "number" "between"
                         (Some (Js.Nums [Js.integer 1; Js.integer 9]))]
                      Fixture.twoDays [] None)
                   (Fixture.fresh Fixture.wideConfig) Fixture.wideParsed
                   Fixture.orders eq_refl)
            [Schema.mkFilter "country" "string" "equals" (Some (Js.Str "JP"))]
            (Schema.mkFilter "amount" "number" "between"
               (Some (Js.Nums [Js.integer 1; Js.integer 9])))
            [] (Js.Error "Unsupported operator: between") eq_refl _ eq_refl).
  intros earlier [<-|[]]. eexists. reflexivity.
Defined.

(* ===================================================================== *)
(** * Group columns: empty and refused entries *)
(* ===================================================================== *)

Lemma forOf_skips {S A B} (body : B -> A -> Proc.M S B) (xs : list A) acc s :
  (forall acc x s, In x xs -> body acc x s = (inr acc, s)) ->
  Proc.forOf body xs acc s = (inr acc, s).
Proof.
  induction xs as [|x xs IH]; intros Hbody; cbn [Proc.forOf].
  - reflexivity.
  - unfold Proc.bind. rewrite (Hbody acc x s (or_introl eq_refl)).
    apply IH. intros acc' x' s' Hin. apply Hbody. now right.
Qed.

Lemma forOf_app {S A B} (body : B -> A -> Proc.M S B) (xs ys : list A) acc s :
  Proc.forOf body (xs ++ ys)%list acc s
  = Proc.bind (Proc.forOf body xs acc) (Proc.forOf body ys) s.
Proof.
  revert acc s. induction xs as [|x xs IH]; intros acc s; cbn [List.app Proc.forOf].
  - reflexivity.
  - unfold Proc.bind. destruct (body acc x s) as [[e|acc'] s'].
    + reflexivity.
    + rewrite IH. unfold Proc.bind. reflexivity.
Qed.

(** X12.  A query whose groups all carry an empty customGroups array, or
    that has no group, gets no group column from either builder; the
    long-table builder does not resolve its application for it and leaves
    the registry as it is. *)
Theorem groups_with_empty_customGroups_yield_no_column :
  forall parse compile (q : Schema.Query),
    Forall (fun g => Schema.customGroups g = Some []) (Schema.groups q) ->
    (forall p, Warehouse.buildGroupSelectQueryArr parse compile q p = (inr [], p))
    /\ (forall p, WideTable.buildGroupSelectQueryArr compile q p = (inr [], p)).
Proof.
  intros parse compile q Hall.
  unfold Warehouse.buildGroupSelectQueryArr, WideTable.buildGroupSelectQueryArr.
  split; intros p; destruct (0 <? List.length (Schema.groups q))%nat;
    try reflexivity; apply forOf_skips; intros acc g s Hin;
    rewrite (proj1 (Forall_forall _ _) Hall g Hin); reflexivity.
Qed.

Lemma groups_with_empty_customGroups_yield_no_column_witness :
  Warehouse.buildGroupSelectQueryArr Fixture.parseLong Fixture.compiler
    (Fixture.query "missing" [] Fixture.twoDays
       [Schema.mkGroup "country" "string" (Some [])])
    (Fixture.fresh "{")
  = (inr [], Fixture.fresh "{").
Proof.
  refine (proj1 (groups_with_empty_customGroups_yield_no_column Fixture.parseLong
                   Fixture.compiler
                   (Fixture.query "missing" [] Fixture.twoDays
                      [Schema.mkGroup "country" "string" (Some [])]) _)
            (Fixture.fresh "{")).
  repeat constructor.
Defined.

Section WideGroupRejection.
Import Schema.
Variable compile :
  FilterInfoType -> string -> option FilterInfoValue -> Sql -> Js.exn + Sql.

(** The predicate the wide-table builder compiles for one entry. *)
Let predicate (g : Group) (cg : CustomGroup) : Js.exn + Sql :=
  compile (group_type g) (filterOperator cg) (Some (filterValue cg))
    (Prisma.raw DQ +++ Prisma.raw (value g) +++ Prisma.raw DQ).

Let entry (g : Group) (arr : list Sql) (cg : CustomGroup)
  : Proc.M WideTable.Process (list Sql) :=
  Proc.bind (Proc.lift (predicate g cg))
    (fun compiled =>
       Proc.ret (push arr
         (compiled +++ Prisma.raw (" as " ++ DQ ++ "%")
            +++ Prisma.raw (value g ++ "|" ++ filterOperator cg ++ "|"
                              ++ Js.String_of_value (filterValue cg))
            +++ Prisma.raw DQ))).

Let group (arr : list Sql) (g : Group) : Proc.M WideTable.Process (list Sql) :=
  match customGroups g with
  | None =>
      Proc.ret (push arr
        (Prisma.raw (value g) +++ Prisma.raw (" as " ++ DQ ++ "%")
           +++ Prisma.raw (value g) +++ Prisma.raw DQ))
  | Some customGroups =>
      if (0 <? List.length customGroups)%nat then
        Proc.forOf (entry g) customGroups arr
      else Proc.ret arr
  end.

Let accepted (g : Group) : Prop :=
  forall entries cg, customGroups g = Some entries -> In cg entries ->
                     exists compiled, predicate g cg = inr compiled.

Lemma wide_entries_accepted g entries arr s :
  (forall cg, In cg entries -> exists compiled, predicate g cg = inr compiled) ->
  exists arr', Proc.forOf (entry g) entries arr s = (inr arr', s).
Proof.
  revert arr. induction entries as [|cg entries IH]; intros arr Hall;
    cbn [Proc.forOf].
  - eexists. reflexivity.
  - destruct (Hall cg (or_introl eq_refl)) as (compiled & Ec).
    unfold Proc.bind at 1. unfold entry at 1, Proc.bind, Proc.lift, Proc.ret.
    rewrite Ec. apply IH. intros cg' Hin. apply Hall. now right.
Qed.

Lemma wide_entries_rejected g before cg after e arr s :
  (forall cg', In cg' before -> exists compiled, predicate g cg' = inr compiled) ->
  predicate g cg = inl e ->
  Proc.forOf (entry g) (before ++ cg :: after)%list arr s = (inl e, s).
Proof.
  intros Hbefore Hcg. rewrite forOf_app. unfold Proc.bind at 1.
  destruct (wide_entries_accepted g before arr s Hbefore) as (arr' & ->).
  cbn [Proc.forOf]. unfold Proc.bind at 1.
  unfold entry at 1, Proc.bind, Proc.lift. now rewrite Hcg.
Qed.

Lemma wide_groups_accepted gs arr s :
  (forall g, In g gs -> accepted g) ->
  exists arr', Proc.forOf group gs arr s = (inr arr', s).
Proof.
  revert arr. induction gs as [|g gs IH]; intros arr Hall; cbn [Proc.forOf].
  - eexists. reflexivity.
  - unfold Proc.bind at 1.
    assert (Hg : exists arr', group arr g s = (inr arr', s)).
    { unfold group. pose proof (Hall g (or_introl eq_refl)) as Hacc.
      unfold accepted in Hacc.
      destruct (customGroups g) as [entries|]; [|eexists; reflexivity].
      destruct (0 <? List.length entries)%nat; [|eexists; reflexivity].
      apply wide_entries_accepted. intros cg Hin. exact (Hacc entries cg eq_refl Hin). }
    destruct Hg as (arr' & ->). apply IH. intros g' Hin. apply Hall. now right.
Qed.

Lemma wide_group_rejection (q : Query) p before g after ebefore cg eafter e :
  groups q = (before ++ g :: after)%list ->
  (forall g', In g' before -> accepted g') ->
  customGroups g = Some (ebefore ++ cg :: eafter)%list ->
  (forall cg', In cg' ebefore -> exists compiled, predicate g cg' = inr compiled) ->
  predicate g cg = inl e ->
  WideTable.buildGroupSelectQueryArr compile q p = (inl e, p).
Proof.
  intros Hq Hbefore Hg Hebefore Hcg.
  unfold WideTable.buildGroupSelectQueryArr. rewrite Hq.
  replace (0 <? List.length (before ++ g :: after))%nat with true
    by (symmetry; apply Nat.ltb_lt; rewrite length_app;
        cbn [List.length]; lia).
  change (Proc.forOf group (before ++ g :: after)%list [] p = (inl e, p)).
  rewrite forOf_app. unfold Proc.bind at 1.
  destruct (wide_groups_accepted before [] p Hbefore) as (arr & ->).
  cbn [Proc.forOf]. unfold Proc.bind at 1.
  unfold group at 1. rewrite Hg.
  replace (0 <? List.length (ebefore ++ cg :: eafter))%nat with true
    by (symmetry; apply Nat.ltb_lt; rewrite length_app;
        cbn [List.length]; lia).
  now rewrite (wide_entries_rejected g ebefore cg eafter e arr p Hebefore Hcg).
Qed.
End WideGroupRejection.

(** X13.  When the filter operator compiler refuses a customGroups entry,
    the wide-table builder throws the error of the first refused entry, in
    the order of the groups and of their entries, and returns no column at
    all. *)
Theorem wide_group_columns_fail_on_the_first_refused_entry :
  forall compile (q : Schema.Query) p before g after ebefore cg eafter e,
    let predicate (g : Schema.Group) (cg : Schema.CustomGroup) :=
      compile (Schema.group_type g) (Schema.filterOperator cg)
        (Some (Schema.filterValue cg))
        (Prisma.raw (Spec.quoted (Schema.value g))) in
    Schema.groups q = (before ++ g :: after)%list ->
    (forall g' entries cg',
        In g' before -> Schema.customGroups g' = Some entries -> In cg' entries ->
        exists compiled, predicate g' cg' = inr compiled) ->
    Schema.customGroups g = Some (ebefore ++ cg :: eafter)%list ->
    (forall cg', In cg' ebefore -> exists compiled, predicate g cg' = inr compiled) ->
    predicate g cg = inl e ->
    WideTable.buildGroupSelectQueryArr compile q p = (inl e, p).
Proof.
  intros compile q p before g after ebefore cg eafter e predicate
    Hq Hbefore Hg Hebefore Hcg.
  apply (wide_group_rejection compile q p before g after ebefore cg eafter e Hq);
    try assumption.
  intros g' Hin entries cg' Hentries Hcg'.
  exact (Hbefore g' entries cg' Hin Hentries Hcg').
Qed.

Lemma wide_group_columns_fail_on_the_first_refused_entry_witness :
  WideTable.buildGroupSelectQueryArr Fixture.compiler
    (Fixture.query "orders" [Fixture.allEvents] Fixture.twoDays
       [Schema.mkGroup "country" "string" None;
        Schema.mkGroup "amount" "number"
          (Some [Schema.mkCustomGroup "equals" (Js.Num (Js.integer 10));
                 Schema.mkCustomGroup "above" (Js.Num (Js.integer 20))])])
    (Fixture.fresh Fixture.wideConfig)
  = (inl (Js.Error "Unsupported operator: above"), Fixture.fresh Fixture.wideConfig).
Proof.
  refine (wide_group_columns_fail_on_the_first_refused_entry Fixture.compiler
            (Fixture.query "orders" [Fixture.allEvents] Fixture.twoDays
               [Schema.mkGroup "country" "string" None;
                Schema.mkGroup "amount" "number"
                  (Some [Schema.mkCustomGroup "equals" (Js.Num (Js.integer 10));
                         Schema.mkCustomGroup "above" (Js.Num (Js.integer 20))])])
            (Fixture.fresh Fixture.wideConfig)
            [Schema.mkGroup "country" "string" None]
            (Schema.mkGroup "amount" "number"
               (Some [Schema.mkCustomGroup "equals" (Js.Num (Js.integer 10));
                      Schema.mkCustomGroup "above" (Js.Num (Js.integer 20))]))
            []
            [Schema.mkCustomGroup "equals" (Js.Num (Js.integer 10))]
            (Schema.mkCustomGroup "above" (Js.Num (Js.integer 20))) []
            (Js.Error "Unsupported operator: above") eq_refl _ eq_refl _ eq_refl).
  - intros g' entries cg' [<-|[]]. discriminate.
  - intros cg' [<-|[]]. eexists. reflexivity.
Defined.

(* ===================================================================== *)
(** * The builders only read a loaded registry *)
(* ===================================================================== *)

Section ReadOnlyFacts.
Context {Application : Type}.
Local Abbreviation M := (Proc.M (Registry.Process Application)).

Lemma readOnly_ret {A} (a : A) : ReadOnly.readOnly (Proc.ret a : M A).
Proof. intros p _. reflexivity. Qed.

Lemma readOnly_throw {A} (e : Js.exn) : ReadOnly.readOnly (Proc.throw e : M A).
Proof. intros p _. reflexivity. Qed.

Lemma readOnly_lift {A} (r : Js.exn + A) : ReadOnly.readOnly (Proc.lift r : M A).
Proof. intros p _. reflexivity. Qed.

Lemma readOnly_bind {A B} (m : M A) (k : A -> M B) :
  ReadOnly.readOnly m -> (forall a, ReadOnly.readOnly (k a)) ->
  ReadOnly.readOnly (Proc.bind m k).
Proof.
  intros Hm Hk p Hp. unfold Proc.bind. specialize (Hm p Hp).
  destruct (m p) as [[e|a] p1]; cbn in Hm; subst p1; [reflexivity|].
  exact (Hk a p Hp).
Qed.

Lemma readOnly_mapM {A B} (f : A -> M B) (xs : list A) :
  (forall x, ReadOnly.readOnly (f x)) -> ReadOnly.readOnly (Proc.mapM f xs).
Proof.
  intros Hf. induction xs as [|x xs IH]; cbn [Proc.mapM].
  - apply readOnly_ret.
  - apply readOnly_bind; [apply Hf|]. intros y.
    apply readOnly_bind; [exact IH|]. intros ys. apply readOnly_ret.
Qed.

Lemma readOnly_forOf {A B} (body : B -> A -> M B) (xs : list A) :
  (forall acc x, ReadOnly.readOnly (body acc x)) ->
  forall acc, ReadOnly.readOnly (Proc.forOf body xs acc).
Proof.
  intros Hbody. induction xs as [|x xs IH]; intros acc; cbn [Proc.forOf].
  - apply readOnly_ret.
  - apply readOnly_bind; [apply Hbody | exact IH].
Qed.

Lemma readOnly_getWarehouseApplications parse :
  ReadOnly.readOnly (Registry.getWarehouseApplications (Application := Application) parse).
Proof.
  intros p Hp. unfold Registry.getWarehouseApplications.
  destruct (Registry.applications p) eqn:E; [reflexivity|].
  now destruct Hp.
Qed.
End ReadOnlyFacts.

Create HintDb readOnly.
#[local] Hint Resolve readOnly_ret readOnly_throw readOnly_lift
  readOnly_getWarehouseApplications : readOnly.

(** Decomposes a computation into its binds, loops and branches. *)
Ltac read_only :=
  repeat first
    [ solve [auto with readOnly]
    | apply readOnly_bind; [|intros ?]
    | apply readOnly_mapM; intros ?
    | apply readOnly_forOf; intros ? ?
    | match goal with
      | |- ReadOnly.readOnly (match ?x with _ => _ end) => destruct x
      | |- ReadOnly.readOnly (if ?c then _ else _) => destruct c
      end ].

Section LongTableReadOnly.
Variable parse : string -> Js.exn + list Warehouse.WarehouseInsightsApplication.
Variable localOffset : Z -> Z.
Variable compile :
  Schema.FilterInfoType -> string -> option Schema.FilterInfoValue -> Sql
  -> Js.exn + Sql.
Variable q : Schema.Query.

Lemma long_getApplication_readOnly :
  ReadOnly.readOnly (Warehouse.getApplication parse q).
Proof.
  unfold Warehouse.getApplication, Warehouse.getWarehouseApplications. read_only.
Qed.
Hint Resolve long_getApplication_readOnly : readOnly.

Lemma long_getEventTable_readOnly :
  ReadOnly.readOnly (Warehouse.getEventTable parse q).
Proof. unfold Warehouse.getEventTable. read_only. Qed.

Lemma long_getEventParametersTable_readOnly :
  ReadOnly.readOnly (Warehouse.getEventParametersTable parse q).
Proof. unfold Warehouse.getEventParametersTable. read_only. Qed.
Hint Resolve long_getEventTable_readOnly long_getEventParametersTable_readOnly
  : readOnly.

Lemma long_enable_readOnly :
  ReadOnly.readOnly (Warehouse.enableDateBasedOptimizedEventTable parse localOffset q).
Proof. unfold Warehouse.enableDateBasedOptimizedEventTable. read_only. Qed.
Hint Resolve long_enable_readOnly : readOnly.

Lemma long_range_readOnly :
  ReadOnly.readOnly (Warehouse.buildOptimizedDateRangeQuery parse localOffset q).
Proof. unfold Warehouse.buildOptimizedDateRangeQuery. read_only. Qed.
Hint Resolve long_range_readOnly : readOnly.

Lemma long_bucket_readOnly :
  ReadOnly.readOnly (Warehouse.buildDateQuerySql parse localOffset q).
Proof.
  unfold Warehouse.buildDateQuerySql, Warehouse.buildOptimizedDateQuerySql.
  read_only.
Qed.

Lemma long_getOptimizedDateQuery_readOnly :
  ReadOnly.readOnly (Warehouse.getOptimizedDateQuery parse localOffset q).
Proof. unfold Warehouse.getOptimizedDateQuery. read_only. Qed.

Lemma long_select_readOnly :
  ReadOnly.readOnly (Warehouse.buildSelectQueryArr parse q).
Proof. unfold Warehouse.buildSelectQueryArr. read_only. Qed.

Lemma long_where_readOnly :
  ReadOnly.readOnly (Warehouse.buildWhereQueryArr parse localOffset q).
Proof. unfold Warehouse.buildWhereQueryArr. read_only. Qed.

Lemma long_getValueField_readOnly type :
  ReadOnly.readOnly (Warehouse.getValueField parse q type).
Proof. unfold Warehouse.getValueField. read_only. Qed.
Hint Resolve long_getValueField_readOnly : readOnly.

Lemma long_group_readOnly :
  ReadOnly.readOnly (Warehouse.buildGroupSelectQueryArr parse compile q).
Proof.
  unfold Warehouse.buildGroupSelectQueryArr, Warehouse.buildFilterQueryOperator.
  read_only.
Qed.
End LongTableReadOnly.

Section WideTableReadOnly.
Variable parse : string -> Js.exn + list WideTable.WarehouseInsightsApplication.
Variable localOffset : Z -> Z.
Variable compile :
  Schema.FilterInfoType -> string -> option Schema.FilterInfoValue -> Sql
  -> Js.exn + Sql.
Variable q : Schema.Query.

Lemma wide_getApplication_readOnly :
  ReadOnly.readOnly (WideTable.getApplication parse q).
Proof.
  unfold WideTable.getApplication, WideTable.getWarehouseApplications. read_only.
Qed.
Hint Resolve wide_getApplication_readOnly : readOnly.

Lemma wide_enable_readOnly :
  ReadOnly.readOnly (WideTable.enableDateBasedOptimizedEventTable parse localOffset q).
Proof. unfold WideTable.enableDateBasedOptimizedEventTable. read_only. Qed.
Hint Resolve wide_enable_readOnly : readOnly.

Lemma wide_range_readOnly :
  ReadOnly.readOnly (WideTable.buildOptimizedDateRangeQuery parse localOffset q).
Proof. unfold WideTable.buildOptimizedDateRangeQuery. read_only. Qed.
Hint Resolve wide_range_readOnly : readOnly.

Lemma wide_bucket_readOnly :
  ReadOnly.readOnly (WideTable.buildDateQuerySql parse localOffset q).
Proof.
  unfold WideTable.buildDateQuerySql, WideTable.buildOptimizedDateQuerySql.
  read_only.
Qed.

Lemma wide_select_readOnly :
  ReadOnly.readOnly (WideTable.buildSelectQueryArr parse q).
Proof. unfold WideTable.buildSelectQueryArr. read_only. Qed.

Lemma wide_where_readOnly :
  ReadOnly.readOnly (WideTable.buildWhereQueryArr parse localOffset compile q).
Proof. unfold WideTable.buildWhereQueryArr. read_only. Qed.

Lemma wide_events_readOnly id :
  ReadOnly.readOnly (WideTable.insightsWideTableWarehouseEvents parse id).
Proof.
  unfold WideTable.insightsWideTableWarehouseEvents,
    WideTable.getWarehouseApplications. read_only.
Qed.
End WideTableReadOnly.

(** X14.  Once the application list is cached, no method of either builder
    changes the process: resolving the application, the optimisation test,
    the range predicate, the bucket expressions, the select list, the WHERE
    list, the value column, the group columns and the events listing leave
    the cache, the configuration and the count of parser calls as they were,
    whether they return or throw. *)
Theorem builders_only_read_a_loaded_registry :
  forall localOffset compile (q : Schema.Query),
    (forall parse type,
        ReadOnly.readOnly (Warehouse.getApplication parse q)
        /\ ReadOnly.readOnly
             (Warehouse.enableDateBasedOptimizedEventTable parse localOffset q)
        /\ ReadOnly.readOnly
             (Warehouse.buildOptimizedDateRangeQuery parse localOffset q)
        /\ ReadOnly.readOnly (Warehouse.buildDateQuerySql parse localOffset q)
        /\ ReadOnly.readOnly (Warehouse.getOptimizedDateQuery parse localOffset q)
        /\ ReadOnly.readOnly (Warehouse.buildSelectQueryArr parse q)
        /\ ReadOnly.readOnly (Warehouse.buildWhereQueryArr parse localOffset q)
        /\ ReadOnly.readOnly (Warehouse.getValueField parse q type)
        /\ ReadOnly.readOnly (Warehouse.buildGroupSelectQueryArr parse compile q))
    /\ (forall parse applicationId,
        ReadOnly.readOnly (WideTable.getApplication parse q)
        /\ ReadOnly.readOnly
             (WideTable.enableDateBasedOptimizedEventTable parse localOffset q)
        /\ ReadOnly.readOnly
             (WideTable.buildOptimizedDateRangeQuery parse localOffset q)
        /\ ReadOnly.readOnly (WideTable.buildDateQuerySql parse localOffset q)
        /\ ReadOnly.readOnly (WideTable.buildSelectQueryArr parse q)
        /\ ReadOnly.readOnly
             (WideTable.buildWhereQueryArr parse localOffset compile q)
        /\ ReadOnly.readOnly
             (WideTable.insightsWideTableWarehouseEvents parse applicationId)).
Proof.
  intros localOffset compile q. split.
  - intros parse type.
    repeat split;
      auto using long_getApplication_readOnly, long_enable_readOnly,
        long_range_readOnly, long_bucket_readOnly,
        long_getOptimizedDateQuery_readOnly, long_select_readOnly,
        long_where_readOnly, long_getValueField_readOnly, long_group_readOnly.
  - intros parse applicationId.
    repeat split;
      auto using wide_getApplication_readOnly, wide_enable_readOnly,
        wide_range_readOnly, wide_bucket_readOnly, wide_select_readOnly,
        wide_where_readOnly, wide_events_readOnly.
Qed.

(* ===================================================================== *)
(** * The events of a wide-table application *)
(* ===================================================================== *)

(** X15.  The events listing of a wide-table application, and the filter
    parameters listing with it, are the names of the fields of the first
    configured wide-table application of that name, in the order they are
    declared; when no wide-table application carries the name, both throw
    [Event table not found for application: <id>]. *)
Theorem wide_events_are_the_field_names :
  forall parse applicationId p p' apps,
    WideTable.getWarehouseApplications parse p = (inr apps, p') ->
    (forall before app after,
        apps = (before ++ WideTable.WideTable app :: after)%list ->
        WideTable.name app = applicationId ->
        (forall other, In (WideTable.WideTable other) before ->
                       WideTable.name other <> applicationId) ->
        WideTable.insightsWideTableWarehouseEvents parse applicationId p
        = (inr (map WideTable.field_name (WideTable.fields app)), p')
        /\ WideTable.insightsWideTableWarehouseFilterParams parse applicationId p
           = (inr (map WideTable.field_name (WideTable.fields app)), p'))
    /\ ((forall app, In (WideTable.WideTable app) apps ->
                     WideTable.name app <> applicationId) ->
        WideTable.insightsWideTableWarehouseEvents parse applicationId p
        = (inl (Js.Error ("Event table not found for application: "
                            ++ applicationId)), p')
        /\ WideTable.insightsWideTableWarehouseFilterParams parse applicationId p
           = (inl (Js.Error ("Event table not found for application: "
                               ++ applicationId)), p')).
Proof.
  intros parse applicationId p p' apps H.
  unfold WideTable.insightsWideTableWarehouseFilterParams,
    WideTable.insightsWideTableWarehouseEvents, Proc.bind.
  rewrite H. split.
  - intros before app after -> Hname Hno.
    rewrite (find_wideTable_first _ _ _ _ Hname Hno). split; reflexivity.
  - intros Hno. rewrite (find_wideTable_none _ _ Hno). split; reflexivity.
Qed.

Lemma wide_events_are_the_field_names_witness :
  WideTable.insightsWideTableWarehouseEvents Fixture.parseWide "orders"
    (Fixture.fresh Fixture.wideConfig)
  = (inr ["country"; "amount"], Fixture.wideParsed).
Proof.
  refine (proj1 (proj1 (wide_events_are_the_field_names Fixture.parseWide "orders"
                   (Fixture.fresh Fixture.wideConfig) Fixture.wideParsed _ eq_refl)
            [WideTable.LongTable "test" Fixture.events Fixture.event_parameters]
            Fixture.orders [] eq_refl eq_refl _)).
  intros other [H|[]]. discriminate H.
Defined.

(* ===================================================================== *)
(** * The select list *)
(* ===================================================================== *)

Lemma long_select_bound (table : Warehouse.EventTable) (items : list Schema.Metric) :
  Placeholders.bound
    (map (fun item =>
            if (Schema.math item =? "events")%string then
              if (Schema.metric_name item =? "$all_event")%string then
                Some (Prisma.raw ("count(1) as " ++ DQ ++ "$all_event" ++ DQ))
              else
                Some (Prisma.raw ("sum(case WHEN " ++ DQ)
                        +++ Prisma.raw (Warehouse.et_name table)
                        +++ Prisma.raw (DQ ++ "." ++ DQ)
                        +++ Prisma.raw (Warehouse.eventNameField table)
                        +++ Prisma.raw (DQ ++ " = ")
                        +++ Prisma.param (Js.Str (Schema.metric_name item))
                        +++ Prisma.raw " THEN 1 ELSE 0 END) as "
                        +++ Prisma.raw (DQ ++ Schema.metric_name item ++ DQ))
            else None) items)
  = map (fun item => Js.Str (Schema.metric_name item))
      (filter (fun item => (Schema.math item =? "events")%string
                           && negb (Schema.metric_name item =? "$all_event")%string)
         items).
Proof.
  induction items as [|item items IH]; [reflexivity|].
  cbn [map filter Placeholders.bound flat_map].
  change (flat_map _ (map ?f items)) with (Placeholders.bound (map f items)).
  rewrite IH.
  destruct (Schema.math item =? "events")%string;
    destruct (Schema.metric_name item =? "$all_event")%string; reflexivity.
Qed.

Lemma wide_select_bound (distinctField : string) (items : list Schema.Metric) :
  Placeholders.bound
    (map (fun item =>
            if (Schema.math item =? "events")%string then
              if (Schema.metric_name item =? "$all_event")%string then
                Some (Prisma.raw ("count(1) as " ++ DQ ++ "$all_event" ++ DQ))
              else
                Some (Prisma.raw ("count(" ++ DQ)
                        +++ Prisma.raw (Schema.metric_name item)
                        +++ Prisma.raw (DQ ++ ") as " ++ DQ)
                        +++ Prisma.raw (Schema.metric_name item)
                        +++ Prisma.raw DQ)
            else if (Schema.math item =? "sessions")%string then
              if (Schema.metric_name item =? "$all_event")%string then
                Some (Prisma.raw ("count(distinct " ++ DQ)
                        +++ Prisma.raw distinctField
                        +++ Prisma.raw (DQ ++ ") as " ++ DQ ++ "$all_event" ++ DQ))
              else
                Some (Prisma.raw ("count(distinct case WHEN " ++ DQ)
                        +++ Prisma.raw (Schema.metric_name item)
                        +++ Prisma.raw (DQ ++ " = ")
                        +++ Prisma.param (Js.Str (Schema.metric_name item))
                        +++ Prisma.raw (" THEN " ++ DQ)
                        +++ Prisma.raw distinctField
                        +++ Prisma.raw (DQ ++ " END) as ")
                        +++ Prisma.raw (DQ ++ Schema.metric_name item ++ DQ))
            else None) items)
  = map (fun item => Js.Str (Schema.metric_name item))
      (filter (fun item => (Schema.math item =? "sessions")%string
                           && negb (Schema.metric_name item =? "$all_event")%string)
         items).
Proof.
  induction items as [|item items IH]; [reflexivity|].
  cbn [map filter Placeholders.bound flat_map].
  change (flat_map _ (map ?f items)) with (Placeholders.bound (map f items)).
  rewrite IH.
  destruct (String.eqb_spec (Schema.math item) "events") as [E|_].
  - rewrite E. cbn [String.eqb Ascii.eqb Bool.eqb andb].
    destruct (Schema.metric_name item =? "$all_event")%string; reflexivity.
  - destruct (Schema.math item =? "sessions")%string;
      destruct (Schema.metric_name item =? "$all_event")%string; reflexivity.
Qed.

(** X16.  The select list has one item per metric, in the order of the
    metrics.  The values it binds are metric names only: in the long-table
    builder the names of the [events] metrics other than [$all_event], in the
    wide-table builder the names of the [sessions] metrics other than
    [$all_event], each in the order of the metrics. *)
Theorem select_list_binds_the_metric_names :
  forall (q : Schema.Query),
    (forall parse p p' app,
        Warehouse.getApplication parse q p = (inr app, p') ->
        exists items,
          Warehouse.buildSelectQueryArr parse q p = (inr items, p')
          /\ List.length items = List.length (Schema.metrics q)
          /\ Placeholders.bound items
             = map (fun item => Js.Str (Schema.metric_name item))
                 (filter (fun item =>
                            (Schema.math item =? "events")%string
                            && negb (Schema.metric_name item =? "$all_event")%string)
                    (Schema.metrics q)))
    /\ (forall parse p p' app,
        WideTable.getApplication parse q p = (inr app, p') ->
        exists items,
          WideTable.buildSelectQueryArr parse q p = (inr items, p')
          /\ List.length items = List.length (Schema.metrics q)
          /\ Placeholders.bound items
             = map (fun item => Js.Str (Schema.metric_name item))
                 (filter (fun item =>
                            (Schema.math item =? "sessions")%string
                            && negb (Schema.metric_name item =? "$all_event")%string)
                    (Schema.metrics q))).
Proof.
  intros q. split; intros parse p p' app H.
  - unfold Warehouse.buildSelectQueryArr, Proc.bind.
    rewrite (long_getEventTable _ _ _ _ _ H).
    eexists. split; [reflexivity|]. split; [apply length_map|].
    apply long_select_bound.
  - unfold WideTable.buildSelectQueryArr, Proc.bind. rewrite H.
    eexists. split; [reflexivity|]. split; [apply length_map|].
    apply wide_select_bound.
Qed.

Lemma select_list_binds_the_metric_names_witness :
  exists items,
    Warehouse.buildSelectQueryArr Fixture.parseLong
      (Fixture.query "test"
         [Fixture.allEvents; Schema.mkMetric "purchase" "events";
          Schema.mkMetric "visit" "sessions"] Fixture.twoDays [])
      (Fixture.fresh Fixture.longConfig)
    = (inr items, Fixture.longParsed)
    /\ List.length items = 3%nat
    /\ Placeholders.bound items = [Js.Str "purchase"].
Proof.
  exact (proj1 (select_list_binds_the_metric_names
                  (Fixture.query "test"
                     [Fixture.allEvents; Schema.mkMetric "purchase" "events";
                      Schema.mkMetric "visit" "sessions"] Fixture.twoDays []))
           Fixture.parseLong (Fixture.fresh Fixture.longConfig) Fixture.longParsed
           Fixture.test eq_refl).
Defined.

(* ===================================================================== *)
(** * An unset configuration *)
(* ===================================================================== *)

(** X17.  With no configuration string, or an empty one, the registry reads
    the text [[]]: when that parses to the empty list, the first call caches
    the empty list after one parse and every lookup of either kind throws
    [Application <id> not found]. *)
Theorem unset_configuration_is_the_empty_list :
  forall parseLong parseWide (q : Schema.Query) json parses,
    Js.truthy json = false ->
    parseLong "[]" = inr [] -> parseWide "[]" = inr [] ->
    Warehouse.getApplication parseLong q (Registry.mkProcess json None parses)
    = (inl (Js.Error ("Application " ++ Schema.insightId q ++ " not found")),
       Registry.mkProcess json (Some []) (S parses))
    /\ WideTable.getApplication parseWide q (Registry.mkProcess json None parses)
       = (inl (Js.Error ("Application " ++ Schema.insightId q ++ " not found")),
          Registry.mkProcess json (Some []) (S parses)).
Proof.
  intros parseLong parseWide q json parses Hjson HL HW.
  unfold Warehouse.getApplication, WideTable.getApplication,
    Warehouse.getWarehouseApplications, WideTable.getWarehouseApplications,
    Registry.getWarehouseApplications, Proc.bind, Js.or_else.
  cbn [Registry.applications Registry.applicationsJson Registry.parses].
  rewrite Hjson, HL, HW. split; reflexivity.
Qed.

Lemma unset_configuration_is_the_empty_list_witness :
  Warehouse.getApplication Fixture.parseLong Fixture.testQuery
    (Registry.mkProcess (Some "") None 0)
  = (inl (Js.Error "Application test not found"),
     Registry.mkProcess (Some "") (Some []) 1).
Proof.
  exact (proj1 (unset_configuration_is_the_empty_list Fixture.parseLong
                  Fixture.parseWide Fixture.testQuery (Some "") 0
                  eq_refl eq_refl eq_refl)).
Defined.

(* ===================================================================== *)
(** * The minute unit *)
(* ===================================================================== *)

Lemma diff_day_le_1 localOffset startAt endAt :
  (Dayjs.diff_day localOffset (Dayjs.dayjs localOffset endAt) startAt <=? 1) = true
  <-> Dayjs.wall (Dayjs.dayjs localOffset endAt)
      - Dayjs.wall (Dayjs.dayjs localOffset startAt)
      < 2 * Dayjs.MILLISECONDS_A_DAY.
Proof.
  unfold Dayjs.diff_day, Dayjs.wall, Dayjs.dayjs,
    Dayjs.MILLISECONDS_A_DAY, Dayjs.MILLISECONDS_A_MINUTE.
  cbn [Dayjs.valueOf Dayjs.utcOffset].
  rewrite Z.leb_le.
  set (x := endAt - startAt - (localOffset startAt - localOffset endAt) * 60000).
  replace (endAt + localOffset endAt * 60000 - (startAt + localOffset startAt * 60000))
    with x by (unfold x; ring).
  split; intros H.
  - destruct (Z_lt_le_dec x (2 * 86400000)) as [|Hge]; [assumption | exfalso].
    assert (2 <= Z.quot x 86400000) by (apply Z.quot_le_lower_bound; lia). lia.
  - destruct (Z_lt_le_dec x 0) as [Hneg|Hpos].
    + assert (0 <= Z.quot (- x) 86400000) by (apply Z.quot_pos; lia).
      rewrite Z.quot_opp_l in * by lia. lia.
    + assert (Z.quot x 86400000 < 2) by (apply Z.quot_lt_upper_bound; lia). lia.
Qed.

(** X18.  The chart allows the minute unit exactly when the selected range
    spans less than two full days on the browser's clock; its watcher turns
    a minute unit into [day] for any longer range and changes no other
    unit. *)
Theorem allowMinute_iff_under_two_days :
  forall localOffset (dateRange : Z * Z) dateUnit,
    let span := Dayjs.wall (Dayjs.dayjs localOffset (snd dateRange))
                - Dayjs.wall (Dayjs.dayjs localOffset (fst dateRange)) in
    (ChartRender.allowMinute localOffset dateRange = true
     <-> span < 2 * Dayjs.MILLISECONDS_A_DAY)
    /\ (2 * Dayjs.MILLISECONDS_A_DAY <= span ->
        ChartRender.watchDateUnit localOffset dateRange "minute" = "day")
    /\ (span < 2 * Dayjs.MILLISECONDS_A_DAY \/ dateUnit <> "minute" ->
        ChartRender.watchDateUnit localOffset dateRange dateUnit = dateUnit).
Proof.
  intros localOffset [startAt endAt] dateUnit span.
  assert (Hiff : ChartRender.allowMinute localOffset (startAt, endAt) = true
                 <-> span < 2 * Dayjs.MILLISECONDS_A_DAY)
    by apply diff_day_le_1.
  split; [exact Hiff|]. unfold ChartRender.watchDateUnit. split.
  - intros Hlong.
    destruct (ChartRender.allowMinute localOffset (startAt, endAt)); [|reflexivity].
    pose proof (proj1 Hiff eq_refl). lia.
  - intros [Hshort | Hunit].
    + now rewrite (proj2 Hiff Hshort).
    + apply String.eqb_neq in Hunit. rewrite Hunit. now rewrite andb_false_r.
Qed.

Lemma allowMinute_iff_under_two_days_witness :
  ChartRender.watchDateUnit Fixture.utcServer
    (Fixture.aug1, Fixture.aug2 + Dayjs.MILLISECONDS_A_DAY) "minute" = "day".
Proof.
  refine (proj1 (proj2 (allowMinute_iff_under_two_days Fixture.utcServer
                          (Fixture.aug1, Fixture.aug2 + Dayjs.MILLISECONDS_A_DAY)
                          "minute")) _).
  vm_compute. discriminate.
Defined.

(** X19.  For a range of at least one and less than two full days, on a
    browser and a server that share their clock, the chart keeps the minute
    unit and the long-table builder still reads the date-based column: the
    bucket is the minute format applied to that column. *)
Theorem minute_unit_meets_the_date_based_column :
  forall parse localOffset (q : Schema.Query) p p' app column dateRange userTimezone,
    Warehouse.getApplication parse q p = (inr app, p') ->
    Warehouse.et_dateBasedCreatedAtField (Warehouse.eventTable app) = Some column ->
    column <> "" ->
    Schema.time q
    = ChartRender.time localOffset dateRange
        (ChartRender.watchDateUnit localOffset dateRange "minute") userTimezone ->
    let span := Dayjs.wall (Dayjs.dayjs localOffset (snd dateRange))
                - Dayjs.wall (Dayjs.dayjs localOffset (fst dateRange)) in
    Dayjs.MILLISECONDS_A_DAY <= span < 2 * Dayjs.MILLISECONDS_A_DAY ->
    Schema.unit (Schema.time q) = "minute"
    /\ Warehouse.buildDateQuerySql parse localOffset q p
       = (inr (Spec.directBucket
                 (Spec.qualified (Warehouse.et_name (Warehouse.eventTable app)) column)
                 "%Y-%m-%d %H:%i:00"), p').
Proof.
  intros parse localOffset q p p' app column [startAt endAt] userTimezone
    H Hcol Hne Htime span [Hday Htwo].
  assert (Hunit : ChartRender.watchDateUnit localOffset (startAt, endAt) "minute"
                  = "minute").
  { assert (Hallow : ChartRender.allowMinute localOffset (startAt, endAt) = true)
      by exact (proj2 (diff_day_le_1 localOffset startAt endAt) Htwo).
    unfold ChartRender.watchDateUnit. now rewrite Hallow. }
  rewrite Hunit in Htime.
  assert (Hspan : Spec.spansFullDay localOffset (Schema.startAt (Schema.time q))
                    (Schema.endAt (Schema.time q)))
    by (rewrite Htime; exact Hday).
  split; [now rewrite Htime|].
  unfold Warehouse.buildDateQuerySql.
  rewrite (long_bucket parse localOffset q p p' app H). cbv zeta.
  rewrite Hcol, (truthy_Some _ Hne).
  rewrite (proj2 (diff_day_spansFullDay _ _ _) Hspan).
  cbn [andb Js.nullish]. rewrite Htime. reflexivity.
Qed.

Lemma minute_unit_meets_the_date_based_column_witness :
  Warehouse.buildDateQuerySql Fixture.parseLong Fixture.utcServer
    (Schema.mkQuery "test" "" [Fixture.allEvents] []
       (Schema.mkTime Fixture.aug1 Fixture.aug2 "minute" (Some "UTC")) [] None)
    (Fixture.fresh Fixture.longConfig)
  = (inr (Spec.directBucket (Spec.qualified "events" "event_date")
            "%Y-%m-%d %H:%i:00"), Fixture.longParsed).
Proof.
  refine (proj2 (minute_unit_meets_the_date_based_column Fixture.parseLong
                   Fixture.utcServer
                   (Schema.mkQuery "test" "" [Fixture.allEvents] []
                      (Schema.mkTime Fixture.aug1 Fixture.aug2 "minute" (Some "UTC"))
                      [] None)
                   (Fixture.fresh Fixture.longConfig) Fixture.longParsed
                   Fixture.test "event_date" (Fixture.aug1, Fixture.aug2) "UTC"
                   eq_refl eq_refl _ eq_refl _)).
  - discriminate.
  - vm_compute. split; [discriminate | reflexivity].
Defined.

(* ===================================================================== *)
(** * The value column of an event parameter *)
(* ===================================================================== *)

(** X20.  The value column of the long-table builder is one quoted column of
    the parameters table and binds no value.  It is the typed column declared
    for the value type [number], [string] or [date], and the generic value
    column when that typed column is not declared or the type is another
    one. *)
Theorem value_column_falls_back_to_the_generic_column :
  forall parse (q : Schema.Query) p p' app type,
    Warehouse.getApplication parse q p = (inr app, p') ->
    let parameters := Warehouse.eventParametersTable app in
    exists column,
      Warehouse.getValueField parse q type p
      = (inr (Prisma.mkSql
                (Spec.qualified (Warehouse.ept_name parameters) column) []), p')
      /\ (type = "number" ->
          column = Js.nullish (Warehouse.paramsValueNumberField parameters)
                     (Warehouse.paramsValueField parameters))
      /\ (type = "string" ->
          column = Js.nullish (Warehouse.paramsValueStringField parameters)
                     (Warehouse.paramsValueField parameters))
      /\ (type = "date" ->
          column = Js.nullish (Warehouse.paramsValueDateField parameters)
                     (Warehouse.paramsValueField parameters))
      /\ (~ In type ["number"; "string"; "date"] ->
          column = Warehouse.paramsValueField parameters).
Proof.
  intros parse q p p' app type H parameters.
  exists (if (type =? "number")%string then
            Js.nullish (Warehouse.paramsValueNumberField parameters)
              (Warehouse.paramsValueField parameters)
          else if (type =? "string")%string then
            Js.nullish (Warehouse.paramsValueStringField parameters)
              (Warehouse.paramsValueField parameters)
          else if (type =? "date")%string then
            Js.nullish (Warehouse.paramsValueDateField parameters)
              (Warehouse.paramsValueField parameters)
          else Warehouse.paramsValueField parameters).
  split.
  - unfold Warehouse.getValueField, Proc.bind.
    rewrite (long_getEventParametersTable _ _ _ _ _ H). fold parameters.
    destruct (type =? "number")%string, (type =? "string")%string,
      (type =? "date")%string; returns_sql.
  - split; [|split; [|split]].
    + intros ->. reflexivity.
    + intros ->. reflexivity.
    + intros ->. reflexivity.
    + intros Hout.
      destruct (String.eqb_spec type "number") as [E|_];
        [exfalso; apply Hout; cbn; auto|].
      destruct (String.eqb_spec type "string") as [E|_];
        [exfalso; apply Hout; cbn; auto|].
      destruct (String.eqb_spec type "date") as [E|_];
        [exfalso; apply Hout; cbn; auto|].
      reflexivity.
Qed.

Lemma value_column_falls_back_to_the_generic_column_witness :
  exists column,
    Warehouse.getValueField Fixture.parseLong Fixture.testQuery "number"
      (Fixture.fresh Fixture.longConfig)
    = (inr (Prisma.mkSql (Spec.qualified "event_parameters" column) []),
       Fixture.longParsed)
    /\ ("number" = "number" -> column = "event_param_value")
    /\ ("number" = "string" -> column = "event_param_value")
    /\ ("number" = "date" -> column = "event_param_value")
    /\ (~ In "number" ["number"; "string"; "date"] -> column = "event_param_value").
Proof.
  exact (value_column_falls_back_to_the_generic_column Fixture.parseLong
           Fixture.testQuery (Fixture.fresh Fixture.longConfig) Fixture.longParsed
           Fixture.test "number" eq_refl).
Defined.

Lemma builders_only_read_a_loaded_registry_witness :
  snd (Warehouse.buildWhereQueryArr Fixture.parseLong Fixture.utcServer
         Fixture.testQuery Fixture.longParsed) = Fixture.longParsed
  /\ snd (WideTable.getApplication Fixture.parseWide Fixture.testQuery
            Fixture.wideParsed) = Fixture.wideParsed.
Proof.
  split.
  - refine (proj1 (proj2 (proj2 (proj2 (proj2 (proj2 (proj2
             (proj1 (builders_only_read_a_loaded_registry Fixture.utcServer
                       Fixture.compiler Fixture.testQuery)
                Fixture.parseLong "string")))))))
             Fixture.longParsed _).
    discriminate.
  - refine (proj1 (proj2 (builders_only_read_a_loaded_registry Fixture.utcServer
                            Fixture.compiler Fixture.testQuery)
                     Fixture.parseWide "orders")
              Fixture.wideParsed _).
    discriminate.
Defined.
